(** * UwbEventManager: the JNI notification marshaller of the UWB service

    A shallow embedding of the two copies of [UwbEventManager.cpp]
    ([service/uci/jni], the active one, and [service/uci/jni_unused], the
    superseded one) and of the bit-field constants of
    [jni_unused/UwbJniInternal.h].

    Native integers are [Z] with their wrap-around written out, native
    buffers are [list Z] (one [uint8_t] per element), managed values are the
    inductive [jvalue].  A handler is a computation in the monad [jni]: it
    threads the pending-exception flag of the runtime, emits the trace of
    what it did (log lines, allocations, callback invocations, exception
    handling) and can stop on a native fault. *)

From Stdlib Require Import String ZArith Bool Lia List.
Import ListNotations.
Set Warnings "-register-all".
Open Scope string_scope.
Open Scope Z_scope.

(* ===================================================================== *)
(** ** Native integer conversions *)

Definition wrap_signed (bits : Z) (z : Z) : Z :=
  (z + 2 ^ (bits - 1)) mod 2 ^ bits - 2 ^ (bits - 1).

(** [(uint16_t) z] *)
Definition to_uint16 (z : Z) : Z := z mod 2 ^ 16.
(** [(jbyte) z], the reinterpretation done by the [(jbyte * )] casts *)
Definition to_jbyte (z : Z) : Z := wrap_signed 8 z.
(** [(int) z] and the default argument promotion of a narrow integer *)
Definition to_jint (z : Z) : Z := wrap_signed 32 z.
(** [(long) z] on the LP64 targets the service is built for *)
Definition to_jlong (z : Z) : Z := wrap_signed 64 z.

(* ===================================================================== *)
(** ** Managed values *)

Definition jclass := string.

Record jmethodID := MethodID { mid_name : string; mid_sig : string }.

Inductive jvalue : Type :=
| JNull
| JInt (z : Z)
| JLong (z : Z)
| JByteArray (bs : list Z)
| JIntArray (xs : list Z)
| JLongArray (xs : list Z)
| JObjectArray (cls : option jclass) (elems : list jvalue)
| JObject (cls : option jclass) (ctor : jmethodID) (args : list jvalue).

Definition is_null (v : jvalue) : bool :=
  match v with JNull => true | _ => false end.

(** The [i]-th constructor argument of a managed object. *)
Definition ctor_arg (v : jvalue) (i : nat) : option jvalue :=
  match v with
  | JObject _ _ args => nth_error args i
  | _ => None
  end.

(* ===================================================================== *)
(** ** The trace of a handler and the [jni] monad *)

Inductive level := LvlE | LvlI.

Inductive event : Type :=
| EvLog (l : level) (fn : string) (msg : string)
| EvNew (v : jvalue)
| EvCall (obj : jvalue) (mid : jmethodID) (args : list jvalue) (threw : bool)
| EvExceptionDescribe
| EvExceptionClear.

Inductive fault := NullEnvDereference | OutOfBoundsRead.

(** The state of the runtime a handler can observe and change. *)
Record jstate := JState { exception_pending : bool }.

Inductive outcome (A : Type) : Type :=
| Done (evs : list event) (a : A) (s : jstate)
| Crash (evs : list event) (f : fault).
Arguments Done {A} evs a s.
Arguments Crash {A} evs f.

Definition jni (A : Type) : Type := jstate -> outcome A.

Definition ret {A} (a : A) : jni A := fun s => Done [] a s.

Definition bind {A B} (c : jni A) (k : A -> jni B) : jni B :=
  fun s =>
    match c s with
    | Done evs a s' =>
        match k a s' with
        | Done evs' b s'' => Done (evs ++ evs') b s''
        | Crash evs' f => Crash (evs ++ evs') f
        end
    | Crash evs f => Crash evs f
    end.

Declare Scope jni_scope.
Delimit Scope jni_scope with jni.
Notation "x <- c ;; k" := (bind c (fun x => k))
  (at level 100, c at next level, right associativity) : jni_scope.
Notation "c ;; k" := (bind c (fun _ => k))
  (at level 100, right associativity) : jni_scope.
Notation "' pat <- c ;; k" := (bind c (fun x => let 'pat := x in k))
  (at level 100, pat pattern, c at next level, right associativity) : jni_scope.
Open Scope jni_scope.

Definition emit (e : event) : jni unit := fun s => Done [e] tt s.
Definition crash {A} (f : fault) : jni A := fun _ => Crash [] f.

Definition events_of {A} (o : outcome A) : list event :=
  match o with Done evs _ _ => evs | Crash evs _ => evs end.

Definition returns_normally {A} (o : outcome A) : bool :=
  match o with Done _ _ _ => true | Crash _ _ => false end.

Definition final_state {A} (o : outcome A) : option jstate :=
  match o with Done _ _ s => Some s | Crash _ _ => None end.

(** [for (int i = 0; i < n; i++) body], threading the locals [acc]. *)
Fixpoint for_range {S} (i : Z) (count : nat) (body : Z -> S -> jni S) (acc : S)
  : jni S :=
  match count with
  | O => ret acc
  | Datatypes.S count' =>
      acc' <- body i acc ;; for_range (i + 1) count' body acc'
  end.

Definition for_int {S} (n : Z) (body : Z -> S -> jni S) (acc : S) : jni S :=
  for_range 0 (Z.to_nat n) body acc.

(** [a[i]] on a native array of declared size [length a]. *)
Definition read_at {A} (a : list A) (i : Z) : jni A :=
  if i <? 0 then crash OutOfBoundsRead
  else match nth_error a (Z.to_nat i) with
       | Some x => ret x
       | None => crash OutOfBoundsRead
       end.

(** [a[i] = x] on a local array. *)
Fixpoint list_set {A} (a : list A) (i : nat) (x : A) : list A :=
  match a, i with
  | [], _ => []
  | _ :: t, O => x :: t
  | h :: t, Datatypes.S i' => h :: list_set t i' x
  end.

(* ===================================================================== *)
(** ** Logging *)

(** Modelled from the spec: the macro [JNI_TRACE_E] of [JniLog.h], which is
    not among the sources.  An error or warning line the code reaches is
    recorded in the trace, with the function name the format string
    receives and the rest of the message. *)
Definition JNI_TRACE_E (fn msg : string) : jni unit := emit (EvLog LvlE fn msg).

(** Modelled from the spec: the macro [JNI_TRACE_I] of [JniLog.h], which is
    not among the sources.  An informational line is recorded likewise. *)
Definition JNI_TRACE_I (fn msg : string) : jni unit := emit (EvLog LvlI fn msg).

(* ===================================================================== *)
(** ** The runtime boundary

    The JNI runtime is outside the repository.  A [JavaVM] either yields
    an environment for the calling thread or does not; a call through a
    null environment ([env->...]) is a null dereference.  The environment
    knows which listener invocations raise an exception.  Allocation never
    fails, array sizes come from unsigned native fields. *)

Record JNIEnv := MkEnv { listener_throws : jmethodID -> list jvalue -> bool }.
Record JavaVM := MkVm { vm_env : option JNIEnv }.

(** Modelled from the spec: the class [ScopedJniEnv] of [ScopedJniEnv.h],
    which is not among the sources.  Constructed from the virtual machine,
    it holds the environment of the calling thread, or null when that
    environment cannot be obtained. *)
Definition ScopedJniEnv (vm : JavaVM) : option JNIEnv := vm_env vm.

Definition with_env {A} (env : option JNIEnv) (k : JNIEnv -> jni A) : jni A :=
  match env with
  | Some e => k e
  | None => crash NullEnvDereference
  end.

Definition alloc (env : option JNIEnv) (v : jvalue) : jni jvalue :=
  with_env env (fun _ => emit (EvNew v) ;; ret v).

Definition NewByteArray (env : option JNIEnv) (n : Z) : jni jvalue :=
  alloc env (JByteArray (repeat 0 (Z.to_nat n))).
Definition NewIntArray (env : option JNIEnv) (n : Z) : jni jvalue :=
  alloc env (JIntArray (repeat 0 (Z.to_nat n))).
Definition NewLongArray (env : option JNIEnv) (n : Z) : jni jvalue :=
  alloc env (JLongArray (repeat 0 (Z.to_nat n))).
Definition NewObjectArray (env : option JNIEnv) (n : Z) (cls : option jclass)
    (init : jvalue) : jni jvalue :=
  alloc env (JObjectArray cls (repeat init (Z.to_nat n))).
Definition NewObject (env : option JNIEnv) (cls : option jclass)
    (ctor : jmethodID) (args : list jvalue) : jni jvalue :=
  alloc env (JObject cls ctor args).

Definition GetMethodID (env : option JNIEnv) (cls : option jclass)
    (name sig : string) : jni jmethodID :=
  with_env env (fun _ => ret (MethodID name sig)).

Definition set_pending (b : bool) : jni unit := fun _ => Done [] tt (JState b).

(** The elements [start .. start+len) of [old] replaced by [new]. *)
Definition splice (old : list Z) (start len : Z) (new : list Z) : list Z :=
  firstn (Z.to_nat start) old ++ new ++ skipn (Z.to_nat (start + len)) old.

(** The common part of the [Set<T>ArrayRegion] calls: [len] elements are
    read from the native buffer [buf]; reading past its end is a fault. *)
Definition set_region (env : option JNIEnv) (conv : Z -> Z) (old : list Z)
    (start len : Z) (buf : list Z) : jni (option (list Z)) :=
  with_env env (fun _ =>
    if Z.of_nat (length buf) <? len then crash OutOfBoundsRead
    else if (start <? 0) || (len <? 0) || (Z.of_nat (length old) <? start + len)
    then set_pending true ;; ret None
    else ret (Some (splice old start len (map conv (firstn (Z.to_nat len) buf))))).

(** The [Set<T>ArrayRegion] calls return the array after the update (the
    code updates it through its handle). *)
Definition SetByteArrayRegion (env : option JNIEnv) (arr : jvalue)
    (start len : Z) (buf : list Z) : jni jvalue :=
  match arr with
  | JByteArray old =>
      r <- set_region env to_jbyte old start len buf ;;
      ret (match r with Some new => JByteArray new | None => arr end)
  | _ => with_env env (fun _ => set_pending true ;; ret arr)
  end.
Definition SetIntArrayRegion (env : option JNIEnv) (arr : jvalue)
    (start len : Z) (buf : list Z) : jni jvalue :=
  match arr with
  | JIntArray old =>
      r <- set_region env to_jint old start len buf ;;
      ret (match r with Some new => JIntArray new | None => arr end)
  | _ => with_env env (fun _ => set_pending true ;; ret arr)
  end.
Definition SetLongArrayRegion (env : option JNIEnv) (arr : jvalue)
    (start len : Z) (buf : list Z) : jni jvalue :=
  match arr with
  | JLongArray old =>
      r <- set_region env to_jlong old start len buf ;;
      ret (match r with Some new => JLongArray new | None => arr end)
  | _ => with_env env (fun _ => set_pending true ;; ret arr)
  end.

Definition SetObjectArrayElement (env : option JNIEnv) (arr : jvalue)
    (i : Z) (v : jvalue) : jni jvalue :=
  with_env env (fun _ =>
    match arr with
    | JObjectArray cls es =>
        if (i <? 0) || (Z.of_nat (length es) <=? i)
        then set_pending true ;; ret arr
        else ret (JObjectArray cls (list_set es (Z.to_nat i) v))
    | _ => set_pending true ;; ret arr
    end).

Definition CallVoidMethod (env : option JNIEnv) (obj : jvalue)
    (mid : jmethodID) (args : list jvalue) : jni unit :=
  with_env env (fun e s =>
    let threw := listener_throws e mid args in
    Done [EvCall obj mid args threw] tt
         (JState (exception_pending s || threw))).

Definition ExceptionCheck (env : option JNIEnv) : jni bool :=
  with_env env (fun _ s => Done [] (exception_pending s) s).
Definition ExceptionDescribe (env : option JNIEnv) : jni unit :=
  with_env env (fun _ => emit EvExceptionDescribe).
Definition ExceptionClear (env : option JNIEnv) : jni unit :=
  with_env env (fun _ _ => Done [EvExceptionClear] tt (JState false)).

(* ===================================================================== *)
(** ** Constants of the native stack

    [uwa_api.h] and [uci_defs.h] are not among the sources: the values of
    the measurement-type tags, of the short-address mode and of the
    controlee bound are parameters of the development. *)

Class UciDefs := {
  MEASUREMENT_TYPE_TWOWAY : Z;
  MEASUREMENT_TYPE_DLTDOA : Z;
  MEASUREMENT_TYPE_OWR_WITH_AOA : Z;
  SHORT_MAC_ADDRESS : Z;
  MAX_NUM_CONTROLLEES : Z
}.

(** A native pointer argument: [None] is [NULL].  Nothing can be read
    through [NULL]: its buffer is empty. *)
Definition pointer (A : Type) := option A.

Definition buffer_of (data : pointer (list Z)) : list Z :=
  match data with Some b => b | None => [] end.

Definition is_NULL {A} (p : pointer A) : bool :=
  match p with Some _ => false | None => true end.

(** [if (env->ExceptionCheck()) { env->ExceptionClear(); JNI_TRACE_E(...); }],
    the statement that follows every listener invocation but the ranging
    one, which also describes the exception. *)
Definition clear_exception (env : option JNIEnv) (fn msg : string) : jni unit :=
  exc <- ExceptionCheck env ;;
  if exc then
    ExceptionClear env ;;
    JNI_TRACE_E fn msg
  else ret tt.

(* ===================================================================== *)
(** ** The answers of the runtime to the symbol lookups

    What [doLoadSymbols] obtains from the runtime: the virtual machine of
    the environment, the class of the listener object ([NULL] when it
    cannot be found), the method of a class with a given name and
    signature ([NULL] when the class has none) and the content a class
    cache receives. *)

Record JavaRuntime := {
  rt_vm : JavaVM;
  rt_object_class : jvalue -> option jclass;
  rt_method_id : jclass -> string -> string -> option jmethodID;
  rt_cache_jclass : string -> option jclass -> option jclass
}.

(** Modelled from the spec: the helper [uwb_jni_cache_jclass] of
    [UwbJniUtil.h], which is not among the sources.  It resolves the named
    class and caches its reference in the field it is given; what the
    field holds afterwards is the answer of the runtime for that name and
    the previous content. *)
Definition uwb_jni_cache_jclass (rt : JavaRuntime) (className : string)
    (cached : option jclass) : option jclass :=
  rt_cache_jclass rt className cached.

(* ===================================================================== *)
(** * The superseded copy: [service/uci/jni_unused] *)

Module Unused.

(** ** [UwbJniInternal.h] *)

Definition TDOA_TX_TIMESTAMP_OFFSET : Z := 0x00FF.
Definition TDOA_TX_TIMESTAMP_OFFSET_MASK : Z := 0x06.
Definition TDOA_RX_TIMESTAMP_OFFSET : Z := 0x00FF.
Definition TDOA_RX_TIMESTAMP_OFFSET_MASK : Z := 0x18.
Definition TDOA_ANCHOR_LOC_OFFSET : Z := 0x00FF.
Definition TDOA_ANCHOR_LOC_OFFSET_MASK : Z := 0x60.
Definition TDOA_ACTIVE_RR_OFFSET : Z := 0x0FF0.
Definition TDOA_ACTIVE_RR_OFFSET_MASK : Z := 0x0780.

Definition TDOA_TX_TIMESTAMP_40BITS : Z := 0.
Definition TDOA_TX_TIMESTAMP_64BITS : Z := 2.
Definition TDOA_RX_TIMESTAMP_40BITS : Z := 0.
Definition TDOA_RX_TIMESTAMP_64BITS : Z := 8.
Definition TDOA_ANCHOR_LOC_NOT_INCLUDED : Z := 0.
Definition TDOA_ANCHOR_LOC_IN_RELATIVE_SYSTEM : Z := 0x40.
Definition TDOA_ANCHOR_LOC_IN_WGS84_SYSTEM : Z := 0x20.
Definition MAC_SHORT_ADD_LEN : Z := 2.
Definition MAC_EXT_ADD_LEN : Z := 8.
Definition TDOA_TIMESTAMP_LEN_40BITS : Z := 5.
Definition TDOA_TIMESTAMP_LEN_64BITS : Z := 8.
Definition TDOA_ANCHOR_LOC_LEN_10BYTES : Z := 10.
Definition TDOA_ANCHOR_LOC_LEN_12BYTES : Z := 12.
Definition TDOA_ACTIVE_RR_INDEX_POSITION : Z := 7.

(** ** The notification structures

    The structure declarations are in [uwa_api.h], which is not among the
    sources; the records carry the fields the code reads.  A native array
    field is the list of its elements, so its declared size is the length
    of the list.  The union [ranging_measures] is the record of its views. *)

Record tUWA_TWR_RANGING_MEASR := {
  twr_mac_addr : list Z;
  twr_status : Z;
  twr_nLos : Z;
  twr_distance : Z;
  twr_aoa_azimuth : Z;
  twr_aoa_azimuth_FOM : Z;
  twr_aoa_elevation : Z;
  twr_aoa_elevation_FOM : Z;
  twr_aoa_dest_azimuth : Z;
  twr_aoa_dest_azimuth_FOM : Z;
  twr_aoa_dest_elevation : Z;
  twr_aoa_dest_elevation_FOM : Z;
  twr_slot_index : Z;
  twr_rssi : Z;
  twr_rfu : list Z
}.

Record tUWA_DLTDOA_RANGING_MEASR := {
  dl_mac_addr : list Z;
  dl_status : Z;
  dl_message_type : Z;
  dl_message_control : Z;
  dl_block_index : Z;
  dl_round_index : Z;
  dl_nLos : Z;
  dl_aoa_azimuth : Z;
  dl_aoa_azimuth_FOM : Z;
  dl_aoa_elevation : Z;
  dl_aoa_elevation_FOM : Z;
  dl_txTimeStamp : list Z;
  dl_rxTimeStamp : list Z;
  dl_cfo_anchor : Z;
  dl_cfo : Z;
  dl_initiator_reply_time : Z;
  dl_responder_reply_time : Z;
  dl_initiator_responder_TOF : Z;
  dl_anchor_location : list Z;
  dl_active_ranging_round : list Z
}.

Record tUWA_OWR_WITH_AOA_RANGING_MEASR := {
  owr_mac_addr : list Z;
  owr_status : Z;
  owr_nLos : Z;
  owr_frame_seq_num : Z;
  owr_block_index : Z;
  owr_aoa_azimuth : Z;
  owr_aoa_azimuth_FOM : Z;
  owr_aoa_elevation : Z;
  owr_aoa_elevation_FOM : Z
}.

Record tUWA_RANGING_MEASURES := {
  twr_range_measr : list tUWA_TWR_RANGING_MEASR;
  dltdoa_range_measr : list tUWA_DLTDOA_RANGING_MEASR;
  owr_with_aoa_range_measr : tUWA_OWR_WITH_AOA_RANGING_MEASR
}.

Record tUWA_VENDOR_SPECIFIC_NTF := {
  vs_len : Z;
  vs_data : list Z
}.

Record tUWA_RANGE_DATA_NTF := {
  seq_counter : Z;
  session_id : Z;
  rcr_indication : Z;
  curr_range_interval : Z;
  ranging_measure_type : Z;
  mac_addr_mode_indicator : Z;
  no_of_measurements : Z;
  ranging_measures : tUWA_RANGING_MEASURES;
  vendor_specific_ntf : tUWA_VENDOR_SPECIFIC_NTF
}.

Record tUWA_SESSION_UPDATE_MULTICAST_LIST_NTF := {
  mc_session_id : Z;
  mc_remaining_list : Z;
  mc_no_of_controlees : Z;
  mc_controlee_mac_address_list : list Z;
  mc_subsession_id_list : list Z;
  mc_status_list : list Z
}.

(** ** The manager *)

Record UwbEventManager := {
  mVm : JavaVM;
  mClass : option jclass;
  mObject : jvalue;
  mRangeDataClass : option jclass;
  mRangingTwoWayMeasuresClass : option jclass;
  mRangingOwrAoaMeasuresClass : option jclass;
  mRangeTdoaMeasuresClass : option jclass;
  mRangeDlTdoaMeasuresClass : option jclass;
  mMulticastUpdateListDataClass : option jclass;
  mOnDeviceStateNotificationReceived : option jmethodID;
  mOnRangeDataNotificationReceived : option jmethodID;
  mOnSessionStatusNotificationReceived : option jmethodID;
  mOnCoreGenericErrorNotificationReceived : option jmethodID;
  mOnMulticastListUpdateNotificationReceived : option jmethodID;
  mOnBlinkDataTxNotificationReceived : option jmethodID;
  mOnRawUciNotificationReceived : option jmethodID;
  mOnVendorUciNotificationReceived : option jmethodID;
  mOnVendorDeviceInfo : option jmethodID
}.

Section Handlers.
Context {defs : UciDefs}.
Variable this : UwbEventManager.

(** *** [onRangeDataNotificationReceived], the record marshalling *)

(** Lines 101-155: one two-way record. *)
Definition twr_measure (env : option JNIEnv) (mode : Z)
    (m : tUWA_TWR_RANGING_MEASR) : jni jvalue :=
  '(macAddress, rfu) <-
    (if mode =? SHORT_MAC_ADDRESS then
       macAddress <- NewByteArray env 2 ;;
       macAddress <- SetByteArrayRegion env macAddress 0 2 (twr_mac_addr m) ;;
       rfu <- NewByteArray env 12 ;;
       rfu <- SetByteArrayRegion env rfu 0 12 (twr_rfu m) ;;
       ret (macAddress, rfu)
     else
       macAddress <- NewByteArray env 8 ;;
       macAddress <- SetByteArrayRegion env macAddress 0 8 (twr_mac_addr m) ;;
       rfu <- NewByteArray env 6 ;;
       rfu <- SetByteArrayRegion env rfu 0 6 (twr_rfu m) ;;
       ret (macAddress, rfu)) ;;
  rngMeasuresCtor <- GetMethodID env (mRangingTwoWayMeasuresClass this)
                       "<init>" "([BIIIIIIIIIIIII)V" ;;
  NewObject env (mRangingTwoWayMeasuresClass this) rngMeasuresCtor
    [ macAddress;
      JInt (to_jint (twr_status m));
      JInt (to_jint (twr_nLos m));
      JInt (to_jint (twr_distance m));
      JInt (to_jint (twr_aoa_azimuth m));
      JInt (to_jint (twr_aoa_azimuth_FOM m));
      JInt (to_jint (twr_aoa_elevation m));
      JInt (to_jint (twr_aoa_elevation_FOM m));
      JInt (to_jint (twr_aoa_dest_azimuth m));
      JInt (to_jint (twr_aoa_dest_azimuth_FOM m));
      JInt (to_jint (twr_aoa_dest_elevation m));
      JInt (to_jint (twr_aoa_dest_elevation_FOM m));
      JInt (to_jint (twr_slot_index m));
      JInt (to_jint (twr_rssi m));
      rfu ].

(** Lines 189-201: the address of a downlink-TDoA record. *)
Definition dltdoa_mac_address (env : option JNIEnv) (mode : Z)
    (m : tUWA_DLTDOA_RANGING_MEASR) : jni jvalue :=
  if mode =? SHORT_MAC_ADDRESS then
    dlTdoaMacAddress <- NewByteArray env MAC_SHORT_ADD_LEN ;;
    SetByteArrayRegion env dlTdoaMacAddress 0 MAC_SHORT_ADD_LEN (dl_mac_addr m)
  else
    dlTdoaMacAddress <- NewByteArray env MAC_EXT_ADD_LEN ;;
    SetByteArrayRegion env dlTdoaMacAddress 0 MAC_EXT_ADD_LEN (dl_mac_addr m).

(** Lines 203-207, 224-228, 245-249, 268-273: the selectors, each stored
    in a [uint16_t] local. *)
Definition txTimeStampValue (message_control : Z) : Z :=
  to_uint16 (Z.land (Z.land message_control TDOA_TX_TIMESTAMP_OFFSET)
                    TDOA_TX_TIMESTAMP_OFFSET_MASK).
Definition rxTimeStampValue (message_control : Z) : Z :=
  to_uint16 (Z.land (Z.land message_control TDOA_RX_TIMESTAMP_OFFSET)
                    TDOA_RX_TIMESTAMP_OFFSET_MASK).
Definition anchorLocationValue (message_control : Z) : Z :=
  to_uint16 (Z.land (Z.land message_control TDOA_ANCHOR_LOC_OFFSET)
                    TDOA_ANCHOR_LOC_OFFSET_MASK).
Definition activeRangingRoundValue (message_control : Z) : Z :=
  to_uint16 (Z.shiftr (Z.land (Z.land message_control TDOA_ACTIVE_RR_OFFSET)
                              TDOA_ACTIVE_RR_OFFSET_MASK)
                      TDOA_ACTIVE_RR_INDEX_POSITION).

Definition fn_range : string := "onRangeDataNotificationReceived".

(** Lines 203-222. *)
Definition dltdoa_tx_timestamp (env : option JNIEnv)
    (m : tUWA_DLTDOA_RANGING_MEASR) : jni jvalue :=
  let txTimeStampValue := txTimeStampValue (dl_message_control m) in
  if txTimeStampValue =? TDOA_TX_TIMESTAMP_40BITS then
    dlTdoaTxTimeStamp <- NewByteArray env TDOA_TIMESTAMP_LEN_40BITS ;;
    SetByteArrayRegion env dlTdoaTxTimeStamp 0 TDOA_TIMESTAMP_LEN_40BITS
      (dl_txTimeStamp m)
  else if txTimeStampValue =? TDOA_TX_TIMESTAMP_64BITS then
    dlTdoaTxTimeStamp <- NewByteArray env TDOA_TIMESTAMP_LEN_64BITS ;;
    SetByteArrayRegion env dlTdoaTxTimeStamp 0 TDOA_TIMESTAMP_LEN_64BITS
      (dl_txTimeStamp m)
  else
    JNI_TRACE_E fn_range "Invalid dlTdoaTxTimeStamp" ;;
    ret JNull.

(** Lines 224-243. *)
Definition dltdoa_rx_timestamp (env : option JNIEnv)
    (m : tUWA_DLTDOA_RANGING_MEASR) : jni jvalue :=
  let rxTimeStampValue := rxTimeStampValue (dl_message_control m) in
  if rxTimeStampValue =? TDOA_RX_TIMESTAMP_40BITS then
    dlTdoaRxTimeStamp <- NewByteArray env TDOA_TIMESTAMP_LEN_40BITS ;;
    SetByteArrayRegion env dlTdoaRxTimeStamp 0 TDOA_TIMESTAMP_LEN_40BITS
      (dl_rxTimeStamp m)
  else if rxTimeStampValue =? TDOA_RX_TIMESTAMP_64BITS then
    dlTdoaRxTimeStamp <- NewByteArray env TDOA_TIMESTAMP_LEN_64BITS ;;
    SetByteArrayRegion env dlTdoaRxTimeStamp 0 TDOA_TIMESTAMP_LEN_64BITS
      (dl_rxTimeStamp m)
  else
    JNI_TRACE_E fn_range "Invalid dlTdoaRxTimeStamp" ;;
    ret JNull.

(** Lines 245-266. *)
Definition dltdoa_anchor_location (env : option JNIEnv)
    (m : tUWA_DLTDOA_RANGING_MEASR) : jni jvalue :=
  let anchorLocationValue := anchorLocationValue (dl_message_control m) in
  if anchorLocationValue =? TDOA_ANCHOR_LOC_NOT_INCLUDED then
    JNI_TRACE_I fn_range "AnchorLocation not included" ;;
    ret JNull
  else if anchorLocationValue =? TDOA_ANCHOR_LOC_IN_RELATIVE_SYSTEM then
    dlTdoaAnchorLocation <- NewByteArray env TDOA_ANCHOR_LOC_LEN_10BYTES ;;
    SetByteArrayRegion env dlTdoaAnchorLocation 0 TDOA_ANCHOR_LOC_LEN_10BYTES
      (dl_anchor_location m)
  else if anchorLocationValue =? TDOA_ANCHOR_LOC_IN_WGS84_SYSTEM then
    dlTdoaAnchorLocation <- NewByteArray env TDOA_ANCHOR_LOC_LEN_12BYTES ;;
    SetByteArrayRegion env dlTdoaAnchorLocation 0 TDOA_ANCHOR_LOC_LEN_12BYTES
      (dl_anchor_location m)
  else
    JNI_TRACE_E fn_range "Invalid dlTdoaAnchorLocation" ;;
    ret JNull.

(** Lines 268-282. *)
Definition dltdoa_active_ranging_round (env : option JNIEnv)
    (m : tUWA_DLTDOA_RANGING_MEASR) : jni jvalue :=
  let activeRangingRoundValue :=
    activeRangingRoundValue (dl_message_control m) in
  if negb (activeRangingRoundValue =? 0) then
    dlTdoaActiveRangingRound <- NewByteArray env activeRangingRoundValue ;;
    SetByteArrayRegion env dlTdoaActiveRangingRound 0 activeRangingRoundValue
      (dl_active_ranging_round m)
  else
    JNI_TRACE_I fn_range "dlTdoaActiveRangingRound not included" ;;
    ret JNull.

(** Lines 178-320: one downlink-TDoA record. *)
Definition dltdoa_measure (env : option JNIEnv) (mode : Z)
    (m : tUWA_DLTDOA_RANGING_MEASR) : jni jvalue :=
  dlTdoaMacAddress <- dltdoa_mac_address env mode m ;;
  dlTdoaTxTimeStamp <- dltdoa_tx_timestamp env m ;;
  dlTdoaRxTimeStamp <- dltdoa_rx_timestamp env m ;;
  dlTdoaAnchorLocation <- dltdoa_anchor_location env m ;;
  dlTdoaActiveRangingRound <- dltdoa_active_ranging_round env m ;;
  rngDlTdoaMeasuresCtor <- GetMethodID env (mRangeDlTdoaMeasuresClass this)
                             "<init>" "([BIIIIIIIIII[B[BIIJJI[B[B)V" ;;
  NewObject env (mRangeDlTdoaMeasuresClass this) rngDlTdoaMeasuresCtor
    [ dlTdoaMacAddress;
      JInt (to_jint (dl_status m));
      JInt (to_jint (dl_message_type m));
      JInt (to_jint (dl_message_control m));
      JInt (to_jint (dl_block_index m));
      JInt (to_jint (dl_round_index m));
      JInt (to_jint (dl_nLos m));
      JInt (to_jint (dl_aoa_azimuth m));
      JInt (to_jint (dl_aoa_azimuth_FOM m));
      JInt (to_jint (dl_aoa_elevation m));
      JInt (to_jint (dl_aoa_elevation_FOM m));
      dlTdoaTxTimeStamp;
      dlTdoaRxTimeStamp;
      JInt (to_jint (dl_cfo_anchor m));
      JInt (to_jint (dl_cfo m));
      JLong (to_jlong (dl_initiator_reply_time m));
      JLong (to_jlong (dl_responder_reply_time m));
      JInt (to_jint (dl_initiator_responder_TOF m));
      dlTdoaAnchorLocation;
      dlTdoaActiveRangingRound ].

(** The positions of the variable-length fields among the constructor
    arguments of [UwbDownLinkTDoAMeasurement]. *)
Definition DL_ARG_MAC : nat := 0.
Definition DL_ARG_TX_TIMESTAMP : nat := 11.
Definition DL_ARG_RX_TIMESTAMP : nat := 12.
Definition DL_ARG_ANCHOR_LOCATION : nat := 18.
Definition DL_ARG_ACTIVE_RANGING_ROUND : nat := 19.

(** Lines 341-370: the one-way-with-AoA record. *)
Definition owr_aoa_measure (env : option JNIEnv) (mode : Z)
    (m : tUWA_OWR_WITH_AOA_RANGING_MEASR) : jni jvalue :=
  owrAoaMacAddress <-
    (if mode =? SHORT_MAC_ADDRESS then
       owrAoaMacAddress <- NewByteArray env 2 ;;
       SetByteArrayRegion env owrAoaMacAddress 0 2 (owr_mac_addr m)
     else
       owrAoaMacAddress <- NewByteArray env 8 ;;
       SetByteArrayRegion env owrAoaMacAddress 0 8 (owr_mac_addr m)) ;;
  rngOwrAoaMeasuresCtor <- GetMethodID env (mRangingOwrAoaMeasuresClass this)
                             "<init>" "([BIIIIIIII)V" ;;
  NewObject env (mRangingOwrAoaMeasuresClass this) rngOwrAoaMeasuresCtor
    [ owrAoaMacAddress;
      JInt (to_jint (owr_status m));
      JInt (to_jint (owr_nLos m));
      JInt (to_jint (owr_frame_seq_num m));
      JInt (to_jint (owr_block_index m));
      JInt (to_jint (owr_aoa_azimuth m));
      JInt (to_jint (owr_aoa_azimuth_FOM m));
      JInt (to_jint (owr_aoa_elevation m));
      JInt (to_jint (owr_aoa_elevation_FOM m)) ].

(** *** [onRangeDataNotificationReceived], the three branches *)

(** The notification-level constructor arguments shared by the branches. *)
Definition range_data_args (ntf : tUWA_RANGE_DATA_NTF)
    (measures vendorSpecificData : jvalue) : list jvalue :=
  [ JLong (to_jlong (seq_counter ntf));
    JLong (to_jlong (session_id ntf));
    JInt (to_jint (rcr_indication ntf));
    JLong (to_jlong (curr_range_interval ntf));
    JInt (to_jint (ranging_measure_type ntf));
    JInt (to_jint (mac_addr_mode_indicator ntf));
    JInt (to_jint (no_of_measurements ntf));
    measures;
    vendorSpecificData ].

(** Lines 91-169. *)
Definition range_data_twoway (env : option JNIEnv)
    (ranging_ntf_data : tUWA_RANGE_DATA_NTF) (vendorSpecificData : jvalue)
  : jni jvalue :=
  JNI_TRACE_I fn_range "ranging_measure_type = MEASUREMENT_TYPE_TWOWAY" ;;
  rangeMeasuresArray <-
    NewObjectArray env (no_of_measurements ranging_ntf_data)
      (mRangingTwoWayMeasuresClass this) JNull ;;
  rangeMeasuresArray <-
    for_int (no_of_measurements ranging_ntf_data)
      (fun i rangeMeasuresArray =>
         m <- read_at (twr_range_measr (ranging_measures ranging_ntf_data)) i ;;
         o <- twr_measure env (mac_addr_mode_indicator ranging_ntf_data) m ;;
         SetObjectArrayElement env rangeMeasuresArray i o)
      rangeMeasuresArray ;;
  rngDataCtorTwm <-
    GetMethodID env (mRangeDataClass this) "<init>"
      "(JJIJIII[Lcom/android/server/uwb/data/UwbTwoWayMeasurement;[B)V" ;;
  NewObject env (mRangeDataClass this) rngDataCtorTwm
    (range_data_args ranging_ntf_data rangeMeasuresArray vendorSpecificData).

(** Lines 172-334. *)
Definition range_data_dltdoa (env : option JNIEnv)
    (ranging_ntf_data : tUWA_RANGE_DATA_NTF) (vendorSpecificData : jvalue)
  : jni jvalue :=
  JNI_TRACE_I fn_range "ranging_measure_type = MEASUREMENT_TYPE_DLTDOA" ;;
  rangeDlTdoaMeasuresArray <-
    NewObjectArray env (no_of_measurements ranging_ntf_data)
      (mRangeDlTdoaMeasuresClass this) JNull ;;
  rangeDlTdoaMeasuresArray <-
    for_int (no_of_measurements ranging_ntf_data)
      (fun i rangeDlTdoaMeasuresArray =>
         m <- read_at (dltdoa_range_measr (ranging_measures ranging_ntf_data)) i ;;
         o <- dltdoa_measure env (mac_addr_mode_indicator ranging_ntf_data) m ;;
         SetObjectArrayElement env rangeDlTdoaMeasuresArray i o)
      rangeDlTdoaMeasuresArray ;;
  rngDataCtorDlTdoa <-
    GetMethodID env (mRangeDataClass this) "<init>"
      "(JJIJBBI[Lcom/android/server/uwb/data/UwbDownLinkTDoAMeasurement;[B)V" ;;
  NewObject env (mRangeDataClass this) rngDataCtorDlTdoa
    (range_data_args ranging_ntf_data rangeDlTdoaMeasuresArray
       vendorSpecificData).

(** Lines 337-383. *)
Definition range_data_owr_aoa (env : option JNIEnv)
    (ranging_ntf_data : tUWA_RANGE_DATA_NTF) (vendorSpecificData : jvalue)
  : jni jvalue :=
  JNI_TRACE_I fn_range "ranging_measure_type = MEASUREMENT_TYPE_OWR_WITH_AOA" ;;
  rangeOwrAoaMeasures <-
    owr_aoa_measure env (mac_addr_mode_indicator ranging_ntf_data)
      (owr_with_aoa_range_measr (ranging_measures ranging_ntf_data)) ;;
  rngDataCtorOwrAoa <-
    GetMethodID env (mRangeDataClass this) "<init>"
      "(JJIJIIILcom/android/server/uwb/data/UwbOwrAoaMeasurement;[B)V" ;;
  NewObject env (mRangeDataClass this) rngDataCtorOwrAoa
    (range_data_args ranging_ntf_data rangeOwrAoaMeasures vendorSpecificData).

(** Lines 79-89: the optional vendor payload. *)
Definition vendor_specific_data (env : option JNIEnv)
    (ranging_ntf_data : tUWA_RANGE_DATA_NTF) : jni jvalue :=
  let len := vs_len (vendor_specific_ntf ranging_ntf_data) in
  if len >? 0 then
    vendorSpecificData <- NewByteArray env len ;;
    SetByteArrayRegion env vendorSpecificData 0 len
      (vs_data (vendor_specific_ntf ranging_ntf_data))
  else
    JNI_TRACE_I fn_range "No Vendor specific ntf data!" ;;
    ret JNull.

(** Lines 90-384: the dispatch on the measurement-type tag;
    [rangeDataObject] starts as [NULL]. *)
Definition range_data_object (env : option JNIEnv)
    (ranging_ntf_data : tUWA_RANGE_DATA_NTF) (vendorSpecificData : jvalue)
  : jni jvalue :=
  if ranging_measure_type ranging_ntf_data =? MEASUREMENT_TYPE_TWOWAY then
    range_data_twoway env ranging_ntf_data vendorSpecificData
  else if ranging_measure_type ranging_ntf_data =? MEASUREMENT_TYPE_DLTDOA then
    range_data_dltdoa env ranging_ntf_data vendorSpecificData
  else if ranging_measure_type ranging_ntf_data
          =? MEASUREMENT_TYPE_OWR_WITH_AOA then
    range_data_owr_aoa env ranging_ntf_data vendorSpecificData
  else ret JNull.

(** Lines 386-396: the delivery. *)
Definition deliver_range_data (env : option JNIEnv) (rangeDataObject : jvalue)
  : jni unit :=
  match mOnRangeDataNotificationReceived this with
  | Some mid =>
      if negb (is_null rangeDataObject) then
        CallVoidMethod env (mObject this) mid [rangeDataObject] ;;
        exc <- ExceptionCheck env ;;
        if exc then
          ExceptionDescribe env ;;
          ExceptionClear env ;;
          JNI_TRACE_E fn_range "fail to send range data"
        else ret tt
      else JNI_TRACE_E fn_range "rangeDataNtf MID is NULL"
  | None => JNI_TRACE_E fn_range "rangeDataNtf MID is NULL"
  end.

Definition onRangeDataNotificationReceived
    (ranging_ntf_data : tUWA_RANGE_DATA_NTF) : jni unit :=
  let env := ScopedJniEnv (mVm this) in
  match env with
  | None => JNI_TRACE_E fn_range "jni env is null"
  | Some _ =>
      vendorSpecificData <- vendor_specific_data env ranging_ntf_data ;;
      rangeDataObject <-
        range_data_object env ranging_ntf_data vendorSpecificData ;;
      deliver_range_data env rangeDataObject ;;
      JNI_TRACE_I fn_range "exit"
  end.

(** *** The other entry points *)

Definition onRawUciNotificationReceived (data : pointer (list Z)) (length : Z)
  : jni unit :=
  let fn := "onRawUciNotificationReceived" in
  JNI_TRACE_I fn "Enter" ;;
  let env := ScopedJniEnv (mVm this) in
  match env with
  | None => JNI_TRACE_E fn "jni env is null"
  | Some _ =>
      if (length =? 0) || is_NULL data then
        JNI_TRACE_E fn
          "length is zero or data is NULL, skip sending notifications"
      else
        dataArray <- NewByteArray env length ;;
        dataArray <- SetByteArrayRegion env dataArray 0 length (buffer_of data) ;;
        match mOnRawUciNotificationReceived this with
        | Some mid =>
            CallVoidMethod env (mObject this) mid [dataArray] ;;
            clear_exception env fn "fail to send notification"
        | None => JNI_TRACE_E fn "onRawUciNotificationReceived MID is NULL"
        end ;;
        JNI_TRACE_I fn "exit"
  end.

Definition onSessionStatusNotificationReceived (sessionId state reasonCode : Z)
  : jni unit :=
  let fn := "notifySessionStateNotification" in
  JNI_TRACE_I fn "enter; session ID=%x, State = %x reasonCode = %x" ;;
  let env := ScopedJniEnv (mVm this) in
  match env with
  | None => JNI_TRACE_E fn "jni env is null"
  | Some _ =>
      match mOnSessionStatusNotificationReceived this with
      | Some mid =>
          CallVoidMethod env (mObject this) mid
            [ JLong (to_jlong sessionId); JInt (to_jint state);
              JInt (to_jint reasonCode) ] ;;
          clear_exception env fn "fail to notify"
      | None => JNI_TRACE_E fn "sessionStatusNtf MID is null "
      end ;;
      JNI_TRACE_I fn "exit"
  end.

Definition onDeviceStateNotificationReceived (state : Z) : jni unit :=
  let fn := "notifyDeviceStateNotification" in
  JNI_TRACE_I fn "enter:  State = %x" ;;
  let env := ScopedJniEnv (mVm this) in
  match env with
  | None => JNI_TRACE_E fn "jni env is null"
  | Some _ =>
      match mOnDeviceStateNotificationReceived this with
      | Some mid =>
          CallVoidMethod env (mObject this) mid [ JInt (to_jint state) ] ;;
          clear_exception env fn "fail to notify"
      | None => JNI_TRACE_E fn "deviceStatusNtf MID is null "
      end ;;
      JNI_TRACE_I fn "exit"
  end.

Definition onCoreGenericErrorNotificationReceived (state : Z) : jni unit :=
  let fn := "notifyCoreGenericErrorNotification" in
  JNI_TRACE_I fn "enter:  State = %x" ;;
  let env := ScopedJniEnv (mVm this) in
  match env with
  | None => JNI_TRACE_E fn "jni env is null"
  | Some _ =>
      match mOnCoreGenericErrorNotificationReceived this with
      | Some mid =>
          CallVoidMethod env (mObject this) mid [ JInt (to_jint state) ] ;;
          clear_exception env fn "fail to notify"
      | None => JNI_TRACE_E fn "genericErrorStatusNtf MID is null "
      end ;;
      JNI_TRACE_I fn "exit"
  end.

Definition fn_multicast : string := "onMulticastListUpdateNotificationReceived".

(** Lines 538-558: the local lists are filled element by element and
    copied into the managed arrays. *)
Definition multicast_fill_arrays (env : option JNIEnv)
    (ntf : tUWA_SESSION_UPDATE_MULTICAST_LIST_NTF)
    (controleeMacAddressArray subSessionIdArray statusArray : jvalue)
  : jni (jvalue * jvalue * jvalue) :=
  let n := mc_no_of_controlees ntf in
  if n >? 0 then
    let controleeMacAddressList := repeat 0 (Z.to_nat n) in
    let statusList := repeat 0 (Z.to_nat n) in
    let subSessionIdList := repeat 0 (Z.to_nat n) in
    '(controleeMacAddressList, statusList) <-
      for_int n
        (fun i '(controleeMacAddressList, statusList) =>
           a <- read_at (mc_controlee_mac_address_list ntf) i ;;
           s <- read_at (mc_status_list ntf) i ;;
           ret (list_set controleeMacAddressList (Z.to_nat i) a,
                list_set statusList (Z.to_nat i) s))
        (controleeMacAddressList, statusList) ;;
    subSessionIdList <-
      for_int n
        (fun i subSessionIdList =>
           x <- read_at (mc_subsession_id_list ntf) i ;;
           ret (list_set subSessionIdList (Z.to_nat i) x))
        subSessionIdList ;;
    controleeMacAddressArray <-
      SetIntArrayRegion env controleeMacAddressArray 0 n
        controleeMacAddressList ;;
    subSessionIdArray <-
      SetLongArrayRegion env subSessionIdArray 0 n subSessionIdList ;;
    statusArray <- SetIntArrayRegion env statusArray 0 n statusList ;;
    ret (controleeMacAddressArray, subSessionIdArray, statusArray)
  else ret (controleeMacAddressArray, subSessionIdArray, statusArray).

(** Lines 531-578: what follows the three guards. *)
Definition multicast_marshal_and_deliver (env : option JNIEnv)
    (ntf : tUWA_SESSION_UPDATE_MULTICAST_LIST_NTF) : jni unit :=
  controleeMacAddressArray <- NewIntArray env (mc_no_of_controlees ntf) ;;
  subSessionIdArray <- NewLongArray env (mc_no_of_controlees ntf) ;;
  statusArray <- NewIntArray env (mc_no_of_controlees ntf) ;;
  '(controleeMacAddressArray, subSessionIdArray, statusArray) <-
    multicast_fill_arrays env ntf controleeMacAddressArray subSessionIdArray
      statusArray ;;
  multicastUpdateListDataCtor <-
    GetMethodID env (mMulticastUpdateListDataClass this) "<init>"
      "(JII[I[J[I)V" ;;
  multicastUpdateListDataObject <-
    NewObject env (mMulticastUpdateListDataClass this)
      multicastUpdateListDataCtor
      [ JLong (to_jlong (mc_session_id ntf));
        JInt (to_jint (mc_remaining_list ntf));
        JInt (to_jint (mc_no_of_controlees ntf));
        controleeMacAddressArray; subSessionIdArray; statusArray ] ;;
  match mOnMulticastListUpdateNotificationReceived this with
  | Some mid =>
      CallVoidMethod env (mObject this) mid [multicastUpdateListDataObject] ;;
      clear_exception env fn_multicast "fail to send Multicast update list ntf"
  | None => JNI_TRACE_E fn_multicast "MulticastUpdateListNtf MID is null "
  end ;;
  JNI_TRACE_I fn_multicast "exit".

Definition onMulticastListUpdateNotificationReceived
    (multicast_list_ntf : pointer tUWA_SESSION_UPDATE_MULTICAST_LIST_NTF)
  : jni unit :=
  JNI_TRACE_I fn_multicast "enter;" ;;
  let env := ScopedJniEnv (mVm this) in
  match env with
  | None => JNI_TRACE_E fn_multicast "jni env is null"
  | Some _ =>
      match multicast_list_ntf with
      | None => JNI_TRACE_E fn_multicast "multicast_list_ntf is null"
      | Some ntf =>
          if mc_no_of_controlees ntf >? MAX_NUM_CONTROLLEES then
            JNI_TRACE_E fn_multicast
              "no Of Controlees %d exceeded max allowed: %d "
          else multicast_marshal_and_deliver env ntf
      end
  end.

Definition onBlinkDataTxNotificationReceived (status : Z) : jni unit :=
  let fn := "onBlinkDataTxNotificationReceived" in
  JNI_TRACE_I fn "enter:  State = %x" ;;
  let env := ScopedJniEnv (mVm this) in
  match env with
  | None => JNI_TRACE_E fn "jni env is null"
  | Some _ =>
      match mOnBlinkDataTxNotificationReceived this with
      | Some mid =>
          CallVoidMethod env (mObject this) mid [ JInt (to_jint status) ] ;;
          clear_exception env fn "fail to notify"
      | None => JNI_TRACE_E fn "BlikDataTxNtf MID is null "
      end ;;
      JNI_TRACE_I fn "exit"
  end.

Definition onVendorUciNotificationReceived (gid oid : Z)
    (data : pointer (list Z)) (length : Z) : jni unit :=
  let fn := "onVendorUciNotificationReceived" in
  let env := ScopedJniEnv (mVm this) in
  match env with
  | None => JNI_TRACE_E fn "jni env is null"
  | Some _ =>
      dataArray <- NewByteArray env length ;;
      dataArray <- SetByteArrayRegion env dataArray 0 length (buffer_of data) ;;
      match mOnVendorUciNotificationReceived this with
      | Some mid =>
          CallVoidMethod env (mObject this) mid
            [ JInt (to_jint gid); JInt (to_jint oid); dataArray ] ;;
          clear_exception env fn "fail to send notification"
      | None => JNI_TRACE_E fn "onVendorUciNotificationReceived MID is NULL"
      end ;;
      JNI_TRACE_I fn "exit"
  end.

(** Lines 630-652: the scoped environment is used without a test. *)
Definition onVendorDeviceInfo (data : pointer (list Z)) (length : Z)
  : jni unit :=
  let fn := "onVendorDeviceInfo" in
  if (length <=? 0) || is_NULL data then
    JNI_TRACE_E fn "data len is Zero or vendorDevice info  is NULL"
  else
    let env := ScopedJniEnv (mVm this) in
    dataArray <- NewByteArray env length ;;
    dataArray <- SetByteArrayRegion env dataArray 0 length (buffer_of data) ;;
    match mOnVendorDeviceInfo this with
    | Some mid =>
        CallVoidMethod env (mObject this) mid [dataArray] ;;
        clear_exception env fn "fail to vendor info"
    | None => JNI_TRACE_E fn "onVendorDeviceInfo MID is NULL"
    end ;;
    JNI_TRACE_I fn "exit".

End Handlers.

(** ** Well-formed records

    A record is well formed when its native buffers have room for what the
    code copies out of them: an extended address, the padding of the short
    mode, a 64-bit timestamp, a WGS84 location, and as many active ranging
    rounds as the control word announces. *)

Definition twr_buffers_ok (m : tUWA_TWR_RANGING_MEASR) : bool :=
  (8 <=? Z.of_nat (length (twr_mac_addr m)))
  && (12 <=? Z.of_nat (length (twr_rfu m))).

Definition dltdoa_buffers_ok (m : tUWA_DLTDOA_RANGING_MEASR) : bool :=
  (MAC_EXT_ADD_LEN <=? Z.of_nat (length (dl_mac_addr m)))
  && (TDOA_TIMESTAMP_LEN_64BITS <=? Z.of_nat (length (dl_txTimeStamp m)))
  && (TDOA_TIMESTAMP_LEN_64BITS <=? Z.of_nat (length (dl_rxTimeStamp m)))
  && (TDOA_ANCHOR_LOC_LEN_12BYTES <=? Z.of_nat (length (dl_anchor_location m)))
  && (activeRangingRoundValue (dl_message_control m)
      <=? Z.of_nat (length (dl_active_ranging_round m))).

(** ** The entry points as one dispatch *)

Inductive notification : Type :=
| RangeData (ranging_ntf_data : tUWA_RANGE_DATA_NTF)
| RawUci (data : pointer (list Z)) (length : Z)
| SessionStatus (sessionId state reasonCode : Z)
| DeviceState (state : Z)
| CoreGenericError (state : Z)
| MulticastListUpdate
    (multicast_list_ntf : pointer tUWA_SESSION_UPDATE_MULTICAST_LIST_NTF)
| BlinkDataTx (status : Z)
| VendorUci (gid oid : Z) (data : pointer (list Z)) (length : Z)
| VendorDeviceInfo (data : pointer (list Z)) (length : Z).

Definition handle {defs : UciDefs} (this : UwbEventManager) (n : notification)
  : jni unit :=
  match n with
  | RangeData ntf => onRangeDataNotificationReceived this ntf
  | RawUci data len => onRawUciNotificationReceived this data len
  | SessionStatus sid st rc => onSessionStatusNotificationReceived this sid st rc
  | DeviceState st => onDeviceStateNotificationReceived this st
  | CoreGenericError st => onCoreGenericErrorNotificationReceived this st
  | MulticastListUpdate ntf => onMulticastListUpdateNotificationReceived this ntf
  | BlinkDataTx st => onBlinkDataTxNotificationReceived this st
  | VendorUci gid oid data len =>
      onVendorUciNotificationReceived this gid oid data len
  | VendorDeviceInfo data len => onVendorDeviceInfo this data len
  end.

(** ** [doLoadSymbols] (lines 654-698) *)

Definition RANGING_DATA_CLASS_NAME : string :=
  "com/android/server/uwb/data/UwbRangingData".
Definition RANGING_MEASURES_CLASS_NAME : string :=
  "com/android/server/uwb/data/UwbTwoWayMeasurement".
Definition MULTICAST_UPDATE_LIST_DATA_CLASS_NAME : string :=
  "com/android/server/uwb/data/UwbMulticastListUpdateStatus".
Definition RANGING_OWR_AOA_MEASURES_CLASS_NAME : string :=
  "com/android/server/uwb/data/UwbOwrAoaMeasurement".
Definition RANGING_DLTDOA_MEASURES_CLASS_NAME : string :=
  "com/android/server/uwb/data/UwbDownLinkTDoAMeasurement".

(** The manager after the lookups.  [mOnDataReceived] (line 675) is a
    member no handler of the file reads; the record does not carry it.
    The members the function does not assign keep their content. *)
Definition doLoadSymbols (rt : JavaRuntime) (this : UwbEventManager)
    (thiz : jvalue) : jni UwbEventManager :=
  let fn := "UwbEventManager::doLoadSymbols" in
  JNI_TRACE_I fn "enter" ;;
  let this' :=
    match rt_object_class rt thiz with
    | Some clazz => {|
        mVm := rt_vm rt;
        mClass := Some clazz;
        mObject := thiz;
        mRangeDataClass :=
          uwb_jni_cache_jclass rt RANGING_DATA_CLASS_NAME
            (mRangeDataClass this);
        mRangingTwoWayMeasuresClass :=
          uwb_jni_cache_jclass rt RANGING_MEASURES_CLASS_NAME
            (mRangingTwoWayMeasuresClass this);
        mRangingOwrAoaMeasuresClass :=
          uwb_jni_cache_jclass rt RANGING_OWR_AOA_MEASURES_CLASS_NAME
            (mRangingOwrAoaMeasuresClass this);
        mRangeTdoaMeasuresClass := mRangeTdoaMeasuresClass this;
        mRangeDlTdoaMeasuresClass :=
          uwb_jni_cache_jclass rt RANGING_DLTDOA_MEASURES_CLASS_NAME
            (mRangeDlTdoaMeasuresClass this);
        mMulticastUpdateListDataClass :=
          uwb_jni_cache_jclass rt MULTICAST_UPDATE_LIST_DATA_CLASS_NAME
            (mMulticastUpdateListDataClass this);
        mOnDeviceStateNotificationReceived :=
          rt_method_id rt clazz "onDeviceStatusNotificationReceived" "(I)V";
        mOnRangeDataNotificationReceived :=
          rt_method_id rt clazz "onRangeDataNotificationReceived"
            "(Lcom/android/server/uwb/data/UwbRangingData;)V";
        mOnSessionStatusNotificationReceived :=
          rt_method_id rt clazz "onSessionStatusNotificationReceived" "(JII)V";
        mOnCoreGenericErrorNotificationReceived :=
          rt_method_id rt clazz "onCoreGenericErrorNotificationReceived" "(I)V";
        mOnMulticastListUpdateNotificationReceived :=
          rt_method_id rt clazz "onMulticastListUpdateNotificationReceived"
            "(Lcom/android/server/uwb/data/UwbMulticastListUpdateStatus;)V";
        mOnBlinkDataTxNotificationReceived :=
          mOnBlinkDataTxNotificationReceived this;
        mOnRawUciNotificationReceived :=
          rt_method_id rt clazz "onRawUciNotificationReceived" "([B)V";
        mOnVendorUciNotificationReceived :=
          rt_method_id rt clazz "onVendorUciNotificationReceived" "(II[B)V";
        mOnVendorDeviceInfo :=
          rt_method_id rt clazz "onVendorDeviceInfo" "([B)V"
      |}
    | None => {|
        mVm := rt_vm rt;
        mClass := mClass this;
        mObject := mObject this;
        mRangeDataClass := mRangeDataClass this;
        mRangingTwoWayMeasuresClass := mRangingTwoWayMeasuresClass this;
        mRangingOwrAoaMeasuresClass := mRangingOwrAoaMeasuresClass this;
        mRangeTdoaMeasuresClass := mRangeTdoaMeasuresClass this;
        mRangeDlTdoaMeasuresClass := mRangeDlTdoaMeasuresClass this;
        mMulticastUpdateListDataClass := mMulticastUpdateListDataClass this;
        mOnDeviceStateNotificationReceived :=
          mOnDeviceStateNotificationReceived this;
        mOnRangeDataNotificationReceived :=
          mOnRangeDataNotificationReceived this;
        mOnSessionStatusNotificationReceived :=
          mOnSessionStatusNotificationReceived this;
        mOnCoreGenericErrorNotificationReceived :=
          mOnCoreGenericErrorNotificationReceived this;
        mOnMulticastListUpdateNotificationReceived :=
          mOnMulticastListUpdateNotificationReceived this;
        mOnBlinkDataTxNotificationReceived :=
          mOnBlinkDataTxNotificationReceived this;
        mOnRawUciNotificationReceived := mOnRawUciNotificationReceived this;
        mOnVendorUciNotificationReceived :=
          mOnVendorUciNotificationReceived this;
        mOnVendorDeviceInfo := mOnVendorDeviceInfo this
      |}
    end in
  JNI_TRACE_I fn "exit" ;;
  ret this'.

(** The listener method each entry point invokes. *)
Definition method_of (this : UwbEventManager) (n : notification)
  : option jmethodID :=
  match n with
  | RangeData _ => mOnRangeDataNotificationReceived this
  | RawUci _ _ => mOnRawUciNotificationReceived this
  | SessionStatus _ _ _ => mOnSessionStatusNotificationReceived this
  | DeviceState _ => mOnDeviceStateNotificationReceived this
  | CoreGenericError _ => mOnCoreGenericErrorNotificationReceived this
  | MulticastListUpdate _ => mOnMulticastListUpdateNotificationReceived this
  | BlinkDataTx _ => mOnBlinkDataTxNotificationReceived this
  | VendorUci _ _ _ _ => mOnVendorUciNotificationReceived this
  | VendorDeviceInfo _ _ => mOnVendorDeviceInfo this
  end.

(** The listener methods as the constructor (lines 56-64) leaves them. *)
Definition unregistered (this : UwbEventManager) : Prop :=
  forall n, method_of this n = None.

(** ** Well-formed notifications *)

Definition owr_buffers_ok (m : tUWA_OWR_WITH_AOA_RANGING_MEASR) : bool :=
  8 <=? Z.of_nat (length (owr_mac_addr m)).

Definition vendor_ok (ntf : tUWA_RANGE_DATA_NTF) : bool :=
  vs_len (vendor_specific_ntf ntf)
  <=? Z.of_nat (length (vs_data (vendor_specific_ntf ntf))).

(** A view holds [no_of_measurements] well-formed records. *)
Definition twr_view_ok (ntf : tUWA_RANGE_DATA_NTF) : bool :=
  (0 <=? no_of_measurements ntf)
  && (no_of_measurements ntf
      <=? Z.of_nat (length (twr_range_measr (ranging_measures ntf))))
  && forallb twr_buffers_ok (twr_range_measr (ranging_measures ntf)).

Definition dltdoa_view_ok (ntf : tUWA_RANGE_DATA_NTF) : bool :=
  (0 <=? no_of_measurements ntf)
  && (no_of_measurements ntf
      <=? Z.of_nat (length (dltdoa_range_measr (ranging_measures ntf))))
  && forallb dltdoa_buffers_ok (dltdoa_range_measr (ranging_measures ntf)).

(** The native lists hold [no_of_controlees] entries. *)
Definition multicast_lists_ok (ntf : tUWA_SESSION_UPDATE_MULTICAST_LIST_NTF)
  : bool :=
  (mc_no_of_controlees ntf
   <=? Z.of_nat (length (mc_controlee_mac_address_list ntf)))
  && (mc_no_of_controlees ntf
      <=? Z.of_nat (length (mc_subsession_id_list ntf)))
  && (mc_no_of_controlees ntf <=? Z.of_nat (length (mc_status_list ntf))).

End Unused.

(* ===================================================================== *)
(** * The active copy: [service/uci/jni] *)

Module Active.

(** ** The notification structures (see the remark in [Unused]) *)

Record tUWA_TWR_RANGING_MEASR := {
  twr_mac_addr : list Z;
  twr_status : Z;
  twr_nLos : Z;
  twr_distance : Z;
  twr_aoa_azimuth : Z;
  twr_aoa_azimuth_FOM : Z;
  twr_aoa_elevation : Z;
  twr_aoa_elevation_FOM : Z;
  twr_aoa_dest_azimuth : Z;
  twr_aoa_dest_azimuth_FOM : Z;
  twr_aoa_dest_elevation : Z;
  twr_aoa_dest_elevation_FOM : Z;
  twr_slot_index : Z;
  twr_rfu : list Z
}.

Record tUWA_TDoA_RANGING_MEASR := {
  tdoa_mac_addr : list Z;
  tdoa_frame_type : Z;
  tdoa_nLos : Z;
  tdoa_aoa_azimuth : Z;
  tdoa_aoa_azimuth_FOM : Z;
  tdoa_aoa_elevation : Z;
  tdoa_aoa_elevation_FOM : Z;
  tdoa_timeStamp : Z;
  tdoa_blink_frame_number : Z;
  tdoa_rfu : list Z;
  tdoa_device_info_size : Z;
  tdoa_device_info : list Z;
  tdoa_blink_payload_size : Z;
  tdoa_blink_payload_data : list Z
}.

Record tUWA_RANGING_MEASURES := {
  twr_range_measr : list tUWA_TWR_RANGING_MEASR;
  tdoa_range_measr : list tUWA_TDoA_RANGING_MEASR
}.

Record tUWA_RANGE_DATA_NTF := {
  seq_counter : Z;
  session_id : Z;
  rcr_indication : Z;
  curr_range_interval : Z;
  ranging_measure_type : Z;
  mac_addr_mode_indicator : Z;
  no_of_measurements : Z;
  ranging_measures : tUWA_RANGING_MEASURES
}.

Record tUWA_SESSION_UPDATE_MULTICAST_LIST_NTF := {
  mc_session_id : Z;
  mc_remaining_list : Z;
  mc_no_of_controlees : Z;
  mc_subsession_id_list : list Z;
  mc_status_list : list Z
}.

(** ** The manager *)

Record UwbEventManager := {
  mVm : JavaVM;
  mClass : option jclass;
  mObject : jvalue;
  mRangeDataClass : option jclass;
  mRangingTwoWayMeasuresClass : option jclass;
  mRangeTdoaMeasuresClass : option jclass;
  mMulticastUpdateListDataClass : option jclass;
  mOnDeviceStateNotificationReceived : option jmethodID;
  mOnRangeDataNotificationReceived : option jmethodID;
  mOnSessionStatusNotificationReceived : option jmethodID;
  mOnCoreGenericErrorNotificationReceived : option jmethodID;
  mOnMulticastListUpdateNotificationReceived : option jmethodID;
  mOnBlinkDataTxNotificationReceived : option jmethodID;
  mOnRawUciNotificationReceived : option jmethodID
}.

Section Handlers.
Context {defs : UciDefs}.
Variable this : UwbEventManager.

Definition fn_range : string := "onRangeDataNotificationReceived".

(** Lines 82-115: one two-way record. *)
Definition twr_measure (env : option JNIEnv) (mode : Z)
    (m : tUWA_TWR_RANGING_MEASR) : jni jvalue :=
  '(macAddress, rfu) <-
    (if mode =? SHORT_MAC_ADDRESS then
       macAddress <- NewByteArray env 2 ;;
       macAddress <- SetByteArrayRegion env macAddress 0 2 (twr_mac_addr m) ;;
       rfu <- NewByteArray env 12 ;;
       rfu <- SetByteArrayRegion env rfu 0 12 (twr_rfu m) ;;
       ret (macAddress, rfu)
     else
       macAddress <- NewByteArray env 8 ;;
       macAddress <- SetByteArrayRegion env macAddress 0 8 (twr_mac_addr m) ;;
       rfu <- NewByteArray env 6 ;;
       rfu <- SetByteArrayRegion env rfu 0 6 (twr_rfu m) ;;
       ret (macAddress, rfu)) ;;
  rngMeasuresCtor <- GetMethodID env (mRangingTwoWayMeasuresClass this)
                       "<init>" "([BIIIIIIIIIIII)V" ;;
  NewObject env (mRangingTwoWayMeasuresClass this) rngMeasuresCtor
    [ macAddress;
      JInt (to_jint (twr_status m));
      JInt (to_jint (twr_nLos m));
      JInt (to_jint (twr_distance m));
      JInt (to_jint (twr_aoa_azimuth m));
      JInt (to_jint (twr_aoa_azimuth_FOM m));
      JInt (to_jint (twr_aoa_elevation m));
      JInt (to_jint (twr_aoa_elevation_FOM m));
      JInt (to_jint (twr_aoa_dest_azimuth m));
      JInt (to_jint (twr_aoa_dest_azimuth_FOM m));
      JInt (to_jint (twr_aoa_dest_elevation m));
      JInt (to_jint (twr_aoa_dest_elevation_FOM m));
      JInt (to_jint (twr_slot_index m));
      rfu ].

(** Lines 155-166: an optional payload, copied when its size is positive
    and the allocation did not return [NULL]. *)
Definition optional_payload (env : option JNIEnv) (size : Z) (buf : list Z)
  : jni jvalue :=
  if size >? 0 then
    a <- NewByteArray env size ;;
    if negb (is_null a) then SetByteArrayRegion env a 0 size buf
    else ret a
  else ret JNull.

(** Lines 139-183: one TDoA record. *)
Definition tdoa_measure (env : option JNIEnv) (mode : Z)
    (m : tUWA_TDoA_RANGING_MEASR) : jni jvalue :=
  '(tdoaMacAddress, rfu) <-
    (if mode =? SHORT_MAC_ADDRESS then
       tdoaMacAddress <- NewByteArray env 2 ;;
       tdoaMacAddress <-
         SetByteArrayRegion env tdoaMacAddress 0 2 (tdoa_mac_addr m) ;;
       rfu <- NewByteArray env 12 ;;
       rfu <- SetByteArrayRegion env rfu 0 12 (tdoa_rfu m) ;;
       ret (tdoaMacAddress, rfu)
     else
       tdoaMacAddress <- NewByteArray env 8 ;;
       tdoaMacAddress <-
         SetByteArrayRegion env tdoaMacAddress 0 8 (tdoa_mac_addr m) ;;
       rfu <- NewByteArray env 6 ;;
       rfu <- SetByteArrayRegion env rfu 0 6 (tdoa_rfu m) ;;
       ret (tdoaMacAddress, rfu)) ;;
  deviceInfoArray <-
    optional_payload env (tdoa_device_info_size m) (tdoa_device_info m) ;;
  blinkPayloadData <-
    optional_payload env (tdoa_blink_payload_size m)
      (tdoa_blink_payload_data m) ;;
  rngTdoaMeasuresCtor <- GetMethodID env (mRangeTdoaMeasuresClass this)
                           "<init>" "([BIIIIIIJJ[B[B[B)V" ;;
  NewObject env (mRangeTdoaMeasuresClass this) rngTdoaMeasuresCtor
    [ tdoaMacAddress;
      JInt (to_jint (tdoa_frame_type m));
      JInt (to_jint (tdoa_nLos m));
      JInt (to_jint (tdoa_aoa_azimuth m));
      JInt (to_jint (tdoa_aoa_azimuth_FOM m));
      JInt (to_jint (tdoa_aoa_elevation m));
      JInt (to_jint (tdoa_aoa_elevation_FOM m));
      JLong (to_jlong (tdoa_timeStamp m));
      JLong (to_jlong (tdoa_blink_frame_number m));
      rfu;
      deviceInfoArray;
      blinkPayloadData ].

Definition range_data_args (ntf : tUWA_RANGE_DATA_NTF) (measures : jvalue)
  : list jvalue :=
  [ JLong (to_jlong (seq_counter ntf));
    JLong (to_jlong (session_id ntf));
    JInt (to_jint (rcr_indication ntf));
    JLong (to_jlong (curr_range_interval ntf));
    JInt (to_jint (ranging_measure_type ntf));
    JInt (to_jint (mac_addr_mode_indicator ntf));
    JInt (to_jint (no_of_measurements ntf));
    measures ].

(** Lines 73-128. *)
Definition range_data_twoway (env : option JNIEnv)
    (ranging_ntf_data : tUWA_RANGE_DATA_NTF) : jni jvalue :=
  JNI_TRACE_I fn_range "ranging_measure_type = MEASUREMENT_TYPE_TWOWAY" ;;
  rangeMeasuresArray <-
    NewObjectArray env (no_of_measurements ranging_ntf_data)
      (mRangingTwoWayMeasuresClass this) JNull ;;
  rangeMeasuresArray <-
    for_int (no_of_measurements ranging_ntf_data)
      (fun i rangeMeasuresArray =>
         m <- read_at (twr_range_measr (ranging_measures ranging_ntf_data)) i ;;
         o <- twr_measure env (mac_addr_mode_indicator ranging_ntf_data) m ;;
         SetObjectArrayElement env rangeMeasuresArray i o)
      rangeMeasuresArray ;;
  rngDataCtorTwm <-
    GetMethodID env (mRangeDataClass this) "<init>"
      "(JJIJIII[Lcom/android/uwb/data/UwbTwoWayMeasurement;)V" ;;
  NewObject env (mRangeDataClass this) rngDataCtorTwm
    (range_data_args ranging_ntf_data rangeMeasuresArray).

(** Lines 131-198: the branch of every other tag. *)
Definition range_data_tdoa (env : option JNIEnv)
    (ranging_ntf_data : tUWA_RANGE_DATA_NTF) : jni jvalue :=
  JNI_TRACE_I fn_range "ranging_measure_type = MEASUREMENT_TYPE_ONEWAY" ;;
  rangeTdoaMeasuresArray <-
    NewObjectArray env (no_of_measurements ranging_ntf_data)
      (mRangeTdoaMeasuresClass this) JNull ;;
  rangeTdoaMeasuresArray <-
    for_int (no_of_measurements ranging_ntf_data)
      (fun i rangeTdoaMeasuresArray =>
         m <- read_at (tdoa_range_measr (ranging_measures ranging_ntf_data)) i ;;
         o <- tdoa_measure env (mac_addr_mode_indicator ranging_ntf_data) m ;;
         SetObjectArrayElement env rangeTdoaMeasuresArray i o)
      rangeTdoaMeasuresArray ;;
  rngDataCtorTdoa <-
    GetMethodID env (mRangeDataClass this) "<init>"
      "(JJIJIII[Lcom/android/uwb/data/UwbTDoAMeasurement;)V" ;;
  NewObject env (mRangeDataClass this) rngDataCtorTdoa
    (range_data_args ranging_ntf_data rangeTdoaMeasuresArray).

(** Lines 72-199: the dispatch on the measurement-type tag. *)
Definition range_data_object (env : option JNIEnv)
    (ranging_ntf_data : tUWA_RANGE_DATA_NTF) : jni jvalue :=
  if ranging_measure_type ranging_ntf_data =? MEASUREMENT_TYPE_TWOWAY then
    range_data_twoway env ranging_ntf_data
  else
    range_data_tdoa env ranging_ntf_data.

(** Lines 201-210: the delivery. *)
Definition deliver_range_data (env : option JNIEnv) (rangeDataObject : jvalue)
  : jni unit :=
  match mOnRangeDataNotificationReceived this with
  | Some mid =>
      CallVoidMethod env (mObject this) mid [rangeDataObject] ;;
      exc <- ExceptionCheck env ;;
      if exc then
        ExceptionDescribe env ;;
        ExceptionClear env ;;
        JNI_TRACE_E fn_range "fail to send range data"
      else ret tt
  | None => JNI_TRACE_E fn_range "rangeDataNtf MID is NULL"
  end.

Definition onRangeDataNotificationReceived
    (ranging_ntf_data : tUWA_RANGE_DATA_NTF) : jni unit :=
  let env := ScopedJniEnv (mVm this) in
  match env with
  | None => JNI_TRACE_E fn_range "jni env is null"
  | Some _ =>
      rangeDataObject <- range_data_object env ranging_ntf_data ;;
      deliver_range_data env rangeDataObject ;;
      JNI_TRACE_I fn_range "exit"
  end.

(** *** The other entry points *)

Definition onRawUciNotificationReceived (data : pointer (list Z)) (length : Z)
  : jni unit :=
  let fn := "onRawUciNotificationReceived" in
  JNI_TRACE_I fn "Enter" ;;
  let env := ScopedJniEnv (mVm this) in
  match env with
  | None => JNI_TRACE_E fn "jni env is null"
  | Some _ =>
      if (length =? 0) || is_NULL data then
        JNI_TRACE_E fn
          "length is zero or data is NULL, skip sending notifications"
      else
        dataArray <- NewByteArray env length ;;
        dataArray <- SetByteArrayRegion env dataArray 0 length (buffer_of data) ;;
        match mOnRawUciNotificationReceived this with
        | Some mid =>
            CallVoidMethod env (mObject this) mid [dataArray] ;;
            clear_exception env fn "fail to send notification"
        | None => JNI_TRACE_E fn "onRawUciNotificationReceived MID is NULL"
        end ;;
        JNI_TRACE_I fn "exit"
  end.

Definition onSessionStatusNotificationReceived (sessionId state reasonCode : Z)
  : jni unit :=
  let fn := "notifySessionStateNotification" in
  JNI_TRACE_I fn "enter; session ID=%x, State = %x reasonCode = %x" ;;
  let env := ScopedJniEnv (mVm this) in
  match env with
  | None => JNI_TRACE_E fn "jni env is null"
  | Some _ =>
      match mOnSessionStatusNotificationReceived this with
      | Some mid =>
          CallVoidMethod env (mObject this) mid
            [ JLong (to_jlong sessionId); JInt (to_jint state);
              JInt (to_jint reasonCode) ] ;;
          clear_exception env fn "fail to notify"
      | None => JNI_TRACE_E fn "sessionStatusNtf MID is null "
      end ;;
      JNI_TRACE_I fn "exit"
  end.

Definition onDeviceStateNotificationReceived (state : Z) : jni unit :=
  let fn := "notifyDeviceStateNotification" in
  JNI_TRACE_I fn "enter:  State = %x" ;;
  let env := ScopedJniEnv (mVm this) in
  match env with
  | None => JNI_TRACE_E fn "jni env is null"
  | Some _ =>
      match mOnDeviceStateNotificationReceived this with
      | Some mid =>
          CallVoidMethod env (mObject this) mid [ JInt (to_jint state) ] ;;
          clear_exception env fn "fail to notify"
      | None => JNI_TRACE_E fn "deviceStatusNtf MID is null "
      end ;;
      JNI_TRACE_I fn "exit"
  end.

Definition onCoreGenericErrorNotificationReceived (state : Z) : jni unit :=
  let fn := "notifyCoreGenericErrorNotification" in
  JNI_TRACE_I fn "enter:  State = %x" ;;
  let env := ScopedJniEnv (mVm this) in
  match env with
  | None => JNI_TRACE_E fn "jni env is null"
  | Some _ =>
      match mOnCoreGenericErrorNotificationReceived this with
      | Some mid =>
          CallVoidMethod env (mObject this) mid [ JInt (to_jint state) ] ;;
          clear_exception env fn "fail to notify"
      | None => JNI_TRACE_E fn "genericErrorStatusNtf MID is null "
      end ;;
      JNI_TRACE_I fn "exit"
  end.

Definition fn_multicast : string := "onMulticastListUpdateNotificationReceived".

(** Lines 335-346. *)
Definition multicast_fill_arrays (env : option JNIEnv)
    (ntf : tUWA_SESSION_UPDATE_MULTICAST_LIST_NTF)
    (subSessionIdArray statusArray : jvalue) : jni (jvalue * jvalue) :=
  let n := mc_no_of_controlees ntf in
  if n >? 0 then
    let statusList := repeat 0 (Z.to_nat n) in
    let subSessionIdList := repeat 0 (Z.to_nat n) in
    statusList <-
      for_int n
        (fun i statusList =>
           s <- read_at (mc_status_list ntf) i ;;
           ret (list_set statusList (Z.to_nat i) s))
        statusList ;;
    subSessionIdList <-
      for_int n
        (fun i subSessionIdList =>
           x <- read_at (mc_subsession_id_list ntf) i ;;
           ret (list_set subSessionIdList (Z.to_nat i) x))
        subSessionIdList ;;
    subSessionIdArray <-
      SetLongArrayRegion env subSessionIdArray 0 n subSessionIdList ;;
    statusArray <- SetIntArrayRegion env statusArray 0 n statusList ;;
    ret (subSessionIdArray, statusArray)
  else ret (subSessionIdArray, statusArray).

(** Lines 332-368: what follows the two guards. *)
Definition multicast_marshal_and_deliver (env : option JNIEnv)
    (ntf : tUWA_SESSION_UPDATE_MULTICAST_LIST_NTF) : jni unit :=
  subSessionIdArray <- NewLongArray env (mc_no_of_controlees ntf) ;;
  statusArray <- NewIntArray env (mc_no_of_controlees ntf) ;;
  '(subSessionIdArray, statusArray) <-
    multicast_fill_arrays env ntf subSessionIdArray statusArray ;;
  multicastUpdateListDataCtor <-
    GetMethodID env (mMulticastUpdateListDataClass this) "<init>"
      "(JII[J[I)V" ;;
  multicastUpdateListDataObject <-
    NewObject env (mMulticastUpdateListDataClass this)
      multicastUpdateListDataCtor
      [ JLong (to_jlong (mc_session_id ntf));
        JInt (to_jint (mc_remaining_list ntf));
        JInt (to_jint (mc_no_of_controlees ntf));
        subSessionIdArray; statusArray ] ;;
  match mOnMulticastListUpdateNotificationReceived this with
  | Some mid =>
      CallVoidMethod env (mObject this) mid [multicastUpdateListDataObject] ;;
      clear_exception env fn_multicast "fail to send Multicast update list ntf"
  | None => JNI_TRACE_E fn_multicast "MulticastUpdateListNtf MID is null "
  end ;;
  JNI_TRACE_I fn_multicast "exit".

Definition onMulticastListUpdateNotificationReceived
    (multicast_list_ntf : pointer tUWA_SESSION_UPDATE_MULTICAST_LIST_NTF)
  : jni unit :=
  JNI_TRACE_I fn_multicast "enter;" ;;
  let env := ScopedJniEnv (mVm this) in
  match env with
  | None => JNI_TRACE_E fn_multicast "jni env is null"
  | Some _ =>
      match multicast_list_ntf with
      | None => JNI_TRACE_E fn_multicast "multicast_list_ntf is null"
      | Some ntf => multicast_marshal_and_deliver env ntf
      end
  end.

Definition onBlinkDataTxNotificationReceived (status : Z) : jni unit :=
  let fn := "onBlinkDataTxNotificationReceived" in
  JNI_TRACE_I fn "enter:  State = %x" ;;
  let env := ScopedJniEnv (mVm this) in
  match env with
  | None => JNI_TRACE_E fn "jni env is null"
  | Some _ =>
      match mOnBlinkDataTxNotificationReceived this with
      | Some mid =>
          CallVoidMethod env (mObject this) mid [ JInt (to_jint status) ] ;;
          clear_exception env fn "fail to notify"
      | None => JNI_TRACE_E fn "BlikDataTxNtf MID is null "
      end ;;
      JNI_TRACE_I fn "exit"
  end.

End Handlers.

(** ** Well-formed records (see [Unused]) *)

Definition twr_buffers_ok (m : tUWA_TWR_RANGING_MEASR) : bool :=
  (8 <=? Z.of_nat (length (twr_mac_addr m)))
  && (12 <=? Z.of_nat (length (twr_rfu m))).

Definition tdoa_buffers_ok (m : tUWA_TDoA_RANGING_MEASR) : bool :=
  (8 <=? Z.of_nat (length (tdoa_mac_addr m)))
  && (12 <=? Z.of_nat (length (tdoa_rfu m)))
  && (tdoa_device_info_size m <=? Z.of_nat (length (tdoa_device_info m)))
  && (tdoa_blink_payload_size m
      <=? Z.of_nat (length (tdoa_blink_payload_data m))).

(** The TDoA view of a notification holds [no_of_measurements] well-formed
    records. *)
Definition tdoa_view_ok (ntf : tUWA_RANGE_DATA_NTF) : bool :=
  (0 <=? no_of_measurements ntf)
  && (no_of_measurements ntf
      <=? Z.of_nat (length (tdoa_range_measr (ranging_measures ntf))))
  && forallb tdoa_buffers_ok (tdoa_range_measr (ranging_measures ntf)).

(** ** The entry points as one dispatch *)

Inductive notification : Type :=
| RangeData (ranging_ntf_data : tUWA_RANGE_DATA_NTF)
| RawUci (data : pointer (list Z)) (length : Z)
| SessionStatus (sessionId state reasonCode : Z)
| DeviceState (state : Z)
| CoreGenericError (state : Z)
| MulticastListUpdate
    (multicast_list_ntf : pointer tUWA_SESSION_UPDATE_MULTICAST_LIST_NTF)
| BlinkDataTx (status : Z).

Definition handle {defs : UciDefs} (this : UwbEventManager) (n : notification)
  : jni unit :=
  match n with
  | RangeData ntf => onRangeDataNotificationReceived this ntf
  | RawUci data len => onRawUciNotificationReceived this data len
  | SessionStatus sid st rc => onSessionStatusNotificationReceived this sid st rc
  | DeviceState st => onDeviceStateNotificationReceived this st
  | CoreGenericError st => onCoreGenericErrorNotificationReceived this st
  | MulticastListUpdate ntf => onMulticastListUpdateNotificationReceived this ntf
  | BlinkDataTx st => onBlinkDataTxNotificationReceived this st
  end.

(** ** [doLoadSymbols] (lines 396-423) *)

Definition RANGING_DATA_CLASS_NAME : string :=
  "com/android/uwb/data/UwbRangingData".
Definition RANGING_MEASURES_CLASS_NAME : string :=
  "com/android/uwb/data/UwbTwoWayMeasurement".
Definition RANGING_TDoA_MEASURES_CLASS_NAME : string :=
  "com/android/uwb/data/UwbTDoAMeasurement".
Definition MULTICAST_UPDATE_LIST_DATA_CLASS_NAME : string :=
  "com/android/uwb/data/UwbMulticastListUpdateStatus".

(** The manager after the lookups; the lookup of the raw-notification
    method (line 415) is commented out in the source. *)
Definition doLoadSymbols (rt : JavaRuntime) (this : UwbEventManager)
    (thiz : jvalue) : jni UwbEventManager :=
  let fn := "UwbEventManager::doLoadSymbols" in
  JNI_TRACE_I fn "enter" ;;
  let this' :=
    match rt_object_class rt thiz with
    | Some clazz => {|
        mVm := rt_vm rt;
        mClass := Some clazz;
        mObject := thiz;
        mRangeDataClass :=
          uwb_jni_cache_jclass rt RANGING_DATA_CLASS_NAME
            (mRangeDataClass this);
        mRangingTwoWayMeasuresClass :=
          uwb_jni_cache_jclass rt RANGING_MEASURES_CLASS_NAME
            (mRangingTwoWayMeasuresClass this);
        mRangeTdoaMeasuresClass :=
          uwb_jni_cache_jclass rt RANGING_TDoA_MEASURES_CLASS_NAME
            (mRangeTdoaMeasuresClass this);
        mMulticastUpdateListDataClass :=
          uwb_jni_cache_jclass rt MULTICAST_UPDATE_LIST_DATA_CLASS_NAME
            (mMulticastUpdateListDataClass this);
        mOnDeviceStateNotificationReceived :=
          rt_method_id rt clazz "onDeviceStatusNotificationReceived" "(I)V";
        mOnRangeDataNotificationReceived :=
          rt_method_id rt clazz "onRangeDataNotificationReceived"
            "(Lcom/android/uwb/data/UwbRangingData;)V";
        mOnSessionStatusNotificationReceived :=
          rt_method_id rt clazz "onSessionStatusNotificationReceived" "(JII)V";
        mOnCoreGenericErrorNotificationReceived :=
          rt_method_id rt clazz "onCoreGenericErrorNotificationReceived" "(I)V";
        mOnMulticastListUpdateNotificationReceived :=
          rt_method_id rt clazz "onMulticastListUpdateNotificationReceived"
            "(Lcom/android/uwb/data/UwbMulticastListUpdateStatus;)V";
        mOnBlinkDataTxNotificationReceived :=
          mOnBlinkDataTxNotificationReceived this;
        mOnRawUciNotificationReceived := mOnRawUciNotificationReceived this
      |}
    | None => {|
        mVm := rt_vm rt;
        mClass := mClass this;
        mObject := mObject this;
        mRangeDataClass := mRangeDataClass this;
        mRangingTwoWayMeasuresClass := mRangingTwoWayMeasuresClass this;
        mRangeTdoaMeasuresClass := mRangeTdoaMeasuresClass this;
        mMulticastUpdateListDataClass := mMulticastUpdateListDataClass this;
        mOnDeviceStateNotificationReceived :=
          mOnDeviceStateNotificationReceived this;
        mOnRangeDataNotificationReceived :=
          mOnRangeDataNotificationReceived this;
        mOnSessionStatusNotificationReceived :=
          mOnSessionStatusNotificationReceived this;
        mOnCoreGenericErrorNotificationReceived :=
          mOnCoreGenericErrorNotificationReceived this;
        mOnMulticastListUpdateNotificationReceived :=
          mOnMulticastListUpdateNotificationReceived this;
        mOnBlinkDataTxNotificationReceived :=
          mOnBlinkDataTxNotificationReceived this;
        mOnRawUciNotificationReceived := mOnRawUciNotificationReceived this
      |}
    end in
  JNI_TRACE_I fn "exit" ;;
  ret this'.

(** The listener method each entry point invokes. *)
Definition method_of (this : UwbEventManager) (n : notification)
  : option jmethodID :=
  match n with
  | RangeData _ => mOnRangeDataNotificationReceived this
  | RawUci _ _ => mOnRawUciNotificationReceived this
  | SessionStatus _ _ _ => mOnSessionStatusNotificationReceived this
  | DeviceState _ => mOnDeviceStateNotificationReceived this
  | CoreGenericError _ => mOnCoreGenericErrorNotificationReceived this
  | MulticastListUpdate _ => mOnMulticastListUpdateNotificationReceived this
  | BlinkDataTx _ => mOnBlinkDataTxNotificationReceived this
  end.

(** The listener methods as the constructor (lines 51-57) leaves them. *)
Definition unregistered (this : UwbEventManager) : Prop :=
  forall n, method_of this n = None.

(** ** Well-formed notifications *)

Definition twr_view_ok (ntf : tUWA_RANGE_DATA_NTF) : bool :=
  (0 <=? no_of_measurements ntf)
  && (no_of_measurements ntf
      <=? Z.of_nat (length (twr_range_measr (ranging_measures ntf))))
  && forallb twr_buffers_ok (twr_range_measr (ranging_measures ntf)).

Definition multicast_lists_ok (ntf : tUWA_SESSION_UPDATE_MULTICAST_LIST_NTF)
  : bool :=
  (mc_no_of_controlees ntf
   <=? Z.of_nat (length (mc_subsession_id_list ntf)))
  && (mc_no_of_controlees ntf <=? Z.of_nat (length (mc_status_list ntf))).

End Active.

(* ===================================================================== *)
(** * The vocabulary of the properties *)

Definition is_call (e : event) : bool :=
  match e with EvCall _ _ _ _ => true | _ => false end.

Definition is_raising_call (e : event) : bool :=
  match e with EvCall _ _ _ true => true | _ => false end.

Definition is_log (e : event) : bool :=
  match e with EvLog _ _ _ => true | _ => false end.

(** A computation is silent when it never invokes the listener. *)
Definition silent {A} (c : jni A) : Prop :=
  forall s, existsb is_call (events_of (c s)) = false.

(** Every listener invocation that raised is followed by the handling of
    the exception: an optional description, the clearing, an error line. *)
Fixpoint faults_handled (evs : list event) : bool :=
  match evs with
  | [] => true
  | EvCall _ _ _ true :: rest =>
      match rest with
      | EvExceptionClear :: EvLog LvlE _ _ :: rest' => faults_handled rest'
      | EvExceptionDescribe :: EvExceptionClear :: EvLog LvlE _ _ :: rest' =>
          faults_handled rest'
      | _ => false
      end
  | _ :: rest => faults_handled rest
  end.

(** A handler contains the faults of the listener when a raising
    invocation implies a normal return with the exception handled and no
    exception left pending. *)
Definition contains_faults (c : jni unit) : Prop :=
  forall s,
    existsb is_raising_call (events_of (c s)) = true ->
    returns_normally (c s) = true /\
    faults_handled (events_of (c s)) = true /\
    final_state (c s) = Some (JState false).

(** The address and padding arguments of a marshalled two-way record:
    [rfu_arg] is the position of the padding among the constructor
    arguments. *)
Definition complementary_lengths {defs : UciDefs} (mode : Z) (rfu_arg : nat)
    (obj : jvalue) : Prop :=
  exists mac rfu,
    ctor_arg obj 0 = Some (JByteArray mac) /\
    ctor_arg obj rfu_arg = Some (JByteArray rfu) /\
    ((mode = SHORT_MAC_ADDRESS /\ length mac = 2%nat /\ length rfu = 12%nat) \/
     (mode <> SHORT_MAC_ADDRESS /\ length mac = 8%nat /\ length rfu = 6%nat)).

(* ===================================================================== *)
(** * Concrete inputs for the examples *)

(** Sample values of the constants of the native stack. *)
Definition sample_defs : UciDefs := {|
  MEASUREMENT_TYPE_TWOWAY := 1;
  MEASUREMENT_TYPE_DLTDOA := 2;
  MEASUREMENT_TYPE_OWR_WITH_AOA := 3;
  SHORT_MAC_ADDRESS := 0;
  MAX_NUM_CONTROLLEES := 8
|}.

(** A listener that never raises, and one that always does. *)
Definition quiet_env : JNIEnv := MkEnv (fun _ _ => false).
Definition raising_env : JNIEnv := MkEnv (fun _ _ => true).

Definition service_object : jvalue :=
  JObject (Some "com/android/server/uwb/jni/NativeUwbManager")
    (MethodID "<init>" "()V") [].

(** The superseded manager once [doLoadSymbols] (lines 654-698) has
    resolved every symbol it looks up. *)
Definition unused_loaded (vm : JavaVM) : Unused.UwbEventManager := {|
  Unused.mVm := vm;
  Unused.mClass := Some "com/android/server/uwb/jni/NativeUwbManager";
  Unused.mObject := service_object;
  Unused.mRangeDataClass := Some "com/android/server/uwb/data/UwbRangingData";
  Unused.mRangingTwoWayMeasuresClass :=
    Some "com/android/server/uwb/data/UwbTwoWayMeasurement";
  Unused.mRangingOwrAoaMeasuresClass :=
    Some "com/android/server/uwb/data/UwbOwrAoaMeasurement";
  Unused.mRangeTdoaMeasuresClass := None;
  Unused.mRangeDlTdoaMeasuresClass :=
    Some "com/android/server/uwb/data/UwbDownLinkTDoAMeasurement";
  Unused.mMulticastUpdateListDataClass :=
    Some "com/android/server/uwb/data/UwbMulticastListUpdateStatus";
  Unused.mOnDeviceStateNotificationReceived :=
    Some (MethodID "onDeviceStatusNotificationReceived" "(I)V");
  Unused.mOnRangeDataNotificationReceived :=
    Some (MethodID "onRangeDataNotificationReceived"
            "(Lcom/android/server/uwb/data/UwbRangingData;)V");
  Unused.mOnSessionStatusNotificationReceived :=
    Some (MethodID "onSessionStatusNotificationReceived" "(JII)V");
  Unused.mOnCoreGenericErrorNotificationReceived :=
    Some (MethodID "onCoreGenericErrorNotificationReceived" "(I)V");
  Unused.mOnMulticastListUpdateNotificationReceived :=
    Some (MethodID "onMulticastListUpdateNotificationReceived"
            "(Lcom/android/server/uwb/data/UwbMulticastListUpdateStatus;)V");
  Unused.mOnBlinkDataTxNotificationReceived := None;
  Unused.mOnRawUciNotificationReceived :=
    Some (MethodID "onRawUciNotificationReceived" "([B)V");
  Unused.mOnVendorUciNotificationReceived :=
    Some (MethodID "onVendorUciNotificationReceived" "(II[B)V");
  Unused.mOnVendorDeviceInfo := Some (MethodID "onVendorDeviceInfo" "([B)V")
|}.

(** The active manager once [doLoadSymbols] (lines 396-423) has resolved
    every symbol it looks up. *)
Definition active_loaded (vm : JavaVM) : Active.UwbEventManager := {|
  Active.mVm := vm;
  Active.mClass := Some "com/android/uwb/jni/NativeUwbManager";
  Active.mObject := service_object;
  Active.mRangeDataClass := Some "com/android/uwb/data/UwbRangingData";
  Active.mRangingTwoWayMeasuresClass :=
    Some "com/android/uwb/data/UwbTwoWayMeasurement";
  Active.mRangeTdoaMeasuresClass :=
    Some "com/android/uwb/data/UwbTDoAMeasurement";
  Active.mMulticastUpdateListDataClass :=
    Some "com/android/uwb/data/UwbMulticastListUpdateStatus";
  Active.mOnDeviceStateNotificationReceived :=
    Some (MethodID "onDeviceStatusNotificationReceived" "(I)V");
  Active.mOnRangeDataNotificationReceived :=
    Some (MethodID "onRangeDataNotificationReceived"
            "(Lcom/android/uwb/data/UwbRangingData;)V");
  Active.mOnSessionStatusNotificationReceived :=
    Some (MethodID "onSessionStatusNotificationReceived" "(JII)V");
  Active.mOnCoreGenericErrorNotificationReceived :=
    Some (MethodID "onCoreGenericErrorNotificationReceived" "(I)V");
  Active.mOnMulticastListUpdateNotificationReceived :=
    Some (MethodID "onMulticastListUpdateNotificationReceived"
            "(Lcom/android/uwb/data/UwbMulticastListUpdateStatus;)V");
  Active.mOnBlinkDataTxNotificationReceived := None;
  Active.mOnRawUciNotificationReceived := None
|}.

(** A downlink-TDoA record whose control word selects a 64-bit tx
    timestamp, a 40-bit rx timestamp, a relative anchor location and three
    active ranging rounds. *)
Definition sample_dltdoa : Unused.tUWA_DLTDOA_RANGING_MEASR := {|
  Unused.dl_mac_addr := [0x11; 0x22; 0; 0; 0; 0; 0; 0];
  Unused.dl_status := 0;
  Unused.dl_message_type := 1;
  Unused.dl_message_control := 0x01C2;
  Unused.dl_block_index := 4;
  Unused.dl_round_index := 1;
  Unused.dl_nLos := 0;
  Unused.dl_aoa_azimuth := 10;
  Unused.dl_aoa_azimuth_FOM := 90;
  Unused.dl_aoa_elevation := 20;
  Unused.dl_aoa_elevation_FOM := 80;
  Unused.dl_txTimeStamp := [1; 2; 3; 4; 5; 6; 7; 0xFF];
  Unused.dl_rxTimeStamp := [8; 7; 6; 5; 4; 3; 2; 1];
  Unused.dl_cfo_anchor := 0;
  Unused.dl_cfo := 0;
  Unused.dl_initiator_reply_time := 1000;
  Unused.dl_responder_reply_time := 2000;
  Unused.dl_initiator_responder_TOF := 30;
  Unused.dl_anchor_location := [1; 2; 3; 4; 5; 6; 7; 8; 9; 10; 11; 12];
  Unused.dl_active_ranging_round := [9; 8; 7; 6]
|}.

Definition sample_twr_unused : Unused.tUWA_TWR_RANGING_MEASR := {|
  Unused.twr_mac_addr := [0x11; 0x22; 0; 0; 0; 0; 0; 0];
  Unused.twr_status := 0;
  Unused.twr_nLos := 0;
  Unused.twr_distance := 150;
  Unused.twr_aoa_azimuth := 0;
  Unused.twr_aoa_azimuth_FOM := 0;
  Unused.twr_aoa_elevation := 0;
  Unused.twr_aoa_elevation_FOM := 0;
  Unused.twr_aoa_dest_azimuth := 0;
  Unused.twr_aoa_dest_azimuth_FOM := 0;
  Unused.twr_aoa_dest_elevation := 0;
  Unused.twr_aoa_dest_elevation_FOM := 0;
  Unused.twr_slot_index := 1;
  Unused.twr_rssi := 60;
  Unused.twr_rfu := [0; 0; 0; 0; 0; 0; 0; 0; 0; 0; 0; 0]
|}.

Definition sample_twr_active : Active.tUWA_TWR_RANGING_MEASR := {|
  Active.twr_mac_addr := [0x11; 0x22; 0; 0; 0; 0; 0; 0];
  Active.twr_status := 0;
  Active.twr_nLos := 0;
  Active.twr_distance := 150;
  Active.twr_aoa_azimuth := 0;
  Active.twr_aoa_azimuth_FOM := 0;
  Active.twr_aoa_elevation := 0;
  Active.twr_aoa_elevation_FOM := 0;
  Active.twr_aoa_dest_azimuth := 0;
  Active.twr_aoa_dest_azimuth_FOM := 0;
  Active.twr_aoa_dest_elevation := 0;
  Active.twr_aoa_dest_elevation_FOM := 0;
  Active.twr_slot_index := 1;
  Active.twr_rfu := [0; 0; 0; 0; 0; 0; 0; 0; 0; 0; 0; 0]
|}.

Definition sample_tdoa : Active.tUWA_TDoA_RANGING_MEASR := {|
  Active.tdoa_mac_addr := [0x11; 0x22; 0; 0; 0; 0; 0; 0];
  Active.tdoa_frame_type := 0;
  Active.tdoa_nLos := 0;
  Active.tdoa_aoa_azimuth := 10;
  Active.tdoa_aoa_azimuth_FOM := 90;
  Active.tdoa_aoa_elevation := 20;
  Active.tdoa_aoa_elevation_FOM := 80;
  Active.tdoa_timeStamp := 123456;
  Active.tdoa_blink_frame_number := 7;
  Active.tdoa_rfu := [0; 0; 0; 0; 0; 0; 0; 0; 0; 0; 0; 0];
  Active.tdoa_device_info_size := 2;
  Active.tdoa_device_info := [0xAA; 0xBB];
  Active.tdoa_blink_payload_size := 0;
  Active.tdoa_blink_payload_data := []
|}.

(** A ranging notification whose tag (0x7F) is outside the defined set. *)
Definition sample_untagged_active : Active.tUWA_RANGE_DATA_NTF := {|
  Active.seq_counter := 5;
  Active.session_id := 0x1234;
  Active.rcr_indication := 0;
  Active.curr_range_interval := 200;
  Active.ranging_measure_type := 0x7F;
  Active.mac_addr_mode_indicator := 0;
  Active.no_of_measurements := 2;
  Active.ranging_measures := {|
    Active.twr_range_measr := [];
    Active.tdoa_range_measr := [sample_tdoa; sample_tdoa] |}
|}.

Definition sample_untagged_unused : Unused.tUWA_RANGE_DATA_NTF := {|
  Unused.seq_counter := 5;
  Unused.session_id := 0x1234;
  Unused.rcr_indication := 0;
  Unused.curr_range_interval := 200;
  Unused.ranging_measure_type := 0x7F;
  Unused.mac_addr_mode_indicator := 0;
  Unused.no_of_measurements := 1;
  Unused.ranging_measures := {|
    Unused.twr_range_measr := [sample_twr_unused];
    Unused.dltdoa_range_measr := [sample_dltdoa];
    Unused.owr_with_aoa_range_measr := {|
      Unused.owr_mac_addr := [0x11; 0x22; 0; 0; 0; 0; 0; 0];
      Unused.owr_status := 0; Unused.owr_nLos := 0;
      Unused.owr_frame_seq_num := 0; Unused.owr_block_index := 0;
      Unused.owr_aoa_azimuth := 0; Unused.owr_aoa_azimuth_FOM := 0;
      Unused.owr_aoa_elevation := 0; Unused.owr_aoa_elevation_FOM := 0 |} |};
  Unused.vendor_specific_ntf := {| Unused.vs_len := 2; Unused.vs_data := [7; 9] |}
|}.

(** A downlink-TDoA notification carrying [sample_dltdoa]. *)
Definition sample_dltdoa_ntf : Unused.tUWA_RANGE_DATA_NTF := {|
  Unused.seq_counter := 5;
  Unused.session_id := 0x1234;
  Unused.rcr_indication := 0;
  Unused.curr_range_interval := 200;
  Unused.ranging_measure_type := 2;
  Unused.mac_addr_mode_indicator := 0;
  Unused.no_of_measurements := 1;
  Unused.ranging_measures :=
    Unused.ranging_measures sample_untagged_unused;
  Unused.vendor_specific_ntf := {| Unused.vs_len := 0; Unused.vs_data := [] |}
|}.

(** Multicast updates: no controlee, and one controlee more than the
    bound of [sample_defs], with native lists of eight entries. *)
Definition sample_multicast_empty_unused
  : Unused.tUWA_SESSION_UPDATE_MULTICAST_LIST_NTF := {|
  Unused.mc_session_id := 0x1234;
  Unused.mc_remaining_list := 3;
  Unused.mc_no_of_controlees := 0;
  Unused.mc_controlee_mac_address_list := [0; 0; 0; 0; 0; 0; 0; 0];
  Unused.mc_subsession_id_list := [0; 0; 0; 0; 0; 0; 0; 0];
  Unused.mc_status_list := [0; 0; 0; 0; 0; 0; 0; 0]
|}.

Definition sample_multicast_empty_active
  : Active.tUWA_SESSION_UPDATE_MULTICAST_LIST_NTF := {|
  Active.mc_session_id := 0x1234;
  Active.mc_remaining_list := 3;
  Active.mc_no_of_controlees := 0;
  Active.mc_subsession_id_list := [0; 0; 0; 0; 0; 0; 0; 0];
  Active.mc_status_list := [0; 0; 0; 0; 0; 0; 0; 0]
|}.

Definition sample_multicast_excess_active
  : Active.tUWA_SESSION_UPDATE_MULTICAST_LIST_NTF := {|
  Active.mc_session_id := 0x1234;
  Active.mc_remaining_list := 0;
  Active.mc_no_of_controlees := 9;
  Active.mc_subsession_id_list := [1; 2; 3; 4; 5; 6; 7; 8];
  Active.mc_status_list := [0; 0; 0; 0; 0; 0; 0; 0]
|}.

(** The same update when the native lists have room for nine entries. *)
Definition sample_multicast_excess_roomy_active
  : Active.tUWA_SESSION_UPDATE_MULTICAST_LIST_NTF := {|
  Active.mc_session_id := 0x1234;
  Active.mc_remaining_list := 0;
  Active.mc_no_of_controlees := 9;
  Active.mc_subsession_id_list := [1; 2; 3; 4; 5; 6; 7; 8; 9];
  Active.mc_status_list := [0; 0; 0; 0; 0; 0; 0; 0; 0]
|}.

(* ===================================================================== *)
(** * The trace of a delivery *)

(** What a handler appends once its argument is built and its method is
    resolved: the invocation, the handling of a pending exception and the
    exit line. *)
Definition delivery_trace (e : JNIEnv) (s : jstate) (obj : jvalue)
    (mid : jmethodID) (args : list jvalue) (fn msg : string) : list event :=
  EvCall obj mid args (listener_throws e mid args)
  :: (if exception_pending s || listener_throws e mid args
      then [EvExceptionClear; EvLog LvlE fn msg] else [])
  ++ [EvLog LvlI fn "exit"].

(** The same for the ranging handlers, which describe the exception. *)
Definition range_delivery_trace (e : JNIEnv) (s : jstate) (obj : jvalue)
    (mid : jmethodID) (args : list jvalue) (fn : string) : list event :=
  EvCall obj mid args (listener_throws e mid args)
  :: (if exception_pending s || listener_throws e mid args
      then [EvExceptionDescribe; EvExceptionClear;
            EvLog LvlE fn "fail to send range data"]
      else [])
  ++ [EvLog LvlI fn "exit"].

(** The number of listener invocations in a trace. *)
Definition invocations (evs : list event) : nat :=
  length (filter is_call evs).

(** A handler invokes the listener at most once. *)
Definition at_most_once {A} (c : jni A) : Prop :=
  forall s, (invocations (events_of (c s)) <= 1)%nat.

Definition is_error_line (e : event) : bool :=
  match e with EvLog LvlE _ _ => true | _ => false end.

(** A computation that returns has logged an error line. *)
Definition logs_error {A} (c : jni A) : Prop :=
  forall s evs a s', c s = Done evs a s' -> existsb is_error_line evs = true.

(* ===================================================================== *)
(** * More concrete inputs *)

(** Nine controlees, one more than the bound of [sample_defs]. *)
Definition sample_multicast_excess_unused
  : Unused.tUWA_SESSION_UPDATE_MULTICAST_LIST_NTF := {|
  Unused.mc_session_id := 0x1234;
  Unused.mc_remaining_list := 0;
  Unused.mc_no_of_controlees := 9;
  Unused.mc_controlee_mac_address_list := [1; 2; 3; 4; 5; 6; 7; 8];
  Unused.mc_subsession_id_list := [1; 2; 3; 4; 5; 6; 7; 8];
  Unused.mc_status_list := [0; 0; 0; 0; 0; 0; 0; 0]
|}.

(** Two controlees; the second address has its top bit set. *)
Definition sample_multicast_pair_unused
  : Unused.tUWA_SESSION_UPDATE_MULTICAST_LIST_NTF := {|
  Unused.mc_session_id := 0x1234;
  Unused.mc_remaining_list := 1;
  Unused.mc_no_of_controlees := 2;
  Unused.mc_controlee_mac_address_list := [0x1122; 0xFFFFFFFF; 0; 0; 0; 0; 0; 0];
  Unused.mc_subsession_id_list := [7; 9; 0; 0; 0; 0; 0; 0];
  Unused.mc_status_list := [0; 1; 0; 0; 0; 0; 0; 0]
|}.

Definition sample_multicast_pair_active
  : Active.tUWA_SESSION_UPDATE_MULTICAST_LIST_NTF := {|
  Active.mc_session_id := 0x1234;
  Active.mc_remaining_list := 1;
  Active.mc_no_of_controlees := 2;
  Active.mc_subsession_id_list := [7; 9; 0; 0; 0; 0; 0; 0];
  Active.mc_status_list := [0; 1; 0; 0; 0; 0; 0; 0]
|}.

(** Two-way and one-way-with-AoA notifications over the views of
    [sample_untagged_unused]. *)
Definition sample_twoway_ntf_unused : Unused.tUWA_RANGE_DATA_NTF := {|
  Unused.seq_counter := 5;
  Unused.session_id := 0x1234;
  Unused.rcr_indication := 0;
  Unused.curr_range_interval := 200;
  Unused.ranging_measure_type := 1;
  Unused.mac_addr_mode_indicator := 0;
  Unused.no_of_measurements := 1;
  Unused.ranging_measures := Unused.ranging_measures sample_untagged_unused;
  Unused.vendor_specific_ntf := {| Unused.vs_len := 2; Unused.vs_data := [7; 9] |}
|}.

Definition sample_owr_ntf : Unused.tUWA_RANGE_DATA_NTF := {|
  Unused.seq_counter := 5;
  Unused.session_id := 0x1234;
  Unused.rcr_indication := 0;
  Unused.curr_range_interval := 200;
  Unused.ranging_measure_type := 3;
  Unused.mac_addr_mode_indicator := 1;
  Unused.no_of_measurements := 4;
  Unused.ranging_measures := Unused.ranging_measures sample_untagged_unused;
  Unused.vendor_specific_ntf := {| Unused.vs_len := 0; Unused.vs_data := [] |}
|}.

Definition sample_twoway_ntf_active : Active.tUWA_RANGE_DATA_NTF := {|
  Active.seq_counter := 5;
  Active.session_id := 0x1234;
  Active.rcr_indication := 0;
  Active.curr_range_interval := 200;
  Active.ranging_measure_type := 1;
  Active.mac_addr_mode_indicator := 1;
  Active.no_of_measurements := 2;
  Active.ranging_measures := {|
    Active.twr_range_measr := [sample_twr_active; sample_twr_active];
    Active.tdoa_range_measr := [] |}
|}.

(** A runtime in which the listener class and all its methods are found,
    and one in which the class of the listener object is not. *)
Definition sample_runtime (e : option JNIEnv) : JavaRuntime := {|
  rt_vm := MkVm e;
  rt_object_class := fun _ => Some "NativeUwbManager";
  rt_method_id := fun _ name sig => Some (MethodID name sig);
  rt_cache_jclass := fun name _ => Some name
|}.

Definition sample_runtime_without_class : JavaRuntime := {|
  rt_vm := MkVm (Some quiet_env);
  rt_object_class := fun _ => None;
  rt_method_id := fun _ name sig => Some (MethodID name sig);
  rt_cache_jclass := fun name _ => Some name
|}.

(** The managers as their constructors leave them, but for the virtual
    machine, whose null value the records do not represent. *)
Definition unused_constructed (vm : JavaVM) : Unused.UwbEventManager := {|
  Unused.mVm := vm;
  Unused.mClass := None;
  Unused.mObject := JNull;
  Unused.mRangeDataClass := None;
  Unused.mRangingTwoWayMeasuresClass := None;
  Unused.mRangingOwrAoaMeasuresClass := None;
  Unused.mRangeTdoaMeasuresClass := None;
  Unused.mRangeDlTdoaMeasuresClass := None;
  Unused.mMulticastUpdateListDataClass := None;
  Unused.mOnDeviceStateNotificationReceived := None;
  Unused.mOnRangeDataNotificationReceived := None;
  Unused.mOnSessionStatusNotificationReceived := None;
  Unused.mOnCoreGenericErrorNotificationReceived := None;
  Unused.mOnMulticastListUpdateNotificationReceived := None;
  Unused.mOnBlinkDataTxNotificationReceived := None;
  Unused.mOnRawUciNotificationReceived := None;
  Unused.mOnVendorUciNotificationReceived := None;
  Unused.mOnVendorDeviceInfo := None
|}.

Definition active_constructed (vm : JavaVM) : Active.UwbEventManager := {|
  Active.mVm := vm;
  Active.mClass := None;
  Active.mObject := JNull;
  Active.mRangeDataClass := None;
  Active.mRangingTwoWayMeasuresClass := None;
  Active.mRangeTdoaMeasuresClass := None;
  Active.mMulticastUpdateListDataClass := None;
  Active.mOnDeviceStateNotificationReceived := None;
  Active.mOnRangeDataNotificationReceived := None;
  Active.mOnSessionStatusNotificationReceived := None;
  Active.mOnCoreGenericErrorNotificationReceived := None;
  Active.mOnMulticastListUpdateNotificationReceived := None;
  Active.mOnBlinkDataTxNotificationReceived := None;
  Active.mOnRawUciNotificationReceived := None
|}.

(* ===================================================================== *)
(** * Theorems *)

(* ===================================================================== *)
(** * Facts about the monad and the runtime operations *)

Lemma bind_Done {A B} (c : jni A) (k : A -> jni B) s evs a s' :
  c s = Done evs a s' ->
  bind c k s = match k a s' with
               | Done evs' b s'' => Done (evs ++ evs') b s''
               | Crash evs' f => Crash (evs ++ evs') f
               end.
Proof. intros H. unfold bind. rewrite H. reflexivity. Qed.

Lemma splice_fresh (n : nat) (new : list Z) :
  splice (repeat 0 n) 0 (Z.of_nat n) new = new.
Proof.
  unfold splice. simpl. rewrite Nat2Z.id.
  rewrite skipn_all2 by (rewrite repeat_length; lia).
  apply app_nil_r.
Qed.

(** Allocating [n] bytes and filling them from a buffer that holds at
    least [n] yields the first [n] bytes of the buffer. *)
Lemma new_byte_array_filled e n buf s :
  0 <= n <= Z.of_nat (length buf) ->
  (a <- NewByteArray (Some e) n ;; SetByteArrayRegion (Some e) a 0 n buf) s
  = Done [EvNew (JByteArray (repeat 0 (Z.to_nat n)))]
         (JByteArray (map to_jbyte (firstn (Z.to_nat n) buf))) s.
Proof.
  intros Hn.
  unfold NewByteArray, alloc, SetByteArrayRegion, set_region, with_env, bind,
    emit, ret.
  simpl.
  replace (Z.of_nat (length buf) <? n) with false
    by (symmetry; apply Z.ltb_ge; lia).
  replace (n <? 0) with false by (symmetry; apply Z.ltb_ge; lia).
  rewrite repeat_length.
  replace (Z.of_nat (Z.to_nat n) <? n) with false
    by (symmetry; apply Z.ltb_ge; lia).
  simpl.
  replace n with (Z.of_nat (Z.to_nat n)) at 3 by lia.
  rewrite splice_fresh. reflexivity.
Qed.

Lemma filled_length n buf :
  0 <= n <= Z.of_nat (length buf) ->
  length (map to_jbyte (firstn (Z.to_nat n) buf)) = Z.to_nat n.
Proof. intros. rewrite length_map, length_firstn. lia. Qed.

(* ===================================================================== *)
(** * The bit fields of the message-control word *)

Lemma land_mask_bound a mask n :
  0 <= n -> 0 <= mask < 2 ^ n -> 0 <= Z.land a mask < 2 ^ n.
Proof.
  intros Hn Hm. split.
  - apply Z.land_nonneg. right. lia.
  - replace mask with (Z.land mask (Z.ones n)).
    + rewrite Z.land_assoc, Z.land_ones by assumption.
      apply Z.mod_pos_bound. lia.
    + rewrite Z.land_ones by assumption. apply Z.mod_small. assumption.
Qed.

Lemma to_uint16_small z : 0 <= z < 2 ^ 16 -> to_uint16 z = z.
Proof. intros. unfold to_uint16. apply Z.mod_small. assumption. Qed.

Lemma txTimeStampValue_eq mc : Unused.txTimeStampValue mc = Z.land mc 0x06.
Proof.
  unfold Unused.txTimeStampValue, Unused.TDOA_TX_TIMESTAMP_OFFSET,
    Unused.TDOA_TX_TIMESTAMP_OFFSET_MASK.
  rewrite <- Z.land_assoc. change (Z.land 255 6) with 6.
  apply to_uint16_small.
  pose proof (land_mask_bound mc 6 3 ltac:(lia) ltac:(lia)). lia.
Qed.

Lemma rxTimeStampValue_eq mc : Unused.rxTimeStampValue mc = Z.land mc 0x18.
Proof.
  unfold Unused.rxTimeStampValue, Unused.TDOA_RX_TIMESTAMP_OFFSET,
    Unused.TDOA_RX_TIMESTAMP_OFFSET_MASK.
  rewrite <- Z.land_assoc. change (Z.land 255 24) with 24.
  apply to_uint16_small.
  pose proof (land_mask_bound mc 24 5 ltac:(lia) ltac:(lia)). lia.
Qed.

Lemma anchorLocationValue_eq mc : Unused.anchorLocationValue mc = Z.land mc 0x60.
Proof.
  unfold Unused.anchorLocationValue, Unused.TDOA_ANCHOR_LOC_OFFSET,
    Unused.TDOA_ANCHOR_LOC_OFFSET_MASK.
  rewrite <- Z.land_assoc. change (Z.land 255 96) with 96.
  apply to_uint16_small.
  pose proof (land_mask_bound mc 96 7 ltac:(lia) ltac:(lia)). lia.
Qed.

Lemma active_rr_bits_bound mc : 0 <= Z.shiftr (Z.land mc 0x0780) 7 <= 15.
Proof.
  pose proof (land_mask_bound mc 0x0780 11 ltac:(lia) ltac:(lia)) as H.
  rewrite Z.shiftr_div_pow2 by lia.
  change (2 ^ 11) with 2048 in H. change (2 ^ 7) with 128.
  split.
  - apply Z.div_pos; lia.
  - apply Z.lt_succ_r. apply Z.div_lt_upper_bound; lia.
Qed.

Lemma activeRangingRoundValue_eq mc :
  Unused.activeRangingRoundValue mc = Z.shiftr (Z.land mc 0x0780) 7.
Proof.
  unfold Unused.activeRangingRoundValue, Unused.TDOA_ACTIVE_RR_OFFSET,
    Unused.TDOA_ACTIVE_RR_OFFSET_MASK, Unused.TDOA_ACTIVE_RR_INDEX_POSITION.
  rewrite <- Z.land_assoc. change (Z.land 4080 1920) with 1920.
  apply to_uint16_small.
  pose proof (active_rr_bits_bound mc). lia.
Qed.

(* ===================================================================== *)
(** * The downlink-TDoA record (superseded copy) *)

Section DlTdoa.
Context {defs : UciDefs}.
Variable this : Unused.UwbEventManager.
Variable e : JNIEnv.

Lemma dltdoa_buffers_ok_inv m :
  Unused.dltdoa_buffers_ok m = true ->
  8 <= Z.of_nat (length (Unused.dl_mac_addr m)) /\
  8 <= Z.of_nat (length (Unused.dl_txTimeStamp m)) /\
  8 <= Z.of_nat (length (Unused.dl_rxTimeStamp m)) /\
  12 <= Z.of_nat (length (Unused.dl_anchor_location m)) /\
  Z.shiftr (Z.land (Unused.dl_message_control m) 0x0780) 7
  <= Z.of_nat (length (Unused.dl_active_ranging_round m)).
Proof.
  unfold Unused.dltdoa_buffers_ok. rewrite !andb_true_iff, !Z.leb_le.
  rewrite activeRangingRoundValue_eq.
  unfold Unused.MAC_EXT_ADD_LEN, Unused.TDOA_TIMESTAMP_LEN_64BITS,
    Unused.TDOA_ANCHOR_LOC_LEN_12BYTES.
  tauto.
Qed.

Lemma dltdoa_mac_address_run mode m s :
  8 <= Z.of_nat (length (Unused.dl_mac_addr m)) ->
  exists evs bs,
    Unused.dltdoa_mac_address (Some e) mode m s = Done evs (JByteArray bs) s.
Proof.
  intros H. unfold Unused.dltdoa_mac_address.
  destruct (mode =? SHORT_MAC_ADDRESS);
    rewrite new_byte_array_filled
      by (unfold Unused.MAC_SHORT_ADD_LEN, Unused.MAC_EXT_ADD_LEN; lia);
    eauto.
Qed.

Lemma dltdoa_tx_timestamp_run m s :
  8 <= Z.of_nat (length (Unused.dl_txTimeStamp m)) ->
  let sel := Z.land (Unused.dl_message_control m) 0x06 in
  exists evs v,
    Unused.dltdoa_tx_timestamp (Some e) m s = Done evs v s /\
    (sel = 0 -> exists bs, v = JByteArray bs /\ length bs = 5%nat) /\
    (sel = 2 -> exists bs, v = JByteArray bs /\ length bs = 8%nat) /\
    (sel <> 0 -> sel <> 2 ->
     v = JNull /\
     evs = [EvLog LvlE Unused.fn_range "Invalid dlTdoaTxTimeStamp"]).
Proof.
  intros H sel. unfold Unused.dltdoa_tx_timestamp.
  rewrite txTimeStampValue_eq. fold sel.
  unfold Unused.TDOA_TX_TIMESTAMP_40BITS, Unused.TDOA_TX_TIMESTAMP_64BITS,
    Unused.TDOA_TIMESTAMP_LEN_40BITS, Unused.TDOA_TIMESTAMP_LEN_64BITS.
  destruct (Z.eqb_spec sel 0) as [H0 | H0];
    [ | destruct (Z.eqb_spec sel 2) as [H2 | H2] ].
  - rewrite new_byte_array_filled by lia.
    do 2 eexists. split; [reflexivity | ].
    repeat split; intros; try lia.
    eexists. split; [reflexivity | ]. rewrite filled_length; lia.
  - rewrite new_byte_array_filled by lia.
    do 2 eexists. split; [reflexivity | ].
    repeat split; intros; try lia.
    eexists. split; [reflexivity | ]. rewrite filled_length; lia.
  - do 2 eexists. split; [reflexivity | ].
    repeat split; intros; try lia.
Qed.

Lemma dltdoa_rx_timestamp_run m s :
  8 <= Z.of_nat (length (Unused.dl_rxTimeStamp m)) ->
  let sel := Z.land (Unused.dl_message_control m) 0x18 in
  exists evs v,
    Unused.dltdoa_rx_timestamp (Some e) m s = Done evs v s /\
    (sel = 0 -> exists bs, v = JByteArray bs /\ length bs = 5%nat) /\
    (sel = 8 -> exists bs, v = JByteArray bs /\ length bs = 8%nat) /\
    (sel <> 0 -> sel <> 8 ->
     v = JNull /\
     evs = [EvLog LvlE Unused.fn_range "Invalid dlTdoaRxTimeStamp"]).
Proof.
  intros H sel. unfold Unused.dltdoa_rx_timestamp.
  rewrite rxTimeStampValue_eq. fold sel.
  unfold Unused.TDOA_RX_TIMESTAMP_40BITS, Unused.TDOA_RX_TIMESTAMP_64BITS,
    Unused.TDOA_TIMESTAMP_LEN_40BITS, Unused.TDOA_TIMESTAMP_LEN_64BITS.
  destruct (Z.eqb_spec sel 0) as [H0 | H0];
    [ | destruct (Z.eqb_spec sel 8) as [H2 | H2] ].
  - rewrite new_byte_array_filled by lia.
    do 2 eexists. split; [reflexivity | ].
    repeat split; intros; try lia.
    eexists. split; [reflexivity | ]. rewrite filled_length; lia.
  - rewrite new_byte_array_filled by lia.
    do 2 eexists. split; [reflexivity | ].
    repeat split; intros; try lia.
    eexists. split; [reflexivity | ]. rewrite filled_length; lia.
  - do 2 eexists. split; [reflexivity | ].
    repeat split; intros; try lia.
Qed.

Lemma dltdoa_anchor_location_run m s :
  12 <= Z.of_nat (length (Unused.dl_anchor_location m)) ->
  let sel := Z.land (Unused.dl_message_control m) 0x60 in
  exists evs v,
    Unused.dltdoa_anchor_location (Some e) m s = Done evs v s /\
    (sel = 0 ->
     v = JNull /\
     evs = [EvLog LvlI Unused.fn_range "AnchorLocation not included"]) /\
    (sel = 0x40 -> exists bs, v = JByteArray bs /\ length bs = 10%nat) /\
    (sel = 0x20 -> exists bs, v = JByteArray bs /\ length bs = 12%nat) /\
    (sel <> 0 -> sel <> 0x40 -> sel <> 0x20 ->
     v = JNull /\
     evs = [EvLog LvlE Unused.fn_range "Invalid dlTdoaAnchorLocation"]).
Proof.
  intros H sel. unfold Unused.dltdoa_anchor_location.
  rewrite anchorLocationValue_eq. fold sel.
  unfold Unused.TDOA_ANCHOR_LOC_NOT_INCLUDED,
    Unused.TDOA_ANCHOR_LOC_IN_RELATIVE_SYSTEM,
    Unused.TDOA_ANCHOR_LOC_IN_WGS84_SYSTEM,
    Unused.TDOA_ANCHOR_LOC_LEN_10BYTES, Unused.TDOA_ANCHOR_LOC_LEN_12BYTES.
  destruct (Z.eqb_spec sel 0) as [H0 | H0];
    [ | destruct (Z.eqb_spec sel 64) as [H1 | H1];
        [ | destruct (Z.eqb_spec sel 32) as [H2 | H2] ] ].
  - do 2 eexists. split; [reflexivity | ].
    repeat split; intros; try lia.
  - rewrite new_byte_array_filled by lia.
    do 2 eexists. split; [reflexivity | ].
    repeat split; intros; try lia.
    eexists. split; [reflexivity | ]. rewrite filled_length; lia.
  - rewrite new_byte_array_filled by lia.
    do 2 eexists. split; [reflexivity | ].
    repeat split; intros; try lia.
    eexists. split; [reflexivity | ]. rewrite filled_length; lia.
  - do 2 eexists. split; [reflexivity | ].
    repeat split; intros; try lia.
Qed.

Lemma dltdoa_active_ranging_round_run m s :
  let n := Z.shiftr (Z.land (Unused.dl_message_control m) 0x0780) 7 in
  n <= Z.of_nat (length (Unused.dl_active_ranging_round m)) ->
  exists evs v,
    Unused.dltdoa_active_ranging_round (Some e) m s = Done evs v s /\
    (n = 0 -> v = JNull) /\
    (n <> 0 -> exists bs, v = JByteArray bs /\ Z.of_nat (length bs) = n).
Proof.
  intros n H. unfold Unused.dltdoa_active_ranging_round.
  rewrite activeRangingRoundValue_eq. fold n.
  pose proof (active_rr_bits_bound (Unused.dl_message_control m)) as Hb.
  fold n in Hb.
  destruct (Z.eqb_spec n 0) as [H0 | H0]; cbv beta iota delta [negb].
  - do 2 eexists. split; [reflexivity | ]. split; intros; [reflexivity | lia].
  - rewrite new_byte_array_filled by lia.
    do 2 eexists. split; [reflexivity | ]. split; intros; [lia | ].
    eexists. split; [reflexivity | ]. rewrite filled_length; lia.
Qed.

(** The record constructor receives what the five blocks produced. *)
Lemma dltdoa_measure_run mode m s :
  Unused.dltdoa_buffers_ok m = true ->
  exists e_mac v_mac e_tx v_tx e_rx v_rx e_al v_al e_rr v_rr obj,
    Unused.dltdoa_mac_address (Some e) mode m s = Done e_mac v_mac s /\
    Unused.dltdoa_tx_timestamp (Some e) m s = Done e_tx v_tx s /\
    Unused.dltdoa_rx_timestamp (Some e) m s = Done e_rx v_rx s /\
    Unused.dltdoa_anchor_location (Some e) m s = Done e_al v_al s /\
    Unused.dltdoa_active_ranging_round (Some e) m s = Done e_rr v_rr s /\
    Unused.dltdoa_measure this (Some e) mode m s
    = Done (e_mac ++ e_tx ++ e_rx ++ e_al ++ e_rr ++ [EvNew obj]) obj s /\
    ctor_arg obj Unused.DL_ARG_MAC = Some v_mac /\
    ctor_arg obj Unused.DL_ARG_TX_TIMESTAMP = Some v_tx /\
    ctor_arg obj Unused.DL_ARG_RX_TIMESTAMP = Some v_rx /\
    ctor_arg obj Unused.DL_ARG_ANCHOR_LOCATION = Some v_al /\
    ctor_arg obj Unused.DL_ARG_ACTIVE_RANGING_ROUND = Some v_rr.
Proof.
  intros Hok. apply dltdoa_buffers_ok_inv in Hok.
  destruct Hok as (Hmac & Htx & Hrx & Hal & Hrr).
  destruct (dltdoa_mac_address_run mode m s Hmac) as (e_mac & bs & Emac).
  destruct (dltdoa_tx_timestamp_run m s Htx) as (e_tx & v_tx & Etx & _).
  destruct (dltdoa_rx_timestamp_run m s Hrx) as (e_rx & v_rx & Erx & _).
  destruct (dltdoa_anchor_location_run m s Hal) as (e_al & v_al & Eal & _).
  destruct (dltdoa_active_ranging_round_run m s Hrr) as (e_rr & v_rr & Err & _).
  exists e_mac, (JByteArray bs), e_tx, v_tx, e_rx, v_rx, e_al, v_al, e_rr, v_rr.
  eexists. repeat (split; [eassumption | ]).
  split.
  - unfold Unused.dltdoa_measure.
    rewrite (bind_Done _ _ _ _ _ _ Emac).
    rewrite (bind_Done _ _ _ _ _ _ Etx).
    rewrite (bind_Done _ _ _ _ _ _ Erx).
    rewrite (bind_Done _ _ _ _ _ _ Eal).
    rewrite (bind_Done _ _ _ _ _ _ Err).
    cbn. reflexivity.
  - repeat split; reflexivity.
Qed.

End DlTdoa.

(* ===================================================================== *)
(** * The variable-length fields of a downlink-TDoA record *)

(** C1.  For every downlink-TDoA record (whose buffers have their declared
    room), the marshalling of the record returns; when the control word
    masked with 0x06 is 0 the tx-timestamp argument is a byte array of
    exactly 5 bytes, when it is 2 one of exactly 8 bytes, and for any
    other value it is null and the error line "Invalid dlTdoaTxTimeStamp"
    is in the trace.  In that last case the tx block reads nothing: it
    returns whatever the environment and the buffer are. *)
Theorem tx_timestamp_by_control_bits
    {defs : UciDefs} (this : Unused.UwbEventManager) (e : JNIEnv) (mode : Z)
    (m : Unused.tUWA_DLTDOA_RANGING_MEASR) (s : jstate) :
  Unused.dltdoa_buffers_ok m = true ->
  let sel := Z.land (Unused.dl_message_control m) 0x06 in
  Unused.txTimeStampValue (Unused.dl_message_control m) = sel /\
  (exists evs obj tx,
      Unused.dltdoa_measure this (Some e) mode m s = Done evs obj s /\
      ctor_arg obj Unused.DL_ARG_TX_TIMESTAMP = Some tx /\
      (sel = 0 -> exists bs, tx = JByteArray bs /\ length bs = 5%nat) /\
      (sel = 2 -> exists bs, tx = JByteArray bs /\ length bs = 8%nat) /\
      (sel <> 0 -> sel <> 2 ->
       tx = JNull /\
       In (EvLog LvlE Unused.fn_range "Invalid dlTdoaTxTimeStamp") evs)) /\
  (sel <> 0 -> sel <> 2 ->
   forall env,
     Unused.dltdoa_tx_timestamp env m s
     = Done [EvLog LvlE Unused.fn_range "Invalid dlTdoaTxTimeStamp"] JNull s).
Proof.
  intros Hok sel. split; [apply txTimeStampValue_eq | ]. split.
  - destruct (dltdoa_measure_run this e mode m s Hok)
      as (e_mac & v_mac & e_tx & v_tx & e_rx & v_rx & e_al & v_al & e_rr & v_rr
          & obj & _ & Etx & _ & _ & _ & Erun & _ & Atx & _).
    apply dltdoa_buffers_ok_inv in Hok. destruct Hok as (_ & Htx & _).
    destruct (dltdoa_tx_timestamp_run e m s Htx)
      as (evs' & v' & Etx' & H0 & H2 & Hbad).
    rewrite Etx in Etx'. injection Etx' as <- <-.
    exists (e_mac ++ e_tx ++ e_rx ++ e_al ++ e_rr ++ [EvNew obj])%list, obj, v_tx.
    split; [exact Erun | ]. split; [exact Atx | ].
    split; [exact H0 | ]. split; [exact H2 | ].
    intros Hn0 Hn2. destruct (Hbad Hn0 Hn2) as [-> ->].
    split; [reflexivity | ].
    apply in_or_app. right. apply in_or_app. left. left. reflexivity.
  - intros H0 H2 env. unfold Unused.dltdoa_tx_timestamp.
    rewrite txTimeStampValue_eq. fold sel.
    unfold Unused.TDOA_TX_TIMESTAMP_40BITS, Unused.TDOA_TX_TIMESTAMP_64BITS.
    destruct (Z.eqb_spec sel 0); [contradiction | ].
    destruct (Z.eqb_spec sel 2); [contradiction | ].
    reflexivity.
Qed.

(** C2.  For every downlink-TDoA record, when the control word masked with
    0x60 is 0 the anchor-location argument is null; when it is 0x40 it is
    a byte array of exactly 10 bytes; when it is 0x20 one of exactly 12
    bytes; for any other value it is null and the error line
    "Invalid dlTdoaAnchorLocation" is in the trace. *)
Theorem anchor_location_by_control_bits
    {defs : UciDefs} (this : Unused.UwbEventManager) (e : JNIEnv) (mode : Z)
    (m : Unused.tUWA_DLTDOA_RANGING_MEASR) (s : jstate) :
  Unused.dltdoa_buffers_ok m = true ->
  let sel := Z.land (Unused.dl_message_control m) 0x60 in
  Unused.anchorLocationValue (Unused.dl_message_control m) = sel /\
  exists evs obj al,
    Unused.dltdoa_measure this (Some e) mode m s = Done evs obj s /\
    ctor_arg obj Unused.DL_ARG_ANCHOR_LOCATION = Some al /\
    (sel = 0 -> al = JNull) /\
    (sel = 0x40 -> exists bs, al = JByteArray bs /\ length bs = 10%nat) /\
    (sel = 0x20 -> exists bs, al = JByteArray bs /\ length bs = 12%nat) /\
    (sel <> 0 -> sel <> 0x40 -> sel <> 0x20 ->
     al = JNull /\
     In (EvLog LvlE Unused.fn_range "Invalid dlTdoaAnchorLocation") evs).
Proof.
  intros Hok sel. split; [apply anchorLocationValue_eq | ].
  destruct (dltdoa_measure_run this e mode m s Hok)
    as (e_mac & v_mac & e_tx & v_tx & e_rx & v_rx & e_al & v_al & e_rr & v_rr
        & obj & _ & _ & _ & Eal & _ & Erun & _ & _ & _ & Aal & _).
  apply dltdoa_buffers_ok_inv in Hok. destruct Hok as (_ & _ & _ & Hal & _).
  destruct (dltdoa_anchor_location_run e m s Hal)
    as (evs' & v' & Eal' & H0 & H1 & H2 & Hbad).
  rewrite Eal in Eal'. injection Eal' as <- <-.
  exists (e_mac ++ e_tx ++ e_rx ++ e_al ++ e_rr ++ [EvNew obj])%list, obj, v_al.
  split; [exact Erun | ]. split; [exact Aal | ].
  split; [intros Hs; apply (H0 Hs) | ].
  split; [exact H1 | ]. split; [exact H2 | ].
  intros Hn0 Hn1 Hn2. destruct (Hbad Hn0 Hn1 Hn2) as [-> ->].
  split; [reflexivity | ].
  do 3 (apply in_or_app; right). apply in_or_app. left. left. reflexivity.
Qed.

(** C3.  For every downlink-TDoA record, the selector the code computes by
    its double masking, ((control & 0x0FF0) & 0x0780) >> 7, is
    (control & 0x0780) >> 7; when that value is 0 the active-ranging-round
    argument is null, otherwise it is a byte array of exactly that many
    bytes. *)
Theorem active_ranging_round_by_control_bits
    {defs : UciDefs} (this : Unused.UwbEventManager) (e : JNIEnv) (mode : Z)
    (m : Unused.tUWA_DLTDOA_RANGING_MEASR) (s : jstate) :
  Unused.dltdoa_buffers_ok m = true ->
  let n := Z.shiftr (Z.land (Unused.dl_message_control m) 0x0780) 7 in
  Unused.activeRangingRoundValue (Unused.dl_message_control m) = n /\
  Z.shiftr (Z.land (Z.land (Unused.dl_message_control m) 0x0FF0) 0x0780) 7 = n /\
  exists evs obj rr,
    Unused.dltdoa_measure this (Some e) mode m s = Done evs obj s /\
    ctor_arg obj Unused.DL_ARG_ACTIVE_RANGING_ROUND = Some rr /\
    (n = 0 -> rr = JNull) /\
    (n <> 0 -> exists bs, rr = JByteArray bs /\ Z.of_nat (length bs) = n).
Proof.
  intros Hok n. split; [apply activeRangingRoundValue_eq | ]. split.
  - rewrite <- Z.land_assoc. reflexivity.
  - destruct (dltdoa_measure_run this e mode m s Hok)
      as (e_mac & v_mac & e_tx & v_tx & e_rx & v_rx & e_al & v_al & e_rr & v_rr
          & obj & _ & _ & _ & _ & Err & Erun & _ & _ & _ & _ & Arr).
    apply dltdoa_buffers_ok_inv in Hok. destruct Hok as (_ & _ & _ & _ & Hrr).
    destruct (dltdoa_active_ranging_round_run e m s Hrr)
      as (evs' & v' & Err' & H0 & H1).
    rewrite Err in Err'. injection Err' as <- <-.
    exists (e_mac ++ e_tx ++ e_rx ++ e_al ++ e_rr ++ [EvNew obj])%list, obj, v_rr.
    repeat split; assumption.
Qed.

(* ===================================================================== *)
(** * Stepping through the runtime operations *)

Lemma NewByteArray_run e n s :
  NewByteArray (Some e) n s
  = Done [EvNew (JByteArray (repeat 0 (Z.to_nat n)))]
         (JByteArray (repeat 0 (Z.to_nat n))) s.
Proof. reflexivity. Qed.

Lemma SetByteArrayRegion_run e old n buf s :
  Z.of_nat (length old) = n -> n <= Z.of_nat (length buf) ->
  SetByteArrayRegion (Some e) (JByteArray old) 0 n buf s
  = Done [] (JByteArray (map to_jbyte (firstn (Z.to_nat n) buf))) s.
Proof.
  intros Ho Hb.
  unfold SetByteArrayRegion, set_region, with_env, bind, ret.
  replace (Z.of_nat (length buf) <? n) with false
    by (symmetry; apply Z.ltb_ge; lia).
  replace (n <? 0) with false by (symmetry; apply Z.ltb_ge; lia).
  replace (Z.of_nat (length old) <? 0 + n) with false
    by (symmetry; apply Z.ltb_ge; lia).
  cbn. unfold splice. cbn.
  rewrite skipn_all2 by lia. rewrite app_nil_r. reflexivity.
Qed.

Lemma GetMethodID_run e cls name sig s :
  GetMethodID (Some e) cls name sig s = Done [] (MethodID name sig) s.
Proof. reflexivity. Qed.

Lemma NewObject_run e cls ctor args s :
  NewObject (Some e) cls ctor args s
  = Done [EvNew (JObject cls ctor args)] (JObject cls ctor args) s.
Proof. reflexivity. Qed.

Lemma NewObjectArray_run e n cls init s :
  NewObjectArray (Some e) n cls init s
  = Done [EvNew (JObjectArray cls (repeat init (Z.to_nat n)))]
         (JObjectArray cls (repeat init (Z.to_nat n))) s.
Proof. reflexivity. Qed.

Ltac run_steps :=
  repeat first
    [ rewrite NewByteArray_run
    | rewrite SetByteArrayRegion_run by (rewrite ?repeat_length; lia)
    | rewrite GetMethodID_run
    | rewrite NewObject_run
    | progress cbv beta iota ].

(* ===================================================================== *)
(** * The two-way record *)

Lemma twr_buffers_ok_unused m :
  Unused.twr_buffers_ok m = true ->
  8 <= Z.of_nat (length (Unused.twr_mac_addr m)) /\
  12 <= Z.of_nat (length (Unused.twr_rfu m)).
Proof.
  unfold Unused.twr_buffers_ok. rewrite andb_true_iff, !Z.leb_le. tauto.
Qed.

Lemma twr_buffers_ok_active m :
  Active.twr_buffers_ok m = true ->
  8 <= Z.of_nat (length (Active.twr_mac_addr m)) /\
  12 <= Z.of_nat (length (Active.twr_rfu m)).
Proof.
  unfold Active.twr_buffers_ok. rewrite andb_true_iff, !Z.leb_le. tauto.
Qed.

Lemma twr_measure_unused {defs : UciDefs} this e mode m s :
  Unused.twr_buffers_ok m = true ->
  exists evs obj,
    Unused.twr_measure this (Some e) mode m s = Done evs obj s /\
    complementary_lengths mode 14 obj.
Proof.
  intros Hok. apply twr_buffers_ok_unused in Hok. destruct Hok as [Hm Hr].
  unfold Unused.twr_measure, complementary_lengths, bind, ret.
  destruct (Z.eqb_spec mode SHORT_MAC_ADDRESS) as [Hs | Hs]; run_steps;
    (do 2 eexists; split; [reflexivity | ]);
    (do 2 eexists; split; [reflexivity | split; [reflexivity | ] ]);
    [left | right]; rewrite !length_map, !length_firstn; lia.
Qed.

Lemma twr_measure_active {defs : UciDefs} this e mode m s :
  Active.twr_buffers_ok m = true ->
  exists evs obj,
    Active.twr_measure this (Some e) mode m s = Done evs obj s /\
    complementary_lengths mode 13 obj.
Proof.
  intros Hok. apply twr_buffers_ok_active in Hok. destruct Hok as [Hm Hr].
  unfold Active.twr_measure, complementary_lengths, bind, ret.
  destruct (Z.eqb_spec mode SHORT_MAC_ADDRESS) as [Hs | Hs]; run_steps;
    (do 2 eexists; split; [reflexivity | ]);
    (do 2 eexists; split; [reflexivity | split; [reflexivity | ] ]);
    [left | right]; rewrite !length_map, !length_firstn; lia.
Qed.

(** C4.  In both copies, the marshalling of a two-way record (whose
    buffers have their declared room) returns an object whose address and
    padding arguments are byte arrays of lengths 2 and 12 in the short
    address mode and of lengths 8 and 6 in every other mode; no other
    pair of lengths is produced. *)
Theorem twoway_address_and_padding_complementary
    {defs : UciDefs} (e : JNIEnv) (mode : Z) (s : jstate)
    (this_u : Unused.UwbEventManager) (m_u : Unused.tUWA_TWR_RANGING_MEASR)
    (this_a : Active.UwbEventManager) (m_a : Active.tUWA_TWR_RANGING_MEASR) :
  Unused.twr_buffers_ok m_u = true ->
  Active.twr_buffers_ok m_a = true ->
  (exists evs obj,
      Unused.twr_measure this_u (Some e) mode m_u s = Done evs obj s /\
      complementary_lengths mode 14 obj) /\
  (exists evs obj,
      Active.twr_measure this_a (Some e) mode m_a s = Done evs obj s /\
      complementary_lengths mode 13 obj).
Proof.
  intros Hu Ha. split.
  - apply twr_measure_unused; assumption.
  - apply twr_measure_active; assumption.
Qed.

(* ===================================================================== *)
(** * Guards of the handlers *)

Lemma vendor_specific_data_run {defs : UciDefs} e ntf s :
  Unused.vs_len (Unused.vendor_specific_ntf ntf)
  <= Z.of_nat (length (Unused.vs_data (Unused.vendor_specific_ntf ntf))) ->
  exists evs v,
    Unused.vendor_specific_data (Some e) ntf s = Done evs v s /\
    existsb is_call evs = false /\
    (forall o, In (EvNew o) evs -> exists bs, o = JByteArray bs).
Proof.
  intros H. unfold Unused.vendor_specific_data.
  destruct (Z.gtb_spec (Unused.vs_len (Unused.vendor_specific_ntf ntf)) 0).
  - rewrite new_byte_array_filled by lia.
    do 2 eexists. split; [reflexivity | ]. split; [reflexivity | ].
    intros o [Ho | []]. injection Ho as <-. eauto.
  - do 2 eexists. split; [reflexivity | ]. split; [reflexivity | ].
    intros o [Ho | []]. discriminate.
Qed.

(** C9.  In the superseded copy, when the measurement-type tag is none of
    two-way, downlink-TDoA and one-way-with-AoA (and the vendor payload
    fits its buffer), [onRangeDataNotificationReceived] returns normally,
    leaves the state as it was, invokes no callback and constructs no
    object: the only allocation it can make is the vendor byte array.
    When the environment is available the trace ends with the error line
    of the guarded delivery and the exit line. *)
Theorem unknown_measurement_type_not_delivered
    {defs : UciDefs} (this : Unused.UwbEventManager)
    (ntf : Unused.tUWA_RANGE_DATA_NTF) (s : jstate) :
  Unused.ranging_measure_type ntf <> MEASUREMENT_TYPE_TWOWAY ->
  Unused.ranging_measure_type ntf <> MEASUREMENT_TYPE_DLTDOA ->
  Unused.ranging_measure_type ntf <> MEASUREMENT_TYPE_OWR_WITH_AOA ->
  Unused.vs_len (Unused.vendor_specific_ntf ntf)
  <= Z.of_nat (length (Unused.vs_data (Unused.vendor_specific_ntf ntf))) ->
  (forall env vendorSpecificData,
      Unused.range_data_object this env ntf vendorSpecificData s
      = Done [] JNull s) /\
  exists evs,
    Unused.onRangeDataNotificationReceived this ntf s = Done evs tt s /\
    existsb is_call evs = false /\
    (forall o, In (EvNew o) evs -> exists bs, o = JByteArray bs) /\
    (forall e, ScopedJniEnv (Unused.mVm this) = Some e ->
               exists pre,
                 evs = (pre ++
                        [EvLog LvlE Unused.fn_range "rangeDataNtf MID is NULL";
                         EvLog LvlI Unused.fn_range "exit"])%list).
Proof.
  intros H1 H2 H3 Hv.
  assert (Hobj : forall env v,
             Unused.range_data_object this env ntf v s = Done [] JNull s).
  { intros env v. unfold Unused.range_data_object.
    destruct (Z.eqb_spec (Unused.ranging_measure_type ntf)
                MEASUREMENT_TYPE_TWOWAY); [contradiction | ].
    destruct (Z.eqb_spec (Unused.ranging_measure_type ntf)
                MEASUREMENT_TYPE_DLTDOA); [contradiction | ].
    destruct (Z.eqb_spec (Unused.ranging_measure_type ntf)
                MEASUREMENT_TYPE_OWR_WITH_AOA); [contradiction | ].
    reflexivity. }
  split; [exact Hobj | ].
  unfold Unused.onRangeDataNotificationReceived.
  destruct (ScopedJniEnv (Unused.mVm this)) as [e | ] eqn:Henv.
  - destruct (vendor_specific_data_run e ntf s Hv) as (ev & v & Ev & Hc & Hn).
    rewrite (bind_Done _ _ _ _ _ _ Ev).
    rewrite (bind_Done _ _ _ _ _ _ (Hobj (Some e) v)).
    assert (Hd : Unused.deliver_range_data this (Some e) JNull s
                 = Done [EvLog LvlE Unused.fn_range "rangeDataNtf MID is NULL"]
                        tt s).
    { unfold Unused.deliver_range_data.
      destruct (Unused.mOnRangeDataNotificationReceived this); reflexivity. }
    rewrite (bind_Done _ _ _ _ _ _ Hd). cbn.
    eexists. split; [reflexivity | ]. split; [ | split].
    + rewrite existsb_app, Hc. reflexivity.
    + intros o Ho. apply in_app_or in Ho. destruct Ho as [Ho | Ho].
      * apply Hn; assumption.
      * cbn in Ho. destruct Ho as [Ho | [Ho | []]]; discriminate.
    + intros e' _. exists ev. reflexivity.
  - eexists. split; [reflexivity | ]. split; [reflexivity | ]. split.
    + intros o [Ho | []]. discriminate.
    + intros e'. discriminate.
Qed.

(* ===================================================================== *)
(** * The multicast-list update *)

(** The superseded copy rejects a controlee count above the bound: only
    log lines are produced. *)
Lemma unused_multicast_rejects_excess {defs : UciDefs} this ntf s :
  Unused.mc_no_of_controlees ntf > MAX_NUM_CONTROLLEES ->
  exists evs,
    Unused.onMulticastListUpdateNotificationReceived this (Some ntf) s
    = Done evs tt s /\
    forallb is_log evs = true.
Proof.
  intros H. unfold Unused.onMulticastListUpdateNotificationReceived.
  destruct (ScopedJniEnv (Unused.mVm this)).
  - destruct (Z.gtb_spec (Unused.mc_no_of_controlees ntf) MAX_NUM_CONTROLLEES);
      [ | lia].
    eexists. split; reflexivity.
  - eexists. split; reflexivity.
Qed.

Lemma clear_exception_run e fn msg s :
  clear_exception (Some e) fn msg s
  = if exception_pending s
    then Done [EvExceptionClear; EvLog LvlE fn msg] tt (JState false)
    else Done [] tt s.
Proof.
  unfold clear_exception, bind, ExceptionCheck, with_env.
  destruct (exception_pending s); reflexivity.
Qed.

(** What the delivery step of a handler does with a resolved method: the
    exception flag is clear afterwards whatever the listener did. *)
Lemma call_and_clear_run e obj mid args fn msg s :
  (CallVoidMethod (Some e) obj mid args ;; clear_exception (Some e) fn msg) s
  = Done (EvCall obj mid args (listener_throws e mid args)
          :: if exception_pending s || listener_throws e mid args
             then [EvExceptionClear; EvLog LvlE fn msg] else [])
         tt (JState false).
Proof.
  unfold bind, CallVoidMethod, with_env. rewrite clear_exception_run. cbn.
  destruct s as [p]. cbn.
  destruct p, (listener_throws e mid args); reflexivity.
Qed.

Ltac step :=
  first [ erewrite bind_Done by first [ apply call_and_clear_run | reflexivity ]
        | progress cbv beta iota zeta ].

Lemma unused_multicast_empty {defs : UciDefs} this e ntf s :
  ScopedJniEnv (Unused.mVm this) = Some e ->
  Unused.mc_no_of_controlees ntf = 0 ->
  0 <= MAX_NUM_CONTROLLEES ->
  let obj :=
    JObject (Unused.mMulticastUpdateListDataClass this)
      (MethodID "<init>" "(JII[I[J[I)V")
      [ JLong (to_jlong (Unused.mc_session_id ntf));
        JInt (to_jint (Unused.mc_remaining_list ntf));
        JInt 0; JIntArray []; JLongArray []; JIntArray [] ] in
  exists evs s',
    Unused.onMulticastListUpdateNotificationReceived this (Some ntf) s
    = Done evs tt s' /\
    In (EvNew obj) evs /\
    (forall mid,
        Unused.mOnMulticastListUpdateNotificationReceived this = Some mid ->
        In (EvCall (Unused.mObject this) mid [obj]
              (listener_throws e mid [obj])) evs) /\
    (Unused.mOnMulticastListUpdateNotificationReceived this = None ->
     In (EvLog LvlE Unused.fn_multicast "MulticastUpdateListNtf MID is null ")
        evs).
Proof.
  intros Henv Hn Hmax obj.
  unfold Unused.onMulticastListUpdateNotificationReceived.
  rewrite Henv, Hn.
  destruct (Z.gtb_spec 0 MAX_NUM_CONTROLLEES); [lia | ].
  unfold Unused.multicast_marshal_and_deliver, Unused.multicast_fill_arrays.
  rewrite Hn.
  destruct (Unused.mOnMulticastListUpdateNotificationReceived this) as [mid | ];
    repeat step; cbn; fold obj.
  - do 2 eexists. split; [reflexivity | ]. split; [ | split].
    + cbn. tauto.
    + intros mid' [= <-]. cbn. tauto.
    + discriminate.
  - do 2 eexists. split; [reflexivity | ]. split; [ | split].
    + cbn. tauto.
    + discriminate.
    + intros _. cbn. tauto.
Qed.

Lemma active_multicast_empty this e ntf s :
  ScopedJniEnv (Active.mVm this) = Some e ->
  Active.mc_no_of_controlees ntf = 0 ->
  let obj :=
    JObject (Active.mMulticastUpdateListDataClass this)
      (MethodID "<init>" "(JII[J[I)V")
      [ JLong (to_jlong (Active.mc_session_id ntf));
        JInt (to_jint (Active.mc_remaining_list ntf));
        JInt 0; JLongArray []; JIntArray [] ] in
  exists evs s',
    Active.onMulticastListUpdateNotificationReceived this (Some ntf) s
    = Done evs tt s' /\
    In (EvNew obj) evs /\
    (forall mid,
        Active.mOnMulticastListUpdateNotificationReceived this = Some mid ->
        In (EvCall (Active.mObject this) mid [obj]
              (listener_throws e mid [obj])) evs) /\
    (Active.mOnMulticastListUpdateNotificationReceived this = None ->
     In (EvLog LvlE Active.fn_multicast "MulticastUpdateListNtf MID is null ")
        evs).
Proof.
  intros Henv Hn obj.
  unfold Active.onMulticastListUpdateNotificationReceived.
  rewrite Henv.
  unfold Active.multicast_marshal_and_deliver, Active.multicast_fill_arrays.
  rewrite Hn.
  destruct (Active.mOnMulticastListUpdateNotificationReceived this) as [mid | ];
    repeat step; cbn; fold obj.
  - do 2 eexists. split; [reflexivity | ]. split; [ | split].
    + cbn. tauto.
    + intros mid' [= <-]. cbn. tauto.
    + discriminate.
  - do 2 eexists. split; [reflexivity | ]. split; [ | split].
    + cbn. tauto.
    + discriminate.
    + intros _. cbn. tauto.
Qed.

(** C10.  In both copies a multicast-list update with no controlee is not
    rejected: the handler returns, having constructed the update object
    over zero-length arrays, and it attempts the delivery: the listener
    is invoked with that object when its method is resolved, and the
    missing method is logged otherwise. *)
Theorem empty_multicast_update_delivered
    {defs : UciDefs} (e : JNIEnv) (s : jstate)
    (this_u : Unused.UwbEventManager)
    (ntf_u : Unused.tUWA_SESSION_UPDATE_MULTICAST_LIST_NTF)
    (this_a : Active.UwbEventManager)
    (ntf_a : Active.tUWA_SESSION_UPDATE_MULTICAST_LIST_NTF) :
  ScopedJniEnv (Unused.mVm this_u) = Some e ->
  ScopedJniEnv (Active.mVm this_a) = Some e ->
  Unused.mc_no_of_controlees ntf_u = 0 ->
  Active.mc_no_of_controlees ntf_a = 0 ->
  0 <= MAX_NUM_CONTROLLEES ->
  let obj_u :=
    JObject (Unused.mMulticastUpdateListDataClass this_u)
      (MethodID "<init>" "(JII[I[J[I)V")
      [ JLong (to_jlong (Unused.mc_session_id ntf_u));
        JInt (to_jint (Unused.mc_remaining_list ntf_u));
        JInt 0; JIntArray []; JLongArray []; JIntArray [] ] in
  let obj_a :=
    JObject (Active.mMulticastUpdateListDataClass this_a)
      (MethodID "<init>" "(JII[J[I)V")
      [ JLong (to_jlong (Active.mc_session_id ntf_a));
        JInt (to_jint (Active.mc_remaining_list ntf_a));
        JInt 0; JLongArray []; JIntArray [] ] in
  (exists evs s',
      Unused.onMulticastListUpdateNotificationReceived this_u (Some ntf_u) s
      = Done evs tt s' /\
      In (EvNew obj_u) evs /\
      (forall mid,
          Unused.mOnMulticastListUpdateNotificationReceived this_u = Some mid ->
          In (EvCall (Unused.mObject this_u) mid [obj_u]
                (listener_throws e mid [obj_u])) evs) /\
      (Unused.mOnMulticastListUpdateNotificationReceived this_u = None ->
       In (EvLog LvlE Unused.fn_multicast
             "MulticastUpdateListNtf MID is null ") evs)) /\
  (exists evs s',
      Active.onMulticastListUpdateNotificationReceived this_a (Some ntf_a) s
      = Done evs tt s' /\
      In (EvNew obj_a) evs /\
      (forall mid,
          Active.mOnMulticastListUpdateNotificationReceived this_a = Some mid ->
          In (EvCall (Active.mObject this_a) mid [obj_a]
                (listener_throws e mid [obj_a])) evs) /\
      (Active.mOnMulticastListUpdateNotificationReceived this_a = None ->
       In (EvLog LvlE Active.fn_multicast
             "MulticastUpdateListNtf MID is null ") evs)).
Proof.
  intros Hu Ha Hnu Hna Hmax. split.
  - apply unused_multicast_empty; assumption.
  - apply active_multicast_empty; assumption.
Qed.

Lemma events_of_bind_Done {A B} (c : jni A) (k : A -> jni B) s evs a s' :
  c s = Done evs a s' ->
  events_of (bind c k s) = (evs ++ events_of (k a s'))%list.
Proof.
  intros H. rewrite (bind_Done _ _ _ _ _ _ H).
  destruct (k a s'); reflexivity.
Qed.

(** C5, the active copy.  The active handler has no bound on the controlee
    count: whatever the count, and so for a count above the maximum, the
    managed arrays are allocated as soon as the environment and the
    notification are there. *)
Theorem active_multicast_excess_not_rejected
    {defs : UciDefs} (this : Active.UwbEventManager) (e : JNIEnv)
    (ntf : Active.tUWA_SESSION_UPDATE_MULTICAST_LIST_NTF) (s : jstate) :
  ScopedJniEnv (Active.mVm this) = Some e ->
  Active.mc_no_of_controlees ntf > MAX_NUM_CONTROLLEES ->
  exists rest,
    events_of
      (Active.onMulticastListUpdateNotificationReceived this (Some ntf) s)
    = ([ EvLog LvlI Active.fn_multicast "enter;";
         EvNew (JLongArray
                  (repeat 0 (Z.to_nat (Active.mc_no_of_controlees ntf))));
         EvNew (JIntArray
                  (repeat 0 (Z.to_nat (Active.mc_no_of_controlees ntf)))) ]
       ++ rest)%list.
Proof.
  intros Henv _.
  unfold Active.onMulticastListUpdateNotificationReceived.
  rewrite Henv. unfold Active.multicast_marshal_and_deliver.
  erewrite events_of_bind_Done by reflexivity.
  erewrite events_of_bind_Done by reflexivity.
  erewrite events_of_bind_Done by reflexivity.
  eexists. cbn. reflexivity.
Qed.

Lemma active_multicast_excess_not_rejected_witness :
  ScopedJniEnv (Active.mVm (active_loaded (MkVm (Some quiet_env))))
  = Some quiet_env /\
  Active.mc_no_of_controlees sample_multicast_excess_active
  > @MAX_NUM_CONTROLLEES sample_defs /\
  exists rest,
    events_of
      (Active.onMulticastListUpdateNotificationReceived
         (active_loaded (MkVm (Some quiet_env)))
         (Some sample_multicast_excess_active) (JState false))
    = ([ EvLog LvlI Active.fn_multicast "enter;";
         EvNew (JLongArray (repeat 0 (Z.to_nat 9)));
         EvNew (JIntArray (repeat 0 (Z.to_nat 9))) ] ++ rest)%list.
Proof.
  split; [reflexivity | ]. split; [reflexivity | ].
  apply (@active_multicast_excess_not_rejected sample_defs
           (active_loaded (MkVm (Some quiet_env))) quiet_env
           sample_multicast_excess_active (JState false));
    reflexivity.
Defined.

(** The two runs of the active handler on nine controlees: with native
    lists of eight entries the copy loop reads past their end after the
    arrays were allocated; with room for nine the update object is built
    and delivered. *)
Example active_multicast_excess_runs :
  Active.onMulticastListUpdateNotificationReceived
    (active_loaded (MkVm (Some quiet_env)))
    (Some sample_multicast_excess_active) (JState false)
  = Crash [ EvLog LvlI Active.fn_multicast "enter;";
            EvNew (JLongArray [0; 0; 0; 0; 0; 0; 0; 0; 0]);
            EvNew (JIntArray [0; 0; 0; 0; 0; 0; 0; 0; 0]) ]
          OutOfBoundsRead /\
  let obj :=
    JObject (Some "com/android/uwb/data/UwbMulticastListUpdateStatus")
      (MethodID "<init>" "(JII[J[I)V")
      [ JLong 0x1234; JInt 0; JInt 9;
        JLongArray [1; 2; 3; 4; 5; 6; 7; 8; 9];
        JIntArray [0; 0; 0; 0; 0; 0; 0; 0; 0] ] in
  Active.onMulticastListUpdateNotificationReceived
    (active_loaded (MkVm (Some quiet_env)))
    (Some sample_multicast_excess_roomy_active) (JState false)
  = Done [ EvLog LvlI Active.fn_multicast "enter;";
           EvNew (JLongArray [0; 0; 0; 0; 0; 0; 0; 0; 0]);
           EvNew (JIntArray [0; 0; 0; 0; 0; 0; 0; 0; 0]);
           EvNew obj;
           EvCall service_object
             (MethodID "onMulticastListUpdateNotificationReceived"
                "(Lcom/android/uwb/data/UwbMulticastListUpdateStatus;)V")
             [obj] false;
           EvLog LvlI Active.fn_multicast "exit" ]
         tt (JState false).
Proof. split; vm_compute; reflexivity. Qed.

(* ===================================================================== *)
(** * The unavailable environment *)

(** Every handler of the superseded copy but [onVendorDeviceInfo], and
    every handler of the active copy, tests the scoped environment first:
    without it only log lines are produced, among them the error line. *)
Lemma unused_env_unavailable_skipped {defs : UciDefs} this n s :
  ScopedJniEnv (Unused.mVm this) = None ->
  (forall data len, n <> Unused.VendorDeviceInfo data len) ->
  exists evs fn,
    Unused.handle this n s = Done evs tt s /\
    forallb is_log evs = true /\
    In (EvLog LvlE fn "jni env is null") evs.
Proof.
  intros Henv Hn.
  destruct n; cbn [Unused.handle];
    [ unfold Unused.onRangeDataNotificationReceived
    | unfold Unused.onRawUciNotificationReceived
    | unfold Unused.onSessionStatusNotificationReceived
    | unfold Unused.onDeviceStateNotificationReceived
    | unfold Unused.onCoreGenericErrorNotificationReceived
    | unfold Unused.onMulticastListUpdateNotificationReceived
    | unfold Unused.onBlinkDataTxNotificationReceived
    | unfold Unused.onVendorUciNotificationReceived
    | exfalso; eapply Hn; reflexivity ];
    rewrite Henv; do 2 eexists;
    (split; [reflexivity | split; [reflexivity | cbn; tauto] ]).
Qed.

Lemma active_env_unavailable_skipped {defs : UciDefs} this n s :
  ScopedJniEnv (Active.mVm this) = None ->
  exists evs fn,
    Active.handle this n s = Done evs tt s /\
    forallb is_log evs = true /\
    In (EvLog LvlE fn "jni env is null") evs.
Proof.
  intros Henv.
  destruct n; cbn [Active.handle];
    [ unfold Active.onRangeDataNotificationReceived
    | unfold Active.onRawUciNotificationReceived
    | unfold Active.onSessionStatusNotificationReceived
    | unfold Active.onDeviceStateNotificationReceived
    | unfold Active.onCoreGenericErrorNotificationReceived
    | unfold Active.onMulticastListUpdateNotificationReceived
    | unfold Active.onBlinkDataTxNotificationReceived ];
    rewrite Henv; do 2 eexists;
    (split; [reflexivity | split; [reflexivity | cbn; tauto] ]).
Qed.

(** C6, [onVendorDeviceInfo].  With a non-null payload of positive length
    and no environment for the calling thread, the handler does not log
    and return: its first call goes through the null environment. *)
Theorem vendor_device_info_null_env_dereferenced
    (this : Unused.UwbEventManager) (payload : list Z) (length : Z)
    (s : jstate) :
  ScopedJniEnv (Unused.mVm this) = None ->
  0 < length ->
  Unused.onVendorDeviceInfo this (Some payload) length s
  = Crash [] NullEnvDereference.
Proof.
  intros Henv Hlen. unfold Unused.onVendorDeviceInfo.
  destruct (Z.leb_spec length 0); [lia | ].
  rewrite Henv. reflexivity.
Qed.

Lemma vendor_device_info_null_env_dereferenced_witness :
  ScopedJniEnv (Unused.mVm (unused_loaded (MkVm None))) = None /\
  0 < 1 /\
  Unused.onVendorDeviceInfo (unused_loaded (MkVm None)) (Some [0x2A]) 1
    (JState false)
  = Crash [] NullEnvDereference.
Proof.
  split; [reflexivity | ]. split; [lia | ].
  apply (vendor_device_info_null_env_dereferenced
           (unused_loaded (MkVm None)) [0x2A] 1 (JState false));
    [reflexivity | lia].
Defined.

(* ===================================================================== *)
(** * Silent computations *)

Lemma events_of_bind {A B} (c : jni A) (k : A -> jni B) s :
  events_of (bind c k s)
  = match c s with
    | Done evs a s' => (evs ++ events_of (k a s'))%list
    | Crash evs _ => evs
    end.
Proof.
  unfold bind. destruct (c s) as [evs a s' | evs f]; [ | reflexivity].
  destruct (k a s'); reflexivity.
Qed.

Lemma silent_bind {A B} (c : jni A) (k : A -> jni B) :
  silent c -> (forall a, silent (k a)) -> silent (bind c k).
Proof.
  intros Hc Hk s. rewrite events_of_bind. specialize (Hc s).
  destruct (c s) as [evs a s' | evs f]; cbn in Hc; [ | assumption].
  rewrite existsb_app, Hc. apply Hk.
Qed.

Lemma silent_ret {A} (a : A) : silent (ret a).
Proof. intros s. reflexivity. Qed.

Lemma silent_crash {A} f : silent (@crash A f).
Proof. intros s. reflexivity. Qed.

Lemma silent_JNI_TRACE_E fn msg : silent (JNI_TRACE_E fn msg).
Proof. intros s. reflexivity. Qed.

Lemma silent_JNI_TRACE_I fn msg : silent (JNI_TRACE_I fn msg).
Proof. intros s. reflexivity. Qed.

Lemma silent_set_pending b : silent (set_pending b).
Proof. intros s. reflexivity. Qed.

Lemma silent_alloc env v : silent (alloc env v).
Proof. intros s. destruct env; reflexivity. Qed.

Lemma silent_NewByteArray env n : silent (NewByteArray env n).
Proof. apply silent_alloc. Qed.
Lemma silent_NewIntArray env n : silent (NewIntArray env n).
Proof. apply silent_alloc. Qed.
Lemma silent_NewLongArray env n : silent (NewLongArray env n).
Proof. apply silent_alloc. Qed.
Lemma silent_NewObjectArray env n cls init :
  silent (NewObjectArray env n cls init).
Proof. apply silent_alloc. Qed.
Lemma silent_NewObject env cls ctor args : silent (NewObject env cls ctor args).
Proof. apply silent_alloc. Qed.

Lemma silent_GetMethodID env cls name sig :
  silent (GetMethodID env cls name sig).
Proof. intros s. destruct env; reflexivity. Qed.

Lemma silent_set_region env conv old start len buf :
  silent (set_region env conv old start len buf).
Proof.
  intros s. unfold set_region, with_env. destruct env as [e | ]; [ | reflexivity].
  destruct (Z.of_nat (length buf) <? len); [reflexivity | ].
  destruct ((start <? 0) || (len <? 0) || (Z.of_nat (length old) <? start + len));
    reflexivity.
Qed.

Lemma silent_SetByteArrayRegion env arr start len buf :
  silent (SetByteArrayRegion env arr start len buf).
Proof.
  unfold SetByteArrayRegion.
  destruct arr;
    try (intros s; destruct env; reflexivity).
  apply silent_bind; [apply silent_set_region | intros; apply silent_ret].
Qed.

Lemma silent_SetIntArrayRegion env arr start len buf :
  silent (SetIntArrayRegion env arr start len buf).
Proof.
  unfold SetIntArrayRegion.
  destruct arr;
    try (intros s; destruct env; reflexivity).
  apply silent_bind; [apply silent_set_region | intros; apply silent_ret].
Qed.

Lemma silent_SetLongArrayRegion env arr start len buf :
  silent (SetLongArrayRegion env arr start len buf).
Proof.
  unfold SetLongArrayRegion.
  destruct arr;
    try (intros s; destruct env; reflexivity).
  apply silent_bind; [apply silent_set_region | intros; apply silent_ret].
Qed.

Lemma silent_SetObjectArrayElement env arr i v :
  silent (SetObjectArrayElement env arr i v).
Proof.
  intros s. unfold SetObjectArrayElement, with_env.
  destruct env; [ | reflexivity].
  destruct arr; try reflexivity.
  destruct ((i <? 0) || (Z.of_nat (length elems) <=? i)); reflexivity.
Qed.

Lemma silent_read_at {A} (a : list A) i : silent (read_at a i).
Proof.
  intros s. unfold read_at. destruct (i <? 0); [reflexivity | ].
  destruct (nth_error a (Z.to_nat i)); reflexivity.
Qed.

Lemma silent_for_range {S} (body : Z -> S -> jni S) :
  (forall i acc, silent (body i acc)) ->
  forall count i acc, silent (for_range i count body acc).
Proof.
  intros Hb. induction count as [ | count IH]; intros i acc; cbn [for_range].
  - apply silent_ret.
  - apply silent_bind; [apply Hb | intros; apply IH].
Qed.

Lemma silent_for_int {S} n (body : Z -> S -> jni S) acc :
  (forall i acc, silent (body i acc)) -> silent (for_int n body acc).
Proof. intros Hb. apply silent_for_range. assumption. Qed.

Create HintDb silent.
#[local] Hint Resolve silent_ret silent_crash silent_JNI_TRACE_E
  silent_JNI_TRACE_I silent_set_pending silent_alloc silent_NewByteArray
  silent_NewIntArray silent_NewLongArray silent_NewObjectArray
  silent_NewObject silent_GetMethodID silent_SetByteArrayRegion
  silent_SetIntArrayRegion silent_SetLongArrayRegion
  silent_SetObjectArrayElement silent_read_at : silent.

(** Decomposes a computation along its binds, loops and branches. *)
Ltac silent_tac :=
  repeat first
    [ progress auto with silent
    | apply silent_bind; [ | intros ? ]
    | apply silent_for_int; intros ? ?
    | match goal with
      | |- silent (if ?b then _ else _) => destruct b
      | |- silent (let '(_, _) := ?p in _) => destruct p
      | |- silent (match ?x with _ => _ end) => destruct x
      end ].

Section SilentMarshalling.
Context {defs : UciDefs}.

Lemma silent_unused_twr_measure this env mode m :
  silent (Unused.twr_measure this env mode m).
Proof. unfold Unused.twr_measure. silent_tac. Qed.

Lemma silent_unused_dltdoa_measure this env mode m :
  silent (Unused.dltdoa_measure this env mode m).
Proof.
  unfold Unused.dltdoa_measure, Unused.dltdoa_mac_address,
    Unused.dltdoa_tx_timestamp, Unused.dltdoa_rx_timestamp,
    Unused.dltdoa_anchor_location, Unused.dltdoa_active_ranging_round.
  silent_tac.
Qed.

Lemma silent_unused_owr_aoa_measure this env mode m :
  silent (Unused.owr_aoa_measure this env mode m).
Proof. unfold Unused.owr_aoa_measure. silent_tac. Qed.

Lemma silent_unused_vendor_specific_data env ntf :
  silent (Unused.vendor_specific_data env ntf).
Proof. unfold Unused.vendor_specific_data. silent_tac. Qed.

Lemma silent_unused_range_data_object this env ntf v :
  silent (Unused.range_data_object this env ntf v).
Proof.
  pose proof silent_unused_twr_measure.
  pose proof silent_unused_dltdoa_measure.
  pose proof silent_unused_owr_aoa_measure.
  unfold Unused.range_data_object, Unused.range_data_twoway,
    Unused.range_data_dltdoa, Unused.range_data_owr_aoa.
  silent_tac.
Qed.

Lemma silent_unused_multicast_fill_arrays env ntf a b c :
  silent (Unused.multicast_fill_arrays env ntf a b c).
Proof. unfold Unused.multicast_fill_arrays. silent_tac. Qed.

Lemma silent_active_twr_measure this env mode m :
  silent (Active.twr_measure this env mode m).
Proof. unfold Active.twr_measure. silent_tac. Qed.

Lemma silent_active_tdoa_measure this env mode m :
  silent (Active.tdoa_measure this env mode m).
Proof. unfold Active.tdoa_measure, Active.optional_payload. silent_tac. Qed.

Lemma silent_active_range_data_object this env ntf :
  silent (Active.range_data_object this env ntf).
Proof.
  pose proof silent_active_twr_measure.
  pose proof silent_active_tdoa_measure.
  unfold Active.range_data_object, Active.range_data_twoway,
    Active.range_data_tdoa.
  silent_tac.
Qed.

Lemma silent_active_multicast_fill_arrays env ntf a b :
  silent (Active.multicast_fill_arrays env ntf a b).
Proof. unfold Active.multicast_fill_arrays. silent_tac. Qed.

End SilentMarshalling.

(* ===================================================================== *)
(** * Faults of the listener *)

Lemma raising_call_is_call evs :
  existsb is_call evs = false -> existsb is_raising_call evs = false.
Proof.
  induction evs as [ | ev evs IH]; [reflexivity | ].
  cbn. intros H. apply orb_false_elim in H. destruct H as [Hev Hevs].
  rewrite (IH Hevs). destruct ev as [ | | ? ? ? []| | ]; try reflexivity;
    discriminate.
Qed.

Lemma faults_handled_after_silent pre evs :
  existsb is_call pre = false ->
  faults_handled (pre ++ evs) = faults_handled evs.
Proof.
  induction pre as [ | ev pre IH]; [reflexivity | ].
  cbn [existsb app]. intros H. apply orb_false_elim in H.
  destruct H as [Hev Hpre]. specialize (IH Hpre).
  destruct ev; try discriminate; cbn [faults_handled]; assumption.
Qed.

Lemma contains_faults_silent (c : jni unit) : silent c -> contains_faults c.
Proof.
  intros Hc s Hr. specialize (Hc s). apply raising_call_is_call in Hc.
  congruence.
Qed.

Lemma contains_faults_bind {A} (c : jni A) (k : A -> jni unit) :
  silent c -> (forall a, contains_faults (k a)) -> contains_faults (bind c k).
Proof.
  intros Hc Hk s. specialize (Hc s). unfold bind.
  destruct (c s) as [evs a s' | evs f]; cbn in Hc.
  - specialize (Hk a s').
    destruct (k a s') as [evs' b s'' | evs' f]; cbn in *;
      rewrite existsb_app, (raising_call_is_call _ Hc); cbn;
      intros Hr; specialize (Hk Hr);
      rewrite faults_handled_after_silent by assumption; assumption.
  - cbn. intros Hr. rewrite (raising_call_is_call _ Hc) in Hr. discriminate.
Qed.

(** The delivery of every handler but the ranging one, followed by its
    exit line. *)
Lemma contains_faults_delivery e obj mid args fn msg fn' msg' :
  contains_faults
    ((CallVoidMethod (Some e) obj mid args ;; clear_exception (Some e) fn msg) ;;
     JNI_TRACE_I fn' msg').
Proof.
  intros s.
  rewrite (bind_Done _ _ _ _ _ _ (call_and_clear_run e obj mid args fn msg s)).
  destruct s as [[ | ]], (listener_throws e mid args); cbn;
    intros Hr; try discriminate Hr; repeat split.
Qed.

(** The delivery of the ranging handlers, which also describes the
    exception. *)
Lemma call_describe_clear_run e obj mid args fn msg s :
  (CallVoidMethod (Some e) obj mid args ;;
   exc <- ExceptionCheck (Some e) ;;
   if exc then
     ExceptionDescribe (Some e) ;;
     ExceptionClear (Some e) ;;
     JNI_TRACE_E fn msg
   else ret tt) s
  = Done (EvCall obj mid args (listener_throws e mid args)
          :: if exception_pending s || listener_throws e mid args
             then [EvExceptionDescribe; EvExceptionClear; EvLog LvlE fn msg]
             else [])
         tt (JState false).
Proof.
  unfold bind, CallVoidMethod, ExceptionCheck, with_env. cbn.
  destruct s as [p]. cbn.
  destruct p, (listener_throws e mid args); reflexivity.
Qed.

Lemma contains_faults_range_delivery e obj mid args fn msg fn' msg' :
  contains_faults
    ((CallVoidMethod (Some e) obj mid args ;;
      exc <- ExceptionCheck (Some e) ;;
      if exc then
        ExceptionDescribe (Some e) ;;
        ExceptionClear (Some e) ;;
        JNI_TRACE_E fn msg
      else ret tt) ;;
     JNI_TRACE_I fn' msg').
Proof.
  intros s.
  rewrite (bind_Done _ _ _ _ _ _
             (call_describe_clear_run e obj mid args fn msg s)).
  destruct s as [[ | ]], (listener_throws e mid args); cbn;
    intros Hr; try discriminate Hr; repeat split.
Qed.

Lemma silent_clear_exception env fn msg : silent (clear_exception env fn msg).
Proof.
  intros s. unfold clear_exception, bind, ExceptionCheck, ExceptionClear,
    with_env.
  destruct env; [ | reflexivity]. destruct (exception_pending s); reflexivity.
Qed.

Lemma silent_CallVoidMethod_null obj mid args :
  silent (CallVoidMethod None obj mid args).
Proof. intros s. reflexivity. Qed.

Ltac contains_tac :=
  repeat first
    [ apply contains_faults_delivery
    | apply contains_faults_range_delivery
    | apply contains_faults_silent; solve [silent_tac]
    | apply contains_faults_bind; [ solve [silent_tac] | intros ? ]
    | match goal with
      | |- contains_faults (if ?b then _ else _) => destruct b
      | |- contains_faults (let '(_, _) := ?p in _) => destruct p
      | |- contains_faults (match ?x with _ => _ end) => destruct x eqn:?
      | |- contains_faults (bind (if ?b then _ else _) _) => destruct b
      | |- contains_faults (bind (match ?x with _ => _ end) _) => destruct x
      end ].

Section Containment.
Context {defs : UciDefs}.

Lemma unused_handlers_contain_faults this n :
  contains_faults (Unused.handle this n).
Proof.
  pose proof silent_unused_vendor_specific_data.
  pose proof silent_unused_range_data_object.
  pose proof silent_unused_multicast_fill_arrays.
  destruct n; cbn [Unused.handle].
  - unfold Unused.onRangeDataNotificationReceived, Unused.deliver_range_data.
    contains_tac.
  - unfold Unused.onRawUciNotificationReceived. contains_tac.
  - unfold Unused.onSessionStatusNotificationReceived. contains_tac.
  - unfold Unused.onDeviceStateNotificationReceived. contains_tac.
  - unfold Unused.onCoreGenericErrorNotificationReceived. contains_tac.
  - unfold Unused.onMulticastListUpdateNotificationReceived,
      Unused.multicast_marshal_and_deliver.
    contains_tac.
  - unfold Unused.onBlinkDataTxNotificationReceived. contains_tac.
  - unfold Unused.onVendorUciNotificationReceived. contains_tac.
  - pose proof silent_clear_exception.
    pose proof silent_CallVoidMethod_null.
    unfold Unused.onVendorDeviceInfo.
    destruct (ScopedJniEnv (Unused.mVm this)); contains_tac.
Qed.

End Containment.

Section ContainmentActive.
Context {defs : UciDefs}.

Lemma active_handlers_contain_faults this n :
  contains_faults (Active.handle this n).
Proof.
  pose proof silent_active_range_data_object.
  pose proof silent_active_multicast_fill_arrays.
  destruct n; cbn [Active.handle].
  - unfold Active.onRangeDataNotificationReceived, Active.deliver_range_data.
    contains_tac.
  - unfold Active.onRawUciNotificationReceived. contains_tac.
  - unfold Active.onSessionStatusNotificationReceived. contains_tac.
  - unfold Active.onDeviceStateNotificationReceived. contains_tac.
  - unfold Active.onCoreGenericErrorNotificationReceived. contains_tac.
  - unfold Active.onMulticastListUpdateNotificationReceived,
      Active.multicast_marshal_and_deliver.
    contains_tac.
  - unfold Active.onBlinkDataTxNotificationReceived. contains_tac.
Qed.

End ContainmentActive.

(** A raising notification does not abort the next one: the handler that
    runs after it starts from a state with no exception pending. *)
Lemma next_notification_runs (h1 h2 : jni unit) s :
  contains_faults h1 ->
  existsb is_raising_call (events_of (h1 s)) = true ->
  exists evs1,
    h1 s = Done evs1 tt (JState false) /\
    (h1 ;; h2) s = match h2 (JState false) with
                   | Done evs2 b s2 => Done (evs1 ++ evs2) b s2
                   | Crash evs2 f => Crash (evs1 ++ evs2) f
                   end.
Proof.
  intros Hc Hr. destruct (Hc s Hr) as (Hn & _ & Hf).
  destruct (h1 s) as [evs1 [] s' | ] eqn:E; [ | discriminate].
  cbn in Hf. injection Hf as ->.
  exists evs1. split; [reflexivity | ].
  rewrite (bind_Done _ _ _ _ _ _ E). reflexivity.
Qed.

(** C7.  For every entry point of both copies and every state of the
    runtime: if the listener invocation raised, the handler returns
    normally, the raising invocation is followed in the trace by the
    clearing of the exception (after its description, in the ranging
    handlers) and by an error line, and no exception is left pending for
    the notifications that follow. *)
Theorem listener_faults_contained
    {defs : UciDefs}
    (this_u : Unused.UwbEventManager) (n_u : Unused.notification)
    (this_a : Active.UwbEventManager) (n_a : Active.notification) :
  contains_faults (Unused.handle this_u n_u) /\
  contains_faults (Active.handle this_a n_a).
Proof.
  split.
  - apply unused_handlers_contain_faults.
  - apply active_handlers_contain_faults.
Qed.

Lemma listener_faults_contained_witness :
  let run_u :=
    @Unused.handle sample_defs (unused_loaded (MkVm (Some raising_env)))
      (Unused.RangeData sample_dltdoa_ntf) (JState false) in
  let run_a :=
    @Active.handle sample_defs (active_loaded (MkVm (Some raising_env)))
      (Active.SessionStatus 0x1234 2 0) (JState false) in
  (existsb is_raising_call (events_of run_u) = true /\
   returns_normally run_u = true /\
   faults_handled (events_of run_u) = true /\
   final_state run_u = Some (JState false)) /\
  (existsb is_raising_call (events_of run_a) = true /\
   returns_normally run_a = true /\
   faults_handled (events_of run_a) = true /\
   final_state run_a = Some (JState false)).
Proof.
  pose proof (@listener_faults_contained sample_defs
                (unused_loaded (MkVm (Some raising_env)))
                (Unused.RangeData sample_dltdoa_ntf)
                (active_loaded (MkVm (Some raising_env)))
                (Active.SessionStatus 0x1234 2 0)) as [Hu Ha].
  split.
  - split; [reflexivity | ]. apply Hu. reflexivity.
  - split; [reflexivity | ]. apply Ha. reflexivity.
Defined.

(* ===================================================================== *)
(** * The TDoA branch of the active copy *)

Section ActiveTdoa.
Context {defs : UciDefs}.
Variable this : Active.UwbEventManager.
Variable e : JNIEnv.

Lemma tdoa_buffers_ok_inv m :
  Active.tdoa_buffers_ok m = true ->
  8 <= Z.of_nat (length (Active.tdoa_mac_addr m)) /\
  12 <= Z.of_nat (length (Active.tdoa_rfu m)) /\
  Active.tdoa_device_info_size m
  <= Z.of_nat (length (Active.tdoa_device_info m)) /\
  Active.tdoa_blink_payload_size m
  <= Z.of_nat (length (Active.tdoa_blink_payload_data m)).
Proof.
  unfold Active.tdoa_buffers_ok. rewrite !andb_true_iff, !Z.leb_le. tauto.
Qed.

Lemma optional_payload_run size buf s :
  size <= Z.of_nat (length buf) ->
  exists evs v, Active.optional_payload (Some e) size buf s = Done evs v s.
Proof.
  intros H. unfold Active.optional_payload.
  destruct (Z.gtb_spec size 0); [ | do 2 eexists; reflexivity].
  unfold bind. rewrite NewByteArray_run. cbn [is_null negb].
  rewrite SetByteArrayRegion_run by (rewrite ?repeat_length; lia).
  do 2 eexists. reflexivity.
Qed.

Lemma tdoa_measure_run mode m s :
  Active.tdoa_buffers_ok m = true ->
  exists evs obj, Active.tdoa_measure this (Some e) mode m s = Done evs obj s.
Proof.
  intros Hok. apply tdoa_buffers_ok_inv in Hok.
  destruct Hok as (Hm & Hr & Hd & Hb).
  destruct (optional_payload_run _ _ s Hd) as (ed & vd & Ed).
  destruct (optional_payload_run _ _ s Hb) as (eb & vb & Eb).
  unfold Active.tdoa_measure.
  match goal with
  | |- context [bind ?c _ s] =>
      assert (Hpair : exists evs p, c s = Done evs p s)
  end.
  { destruct (Z.eqb_spec mode SHORT_MAC_ADDRESS) as [Hs | Hs];
      unfold bind, ret; run_steps; do 2 eexists; reflexivity. }
  destruct Hpair as (ep & [mac rfu] & Ep).
  rewrite (bind_Done _ _ _ _ _ _ Ep). cbv beta iota.
  rewrite (bind_Done _ _ _ _ _ _ Ed).
  rewrite (bind_Done _ _ _ _ _ _ Eb).
  cbn. do 2 eexists. reflexivity.
Qed.

Lemma list_set_middle {A} (l1 l2 : list A) (x y : A) :
  list_set (l1 ++ x :: l2) (length l1) y = (l1 ++ y :: l2)%list.
Proof. induction l1 as [ | h l1 IH]; cbn; [ | rewrite IH]; reflexivity. Qed.

Lemma firstn_skipn_nth {A} (l : list A) k count m :
  nth_error l k = Some m ->
  firstn (S count) (skipn k l) = m :: firstn count (skipn (S k) l).
Proof.
  revert l. induction k as [ | k IH]; intros [ | h l] H; try discriminate.
  - injection H as <-. reflexivity.
  - cbn [skipn]. apply IH. assumption.
Qed.

(** The copy loop of the TDoA branch: starting at [k] with [count]
    records to go, every remaining slot receives its record. *)
Lemma tdoa_loop_run cls mode records s :
  forallb Active.tdoa_buffers_ok records = true ->
  forall count k objs,
    (k + count <= length records)%nat ->
    length objs = k ->
    exists evs objs',
      for_range (Z.of_nat k) count
        (fun i arr =>
           m <- read_at records i ;;
           o <- Active.tdoa_measure this (Some e) mode m ;;
           SetObjectArrayElement (Some e) arr i o)
        (JObjectArray cls (objs ++ repeat JNull count)) s
      = Done evs (JObjectArray cls (objs ++ objs')) s /\
      Forall2 (fun m o =>
                 exists evs',
                   Active.tdoa_measure this (Some e) mode m s = Done evs' o s)
        (firstn count (skipn k records)) objs'.
Proof.
  intros Hall. induction count as [ | count IH]; intros k objs Hk Hlen.
  - exists [], []. split; [reflexivity | constructor].
  - destruct (nth_error records k) as [m | ] eqn:Hm;
      [ | apply nth_error_None in Hm; lia].
    assert (Hok : Active.tdoa_buffers_ok m = true).
    { rewrite forallb_forall in Hall. apply Hall.
      eapply nth_error_In; eassumption. }
    destruct (tdoa_measure_run mode m s Hok) as (ev & o & Eo).
    destruct (IH (S k) (objs ++ [o])%list ltac:(lia)
                ltac:(rewrite length_app; cbn; lia))
      as (evs & objs' & Eloop & Hrel).
    exists (ev ++ evs)%list, (o :: objs'). split.
    + cbn [for_range repeat].
      assert (Hbody :
        (m <- read_at records (Z.of_nat k) ;;
         o <- Active.tdoa_measure this (Some e) mode m ;;
         SetObjectArrayElement (Some e)
           (JObjectArray cls (objs ++ JNull :: repeat JNull count))
           (Z.of_nat k) o) s
        = Done ev (JObjectArray cls ((objs ++ [o]) ++ repeat JNull count)) s).
      { unfold bind, read_at.
        destruct (Z.ltb_spec (Z.of_nat k) 0); [lia | ].
        rewrite Nat2Z.id, Hm. cbn [ret]. rewrite Eo.
        unfold SetObjectArrayElement, with_env.
        destruct (Z.ltb_spec (Z.of_nat k) 0); [lia | ].
        destruct (Z.leb_spec
                    (Z.of_nat (length (objs ++ JNull :: repeat JNull count)))
                    (Z.of_nat k)) as [Hge | _].
        { rewrite length_app in Hge. cbn in Hge. lia. }
        cbn [orb ret]. rewrite Nat2Z.id, <- Hlen, list_set_middle.
        rewrite <- app_assoc, !app_nil_r. reflexivity. }
      rewrite (bind_Done _ _ _ _ _ _ Hbody).
      replace (Z.of_nat k + 1) with (Z.of_nat (S k)) by lia.
      rewrite Eloop, <- app_assoc. reflexivity.
    + rewrite (firstn_skipn_nth _ _ _ _ Hm). constructor; [ | assumption].
      exists ev. assumption.
Qed.

(** C8.  In the active copy, a ranging notification whose tag is not the
    two-way one, whatever else it is, takes the TDoA branch; with the
    environment available, the listener method resolved and a well-formed
    TDoA view, the handler returns normally having invoked the listener
    with a ranging-data object built by the TDoA constructor over an
    array of [no_of_measurements] TDoA objects, the [i]-th being the
    marshalling of the [i]-th record of the TDoA view. *)
Theorem unrecognized_tag_marshalled_as_tdoa
    (ntf : Active.tUWA_RANGE_DATA_NTF) (mid : jmethodID) (s : jstate) :
  ScopedJniEnv (Active.mVm this) = Some e ->
  Active.mOnRangeDataNotificationReceived this = Some mid ->
  Active.ranging_measure_type ntf <> MEASUREMENT_TYPE_TWOWAY ->
  Active.tdoa_view_ok ntf = true ->
  Active.range_data_object this (Some e) ntf
  = Active.range_data_tdoa this (Some e) ntf /\
  exists evs elems,
    let obj :=
      JObject (Active.mRangeDataClass this)
        (MethodID "<init>"
           "(JJIJIII[Lcom/android/uwb/data/UwbTDoAMeasurement;)V")
        (Active.range_data_args ntf
           (JObjectArray (Active.mRangeTdoaMeasuresClass this) elems)) in
    Active.onRangeDataNotificationReceived this ntf s
    = Done evs tt (JState false) /\
    In (EvCall (Active.mObject this) mid [obj] (listener_throws e mid [obj]))
       evs /\
    Z.of_nat (length elems) = Active.no_of_measurements ntf /\
    Forall2 (fun m o =>
               exists evs',
                 Active.tdoa_measure this (Some e)
                   (Active.mac_addr_mode_indicator ntf) m s
                 = Done evs' o s)
      (firstn (Z.to_nat (Active.no_of_measurements ntf))
         (Active.tdoa_range_measr (Active.ranging_measures ntf)))
      elems.
Proof.
  intros Henv Hmid Htag Hok.
  assert (Hbranch : Active.range_data_object this (Some e) ntf
                    = Active.range_data_tdoa this (Some e) ntf).
  { unfold Active.range_data_object.
    destruct (Z.eqb_spec (Active.ranging_measure_type ntf)
                MEASUREMENT_TYPE_TWOWAY); [contradiction | reflexivity]. }
  split; [exact Hbranch | ].
  unfold Active.tdoa_view_ok in Hok. rewrite !andb_true_iff, !Z.leb_le in Hok.
  destruct Hok as [[Hn0 Hn] Hall].
  set (n := Z.to_nat (Active.no_of_measurements ntf)).
  destruct (tdoa_loop_run (Active.mRangeTdoaMeasuresClass this)
              (Active.mac_addr_mode_indicator ntf)
              (Active.tdoa_range_measr (Active.ranging_measures ntf)) s Hall
              n 0%nat [] ltac:(lia) eq_refl)
    as (evl & elems & Eloop & Hrel).
  cbn [app skipn] in Eloop, Hrel.
  assert (Hlen : length elems = n).
  { apply Forall2_length in Hrel. rewrite <- Hrel, length_firstn. lia. }
  exists
    ([EvLog LvlI Active.fn_range
        "ranging_measure_type = MEASUREMENT_TYPE_ONEWAY";
      EvNew (JObjectArray (Active.mRangeTdoaMeasuresClass this)
               (repeat JNull n))] ++ evl ++
     [EvNew (JObject (Active.mRangeDataClass this)
               (MethodID "<init>"
                  "(JJIJIII[Lcom/android/uwb/data/UwbTDoAMeasurement;)V")
               (Active.range_data_args ntf
                  (JObjectArray (Active.mRangeTdoaMeasuresClass this) elems)))]
     ++ EvCall (Active.mObject this) mid
          [JObject (Active.mRangeDataClass this)
             (MethodID "<init>"
                "(JJIJIII[Lcom/android/uwb/data/UwbTDoAMeasurement;)V")
             (Active.range_data_args ntf
                (JObjectArray (Active.mRangeTdoaMeasuresClass this) elems))]
          (listener_throws e mid
             [JObject (Active.mRangeDataClass this)
                (MethodID "<init>"
                   "(JJIJIII[Lcom/android/uwb/data/UwbTDoAMeasurement;)V")
                (Active.range_data_args ntf
                   (JObjectArray (Active.mRangeTdoaMeasuresClass this) elems))])
        :: (if exception_pending s
               || listener_throws e mid
                    [JObject (Active.mRangeDataClass this)
                       (MethodID "<init>"
                          "(JJIJIII[Lcom/android/uwb/data/UwbTDoAMeasurement;)V")
                       (Active.range_data_args ntf
                          (JObjectArray (Active.mRangeTdoaMeasuresClass this)
                             elems))]
            then [EvExceptionDescribe; EvExceptionClear;
                  EvLog LvlE Active.fn_range "fail to send range data"]
            else [])
        ++ [EvLog LvlI Active.fn_range "exit"])%list, elems.
  cbv zeta. split; [ | split; [ | split] ].
  - unfold Active.onRangeDataNotificationReceived.
    rewrite Henv, Hbranch. unfold Active.range_data_tdoa, for_int.
    fold n. unfold Active.deliver_range_data. rewrite Hmid.
    unfold bind at 1. unfold bind at 1.
    cbn [JNI_TRACE_I emit]. unfold bind at 1. rewrite NewObjectArray_run.
    fold n. unfold bind at 1.
    change (Z.of_nat 0) with 0 in Eloop. rewrite Eloop.
    unfold bind at 1. rewrite GetMethodID_run, NewObject_run.
    unfold bind at 1. rewrite call_describe_clear_run.
    cbn [JNI_TRACE_I emit app]. rewrite <- !app_assoc. reflexivity.
  - apply in_or_app. right. apply in_or_app. right.
    apply in_or_app. right. left. reflexivity.
  - rewrite Hlen. unfold n. lia.
  - exact Hrel.
Qed.

End ActiveTdoa.

(* ===================================================================== *)
(** * The properties at concrete inputs *)

Lemma tx_timestamp_by_control_bits_witness :
  Unused.dltdoa_buffers_ok sample_dltdoa = true /\
  exists evs obj bs,
    @Unused.dltdoa_measure sample_defs (unused_loaded (MkVm (Some quiet_env)))
      (Some quiet_env) 0 sample_dltdoa (JState false)
    = Done evs obj (JState false) /\
    ctor_arg obj Unused.DL_ARG_TX_TIMESTAMP = Some (JByteArray bs) /\
    length bs = 8%nat.
Proof.
  split; [reflexivity | ].
  destruct (@tx_timestamp_by_control_bits sample_defs
              (unused_loaded (MkVm (Some quiet_env))) quiet_env 0
              sample_dltdoa (JState false) eq_refl)
    as (_ & (evs & obj & tx & Erun & Atx & _ & H2 & _) & _).
  destruct (H2 eq_refl) as (bs & -> & Hlen).
  exists evs, obj, bs. repeat split; assumption.
Defined.

Lemma anchor_location_by_control_bits_witness :
  Unused.dltdoa_buffers_ok sample_dltdoa = true /\
  exists evs obj bs,
    @Unused.dltdoa_measure sample_defs (unused_loaded (MkVm (Some quiet_env)))
      (Some quiet_env) 0 sample_dltdoa (JState false)
    = Done evs obj (JState false) /\
    ctor_arg obj Unused.DL_ARG_ANCHOR_LOCATION = Some (JByteArray bs) /\
    length bs = 10%nat.
Proof.
  split; [reflexivity | ].
  destruct (@anchor_location_by_control_bits sample_defs
              (unused_loaded (MkVm (Some quiet_env))) quiet_env 0
              sample_dltdoa (JState false) eq_refl)
    as (_ & evs & obj & al & Erun & Aal & _ & H1 & _).
  destruct (H1 eq_refl) as (bs & -> & Hlen).
  exists evs, obj, bs. repeat split; assumption.
Defined.

Lemma active_ranging_round_by_control_bits_witness :
  Unused.dltdoa_buffers_ok sample_dltdoa = true /\
  Unused.activeRangingRoundValue (Unused.dl_message_control sample_dltdoa) = 3 /\
  exists evs obj bs,
    @Unused.dltdoa_measure sample_defs (unused_loaded (MkVm (Some quiet_env)))
      (Some quiet_env) 0 sample_dltdoa (JState false)
    = Done evs obj (JState false) /\
    ctor_arg obj Unused.DL_ARG_ACTIVE_RANGING_ROUND = Some (JByteArray bs) /\
    Z.of_nat (length bs) = 3.
Proof.
  split; [reflexivity | ].
  destruct (@active_ranging_round_by_control_bits sample_defs
              (unused_loaded (MkVm (Some quiet_env))) quiet_env 0
              sample_dltdoa (JState false) eq_refl)
    as (Hval & _ & evs & obj & rr & Erun & Arr & _ & Hn).
  split; [exact Hval | ].
  destruct (Hn ltac:(discriminate)) as (bs & -> & Hlen).
  exists evs, obj, bs. repeat split; assumption.
Defined.

Lemma twoway_address_and_padding_complementary_witness :
  Unused.twr_buffers_ok sample_twr_unused = true /\
  Active.twr_buffers_ok sample_twr_active = true /\
  (exists evs obj,
      @Unused.twr_measure sample_defs (unused_loaded (MkVm (Some quiet_env)))
        (Some quiet_env) 0 sample_twr_unused (JState false)
      = Done evs obj (JState false) /\
      @complementary_lengths sample_defs 0 14 obj) /\
  (exists evs obj,
      @Active.twr_measure sample_defs (active_loaded (MkVm (Some quiet_env)))
        (Some quiet_env) 0 sample_twr_active (JState false)
      = Done evs obj (JState false) /\
      @complementary_lengths sample_defs 0 13 obj).
Proof.
  split; [reflexivity | ]. split; [reflexivity | ].
  apply (@twoway_address_and_padding_complementary sample_defs quiet_env 0
           (JState false) (unused_loaded (MkVm (Some quiet_env)))
           sample_twr_unused (active_loaded (MkVm (Some quiet_env)))
           sample_twr_active);
    reflexivity.
Defined.

Lemma unknown_measurement_type_not_delivered_witness :
  Unused.ranging_measure_type sample_untagged_unused
  <> @MEASUREMENT_TYPE_TWOWAY sample_defs /\
  Unused.ranging_measure_type sample_untagged_unused
  <> @MEASUREMENT_TYPE_DLTDOA sample_defs /\
  Unused.ranging_measure_type sample_untagged_unused
  <> @MEASUREMENT_TYPE_OWR_WITH_AOA sample_defs /\
  Unused.vs_len (Unused.vendor_specific_ntf sample_untagged_unused)
  <= Z.of_nat (length (Unused.vs_data
                         (Unused.vendor_specific_ntf sample_untagged_unused))) /\
  exists evs,
    @Unused.onRangeDataNotificationReceived sample_defs
      (unused_loaded (MkVm (Some quiet_env))) sample_untagged_unused
      (JState false)
    = Done evs tt (JState false) /\
    existsb is_call evs = false.
Proof.
  split; [discriminate | ]. split; [discriminate | ].
  split; [discriminate | ]. split; [cbn; lia | ].
  destruct (@unknown_measurement_type_not_delivered sample_defs
              (unused_loaded (MkVm (Some quiet_env))) sample_untagged_unused
              (JState false)
              ltac:(discriminate) ltac:(discriminate) ltac:(discriminate)
              ltac:(cbn; lia))
    as (_ & evs & Erun & Hcalls & _).
  exists evs. split; assumption.
Defined.

Lemma empty_multicast_update_delivered_witness :
  ScopedJniEnv (Unused.mVm (unused_loaded (MkVm (Some quiet_env))))
  = Some quiet_env /\
  ScopedJniEnv (Active.mVm (active_loaded (MkVm (Some quiet_env))))
  = Some quiet_env /\
  Unused.mc_no_of_controlees sample_multicast_empty_unused = 0 /\
  Active.mc_no_of_controlees sample_multicast_empty_active = 0 /\
  0 <= @MAX_NUM_CONTROLLEES sample_defs /\
  (exists evs s',
      @Unused.onMulticastListUpdateNotificationReceived sample_defs
        (unused_loaded (MkVm (Some quiet_env)))
        (Some sample_multicast_empty_unused) (JState false)
      = Done evs tt s' /\
      existsb is_call evs = true) /\
  (exists evs s',
      Active.onMulticastListUpdateNotificationReceived
        (active_loaded (MkVm (Some quiet_env)))
        (Some sample_multicast_empty_active) (JState false)
      = Done evs tt s' /\
      existsb is_call evs = true).
Proof.
  split; [reflexivity | ]. split; [reflexivity | ].
  split; [reflexivity | ]. split; [reflexivity | ]. split; [discriminate | ].
  destruct (@empty_multicast_update_delivered sample_defs quiet_env
              (JState false) (unused_loaded (MkVm (Some quiet_env)))
              sample_multicast_empty_unused
              (active_loaded (MkVm (Some quiet_env)))
              sample_multicast_empty_active
              eq_refl eq_refl eq_refl eq_refl ltac:(discriminate))
    as ((eu & su & Eu & _ & Cu & _) & (ea & sa & Ea & _ & Ca & _)).
  split.
  - exists eu, su. split; [exact Eu | ].
    apply existsb_exists. eexists. split; [apply (Cu _ eq_refl) | reflexivity].
  - exists ea, sa. split; [exact Ea | ].
    apply existsb_exists. eexists. split; [apply (Ca _ eq_refl) | reflexivity].
Defined.

Lemma unrecognized_tag_marshalled_as_tdoa_witness :
  ScopedJniEnv (Active.mVm (active_loaded (MkVm (Some quiet_env))))
  = Some quiet_env /\
  Active.mOnRangeDataNotificationReceived
    (active_loaded (MkVm (Some quiet_env)))
  = Some (MethodID "onRangeDataNotificationReceived"
            "(Lcom/android/uwb/data/UwbRangingData;)V") /\
  Active.ranging_measure_type sample_untagged_active
  <> @MEASUREMENT_TYPE_TWOWAY sample_defs /\
  Active.tdoa_view_ok sample_untagged_active = true /\
  exists evs,
    @Active.onRangeDataNotificationReceived sample_defs
      (active_loaded (MkVm (Some quiet_env))) sample_untagged_active
      (JState false)
    = Done evs tt (JState false) /\
    existsb is_call evs = true.
Proof.
  split; [reflexivity | ]. split; [reflexivity | ].
  split; [discriminate | ]. split; [reflexivity | ].
  destruct (@unrecognized_tag_marshalled_as_tdoa sample_defs
              (active_loaded (MkVm (Some quiet_env))) quiet_env
              sample_untagged_active _ (JState false)
              eq_refl eq_refl ltac:(discriminate) eq_refl)
    as (_ & evs & elems & Erun & Hcall & _).
  exists evs. split; [exact Erun | ].
  apply existsb_exists. eexists. split; [exact Hcall | reflexivity].
Defined.

(** The second end-to-end scenario of the specification: a control word
    with tx bits 2, rx bits 0, anchor bits 0x40 and three active ranging
    rounds gives an 8-byte tx timestamp, a 5-byte rx timestamp, a 10-byte
    anchor location and a 3-byte round list. *)
Example dltdoa_scenario :
  exists evs obj,
    @Unused.dltdoa_measure sample_defs (unused_loaded (MkVm (Some quiet_env)))
      (Some quiet_env) 0 sample_dltdoa (JState false)
    = Done evs obj (JState false) /\
    ctor_arg obj Unused.DL_ARG_MAC = Some (JByteArray [0x11; 0x22]) /\
    ctor_arg obj Unused.DL_ARG_TX_TIMESTAMP
    = Some (JByteArray [1; 2; 3; 4; 5; 6; 7; -1]) /\
    ctor_arg obj Unused.DL_ARG_RX_TIMESTAMP
    = Some (JByteArray [8; 7; 6; 5; 4]) /\
    ctor_arg obj Unused.DL_ARG_ANCHOR_LOCATION
    = Some (JByteArray [1; 2; 3; 4; 5; 6; 7; 8; 9; 10]) /\
    ctor_arg obj Unused.DL_ARG_ACTIVE_RANGING_ROUND
    = Some (JByteArray [9; 8; 7]).
Proof. do 2 eexists. split; [vm_compute; reflexivity | ]. repeat split. Qed.

(** A control word whose tx bits are 4 and whose anchor bits are 0x60:
    both fields are null and both error lines are in the trace. *)
Example dltdoa_invalid_selectors :
  let m := {|
    Unused.dl_mac_addr := Unused.dl_mac_addr sample_dltdoa;
    Unused.dl_status := 0; Unused.dl_message_type := 1;
    Unused.dl_message_control := 0x0064;
    Unused.dl_block_index := 0; Unused.dl_round_index := 0;
    Unused.dl_nLos := 0; Unused.dl_aoa_azimuth := 0;
    Unused.dl_aoa_azimuth_FOM := 0; Unused.dl_aoa_elevation := 0;
    Unused.dl_aoa_elevation_FOM := 0;
    Unused.dl_txTimeStamp := []; Unused.dl_rxTimeStamp := [1; 2; 3; 4; 5];
    Unused.dl_cfo_anchor := 0; Unused.dl_cfo := 0;
    Unused.dl_initiator_reply_time := 0;
    Unused.dl_responder_reply_time := 0;
    Unused.dl_initiator_responder_TOF := 0;
    Unused.dl_anchor_location := []; Unused.dl_active_ranging_round := [] |} in
  exists obj,
    @Unused.dltdoa_measure sample_defs (unused_loaded (MkVm (Some quiet_env)))
      (Some quiet_env) 0 m (JState false)
    = Done [ EvNew (JByteArray [0; 0]);
             EvLog LvlE Unused.fn_range "Invalid dlTdoaTxTimeStamp";
             EvNew (JByteArray [0; 0; 0; 0; 0]);
             EvLog LvlE Unused.fn_range "Invalid dlTdoaAnchorLocation";
             EvLog LvlI Unused.fn_range "dlTdoaActiveRangingRound not included";
             EvNew obj ] obj (JState false) /\
    ctor_arg obj Unused.DL_ARG_TX_TIMESTAMP = Some JNull /\
    ctor_arg obj Unused.DL_ARG_ANCHOR_LOCATION = Some JNull.
Proof. eexists. split; [vm_compute; reflexivity | ]. split; reflexivity. Qed.

(* ===================================================================== *)
(** * Further properties of the record marshalling *)

(** X1.  The rx timestamp of a downlink-TDoA record follows bits 0x18 of
    the control word: 0 gives a byte array of exactly 5 bytes, 8 one of
    exactly 8 bytes, any other value a null field and the error line
    "Invalid dlTdoaRxTimeStamp". *)
Theorem rx_timestamp_by_control_bits
    {defs : UciDefs} (this : Unused.UwbEventManager) (e : JNIEnv) (mode : Z)
    (m : Unused.tUWA_DLTDOA_RANGING_MEASR) (s : jstate) :
  Unused.dltdoa_buffers_ok m = true ->
  let sel := Z.land (Unused.dl_message_control m) 0x18 in
  Unused.rxTimeStampValue (Unused.dl_message_control m) = sel /\
  exists evs obj rx,
    Unused.dltdoa_measure this (Some e) mode m s = Done evs obj s /\
    ctor_arg obj Unused.DL_ARG_RX_TIMESTAMP = Some rx /\
    (sel = 0 -> exists bs, rx = JByteArray bs /\ length bs = 5%nat) /\
    (sel = 8 -> exists bs, rx = JByteArray bs /\ length bs = 8%nat) /\
    (sel <> 0 -> sel <> 8 ->
     rx = JNull /\
     In (EvLog LvlE Unused.fn_range "Invalid dlTdoaRxTimeStamp") evs).
Proof.
  intros Hok sel. split; [apply rxTimeStampValue_eq | ].
  destruct (dltdoa_measure_run this e mode m s Hok)
    as (e_mac & v_mac & e_tx & v_tx & e_rx & v_rx & e_al & v_al & e_rr & v_rr
        & obj & _ & _ & Erx & _ & _ & Erun & _ & _ & Arx & _).
  apply dltdoa_buffers_ok_inv in Hok. destruct Hok as (_ & _ & Hrx & _).
  destruct (dltdoa_rx_timestamp_run e m s Hrx)
    as (evs' & v' & Erx' & H0 & H8 & Hbad).
  rewrite Erx in Erx'. injection Erx' as <- <-.
  exists (e_mac ++ e_tx ++ e_rx ++ e_al ++ e_rr ++ [EvNew obj])%list, obj, v_rx.
  split; [exact Erun | ]. split; [exact Arx | ].
  split; [exact H0 | ]. split; [exact H8 | ].
  intros Hn0 Hn8. destruct (Hbad Hn0 Hn8) as [-> ->].
  split; [reflexivity | ].
  do 2 (apply in_or_app; right). apply in_or_app. left. left. reflexivity.
Qed.

Lemma rx_timestamp_by_control_bits_witness :
  Unused.dltdoa_buffers_ok sample_dltdoa = true /\
  exists evs obj bs,
    @Unused.dltdoa_measure sample_defs (unused_loaded (MkVm (Some quiet_env)))
      (Some quiet_env) 0 sample_dltdoa (JState false)
    = Done evs obj (JState false) /\
    ctor_arg obj Unused.DL_ARG_RX_TIMESTAMP = Some (JByteArray bs) /\
    length bs = 5%nat.
Proof.
  split; [reflexivity | ].
  destruct (@rx_timestamp_by_control_bits sample_defs
              (unused_loaded (MkVm (Some quiet_env))) quiet_env 0
              sample_dltdoa (JState false) eq_refl)
    as (_ & evs & obj & rx & Erun & Arx & H0 & _).
  destruct (H0 eq_refl) as (bs & -> & Hlen).
  exists evs, obj, bs. repeat split; assumption.
Defined.

(** The bytes a managed array receives from a native buffer are the
    native bytes read as signed: reduced modulo 256 they are the native
    bytes again. *)
Lemma to_jbyte_mod b : 0 <= b < 256 -> to_jbyte b mod 256 = b.
Proof.
  intros H. unfold to_jbyte, wrap_signed.
  change (2 ^ (8 - 1)) with 128. change (2 ^ 8) with 256.
  rewrite Zminus_mod, Z.mod_mod by lia.
  rewrite <- Zminus_mod.
  replace (b + 128 - 128) with b by lia. apply Z.mod_small. assumption.
Qed.

Lemma to_jbyte_range b : -128 <= to_jbyte b < 128.
Proof.
  unfold to_jbyte, wrap_signed.
  change (2 ^ (8 - 1)) with 128. change (2 ^ 8) with 256.
  pose proof (Z.mod_pos_bound (b + 128) 256 ltac:(lia)). lia.
Qed.

Lemma map_to_jbyte_mod (bs : list Z) :
  Forall (fun b => 0 <= b < 256) bs ->
  map (fun x => x mod 256) (map to_jbyte bs) = bs.
Proof.
  induction 1 as [ | b bs Hb _ IH]; [reflexivity | ].
  cbn. rewrite (to_jbyte_mod b Hb), IH. reflexivity.
Qed.

(* ===================================================================== *)
(** * The payload notifications *)

Lemma to_jint_small z : 0 <= z < 2 ^ 31 -> to_jint z = z.
Proof.
  intros H. unfold to_jint, wrap_signed.
  change (2 ^ (32 - 1)) with (2 ^ 31). rewrite Z.mod_small; lia.
Qed.

Lemma to_jlong_small z : 0 <= z < 2 ^ 63 -> to_jlong z = z.
Proof.
  intros H. unfold to_jlong, wrap_signed.
  change (2 ^ (64 - 1)) with (2 ^ 63). rewrite Z.mod_small; lia.
Qed.

Lemma firstn_Forall {A} (P : A -> Prop) n (l : list A) :
  Forall P l -> Forall P (firstn n l).
Proof.
  intros H. revert n. induction H as [ | x l Hx _ IH]; intros [ | n]; cbn;
    constructor; auto.
Qed.

Lemma invocations_app evs1 evs2 :
  invocations (evs1 ++ evs2) = (invocations evs1 + invocations evs2)%nat.
Proof. unfold invocations. rewrite filter_app, length_app. reflexivity. Qed.

Lemma invocations_silent evs :
  existsb is_call evs = false -> invocations evs = 0%nat.
Proof.
  unfold invocations. induction evs as [ | ev evs IH]; [reflexivity | ].
  cbn. intros H. apply orb_false_elim in H. destruct H as [-> H].
  apply IH. assumption.
Qed.

Lemma invocations_delivery_trace e s obj mid args fn msg :
  invocations (delivery_trace e s obj mid args fn msg) = 1%nat.
Proof.
  unfold delivery_trace.
  destruct (exception_pending s || listener_throws e mid args); reflexivity.
Qed.

Lemma invocations_range_delivery_trace e s obj mid args fn :
  invocations (range_delivery_trace e s obj mid args fn) = 1%nat.
Proof.
  unfold range_delivery_trace.
  destruct (exception_pending s || listener_throws e mid args); reflexivity.
Qed.

(** The delivery step and the exit line, as one run. *)
Lemma delivery_run e obj mid args fn msg s :
  ((CallVoidMethod (Some e) obj mid args ;; clear_exception (Some e) fn msg) ;;
   JNI_TRACE_I fn "exit") s
  = Done (delivery_trace e s obj mid args fn msg) tt (JState false).
Proof.
  rewrite (bind_Done _ _ _ _ _ _ (call_and_clear_run e obj mid args fn msg s)).
  unfold delivery_trace. cbn.
  destruct (exception_pending s || listener_throws e mid args); reflexivity.
Qed.

Section Payloads.
Variable e : JNIEnv.

(** Allocation and copy of a payload of [len] bytes, then the rest. *)
Lemma payload_then {A} (k : jvalue -> jni A) len buf s :
  0 <= len <= Z.of_nat (length buf) ->
  (dataArray <- NewByteArray (Some e) len ;;
   dataArray <- SetByteArrayRegion (Some e) dataArray 0 len buf ;;
   k dataArray) s
  = match k (JByteArray (map to_jbyte (firstn (Z.to_nat len) buf))) s with
    | Done evs a s' =>
        Done (EvNew (JByteArray (repeat 0 (Z.to_nat len))) :: evs) a s'
    | Crash evs f =>
        Crash (EvNew (JByteArray (repeat 0 (Z.to_nat len))) :: evs) f
    end.
Proof.
  intros H.
  rewrite (bind_Done _ _ _ _ _ _ (NewByteArray_run e len s)).
  rewrite (bind_Done _ _ _ _ _ _
             (SetByteArrayRegion_run e (repeat 0 (Z.to_nat len)) len buf s
                ltac:(rewrite repeat_length; lia) ltac:(lia))).
  destruct (k _ s); reflexivity.
Qed.

(** X2.  In both copies [onRawUciNotificationReceived] rejects a zero
    length and a null payload: it returns with log lines only, whatever
    the environment and the manager. *)
Theorem raw_uci_empty_rejected
    (this_u : Unused.UwbEventManager) (this_a : Active.UwbEventManager)
    (data : pointer (list Z)) (length : Z) (s : jstate) :
  length = 0 \/ data = None ->
  (exists evs,
      Unused.onRawUciNotificationReceived this_u data length s
      = Done evs tt s /\ forallb is_log evs = true) /\
  (exists evs,
      Active.onRawUciNotificationReceived this_a data length s
      = Done evs tt s /\ forallb is_log evs = true).
Proof.
  intros H.
  assert (Hg : (length =? 0) || is_NULL data = true).
  { destruct H as [-> | ->]; [reflexivity | apply orb_true_r]. }
  unfold Unused.onRawUciNotificationReceived,
    Active.onRawUciNotificationReceived.
  rewrite Hg.
  split;
    [destruct (ScopedJniEnv (Unused.mVm this_u))
    | destruct (ScopedJniEnv (Active.mVm this_a))];
    eexists; split; reflexivity.
Qed.

Lemma raw_uci_empty_rejected_witness :
  (0 = 0 \/ Some [1; 2] = None) /\
  (exists evs,
      Unused.onRawUciNotificationReceived
        (unused_loaded (MkVm (Some quiet_env))) (Some [1; 2]) 0 (JState false)
      = Done evs tt (JState false) /\ forallb is_log evs = true) /\
  (exists evs,
      Active.onRawUciNotificationReceived
        (active_loaded (MkVm (Some quiet_env))) (Some [1; 2]) 0 (JState false)
      = Done evs tt (JState false) /\ forallb is_log evs = true).
Proof.
  split; [left; reflexivity | ].
  apply (raw_uci_empty_rejected (unused_loaded (MkVm (Some quiet_env)))
           (active_loaded (MkVm (Some quiet_env))) (Some [1; 2]) 0
           (JState false)).
  left. reflexivity.
Defined.

(** X3.  In the superseded copy a raw notification with a payload of
    [length] bytes, [0 < length], is delivered once, as a byte array of
    exactly [length] elements that are the native bytes read as signed (so
    the native bytes modulo 256). *)
Theorem raw_uci_payload_delivered
    (this : Unused.UwbEventManager) (mid : jmethodID) (buf : list Z)
    (length : Z) (s : jstate) :
  ScopedJniEnv (Unused.mVm this) = Some e ->
  Unused.mOnRawUciNotificationReceived this = Some mid ->
  0 < length <= Z.of_nat (List.length buf) ->
  Forall (fun b => 0 <= b < 256) buf ->
  let fn := "onRawUciNotificationReceived" in
  let bytes := map to_jbyte (firstn (Z.to_nat length) buf) in
  Z.of_nat (List.length bytes) = length /\
  map (fun x => x mod 256) bytes = firstn (Z.to_nat length) buf /\
  Unused.onRawUciNotificationReceived this (Some buf) length s
  = Done (EvLog LvlI fn "Enter"
          :: EvNew (JByteArray (repeat 0 (Z.to_nat length)))
          :: delivery_trace e s (Unused.mObject this) mid
               [JByteArray bytes] fn "fail to send notification")
         tt (JState false).
Proof.
  intros Hu Hmu Hlen Hbytes fn bytes.
  split; [unfold bytes; rewrite length_map, length_firstn; lia | ].
  split; [apply map_to_jbyte_mod, firstn_Forall; assumption | ].
  unfold Unused.onRawUciNotificationReceived.
  rewrite Hu, Hmu.
  destruct (Z.eqb_spec length 0); [lia | ].
  cbn [orb is_NULL buffer_of].
  erewrite bind_Done by reflexivity.
  rewrite payload_then by lia. rewrite delivery_run. reflexivity.
Qed.

(** X4.  [onVendorUciNotificationReceived] has no guard on its payload: a
    payload of [length] bytes, [0 <= length], is delivered once with the
    group and opcode identifiers unchanged; a zero length, even with a
    null payload, gives a zero-length byte array, not a null one. *)
Theorem vendor_uci_payload_delivered
    (this : Unused.UwbEventManager) (mid : jmethodID) (gid oid : Z)
    (data : pointer (list Z)) (length : Z) (s : jstate) :
  ScopedJniEnv (Unused.mVm this) = Some e ->
  Unused.mOnVendorUciNotificationReceived this = Some mid ->
  0 <= gid < 256 -> 0 <= oid < 256 ->
  0 <= length <= Z.of_nat (List.length (buffer_of data)) ->
  let fn := "onVendorUciNotificationReceived" in
  let bytes := map to_jbyte (firstn (Z.to_nat length) (buffer_of data)) in
  Z.of_nat (List.length bytes) = length /\
  (length = 0 -> bytes = []) /\
  Unused.onVendorUciNotificationReceived this gid oid data length s
  = Done (EvNew (JByteArray (repeat 0 (Z.to_nat length)))
          :: delivery_trace e s (Unused.mObject this) mid
               [JInt gid; JInt oid; JByteArray bytes] fn
               "fail to send notification")
         tt (JState false).
Proof.
  intros Henv Hmid Hg Ho Hlen fn bytes.
  split; [unfold bytes; rewrite length_map, length_firstn; lia | ].
  split; [intros ->; reflexivity | ].
  unfold Unused.onVendorUciNotificationReceived.
  rewrite Henv, Hmid.
  rewrite payload_then by lia. rewrite delivery_run.
  rewrite !to_jint_small by lia. reflexivity.
Qed.

(** X5.  [onVendorDeviceInfo] rejects a zero length and a null payload
    before it touches the environment: it returns after one error line
    even when no environment can be obtained. *)
Theorem vendor_device_info_empty_rejected
    (this : Unused.UwbEventManager) (data : pointer (list Z)) (length : Z)
    (s : jstate) :
  length <= 0 \/ data = None ->
  Unused.onVendorDeviceInfo this data length s
  = Done [EvLog LvlE "onVendorDeviceInfo"
            "data len is Zero or vendorDevice info  is NULL"] tt s.
Proof.
  intros H. unfold Unused.onVendorDeviceInfo.
  assert (Hg : (length <=? 0) || is_NULL data = true).
  { destruct H as [H | ->]; [ | apply orb_true_r].
    apply orb_true_iff. left. apply Z.leb_le. assumption. }
  rewrite Hg. reflexivity.
Qed.

(** X6.  [onVendorDeviceInfo] delivers a payload of [length] bytes,
    [0 < length], once, as a byte array of exactly [length] elements that
    are the native bytes read as signed. *)
Theorem vendor_device_info_payload_delivered
    (this : Unused.UwbEventManager) (mid : jmethodID) (buf : list Z)
    (length : Z) (s : jstate) :
  ScopedJniEnv (Unused.mVm this) = Some e ->
  Unused.mOnVendorDeviceInfo this = Some mid ->
  0 < length <= Z.of_nat (List.length buf) ->
  Forall (fun b => 0 <= b < 256) buf ->
  let fn := "onVendorDeviceInfo" in
  let bytes := map to_jbyte (firstn (Z.to_nat length) buf) in
  Z.of_nat (List.length bytes) = length /\
  map (fun x => x mod 256) bytes = firstn (Z.to_nat length) buf /\
  Unused.onVendorDeviceInfo this (Some buf) length s
  = Done (EvNew (JByteArray (repeat 0 (Z.to_nat length)))
          :: delivery_trace e s (Unused.mObject this) mid
               [JByteArray bytes] fn "fail to vendor info")
         tt (JState false).
Proof.
  intros Henv Hmid Hlen Hbytes fn bytes.
  split; [unfold bytes; rewrite length_map, length_firstn; lia | ].
  split; [apply map_to_jbyte_mod, firstn_Forall; assumption | ].
  unfold Unused.onVendorDeviceInfo.
  destruct (Z.leb_spec length 0); [lia | ].
  cbn [orb is_NULL buffer_of]. rewrite Henv, Hmid.
  rewrite payload_then by lia. rewrite delivery_run. reflexivity.
Qed.

End Payloads.

Lemma raw_uci_payload_delivered_witness :
  ScopedJniEnv (Unused.mVm (unused_loaded (MkVm (Some raising_env))))
  = Some raising_env /\
  0 < 2 <= Z.of_nat (List.length [0x80; 0x7F; 0x01]) /\
  Forall (fun b => 0 <= b < 256) [0x80; 0x7F; 0x01] /\
  Unused.onRawUciNotificationReceived
    (unused_loaded (MkVm (Some raising_env))) (Some [0x80; 0x7F; 0x01]) 2
    (JState false)
  = Done [ EvLog LvlI "onRawUciNotificationReceived" "Enter";
           EvNew (JByteArray [0; 0]);
           EvCall service_object
             (MethodID "onRawUciNotificationReceived" "([B)V")
             [JByteArray [-128; 127]] true;
           EvExceptionClear;
           EvLog LvlE "onRawUciNotificationReceived"
             "fail to send notification";
           EvLog LvlI "onRawUciNotificationReceived" "exit" ]
         tt (JState false).
Proof.
  split; [reflexivity | ]. split; [cbn; lia | ].
  split; [repeat constructor; lia | ].
  apply (raw_uci_payload_delivered raising_env
           (unused_loaded (MkVm (Some raising_env)))
           (MethodID "onRawUciNotificationReceived" "([B)V") [0x80; 0x7F; 0x01] 2
           (JState false));
    [reflexivity | reflexivity | cbn; lia | repeat constructor; lia].
Defined.

Lemma vendor_uci_payload_delivered_witness :
  ScopedJniEnv (Unused.mVm (unused_loaded (MkVm (Some quiet_env))))
  = Some quiet_env /\
  0 <= 0 <= Z.of_nat (List.length (buffer_of None)) /\
  Unused.onVendorUciNotificationReceived
    (unused_loaded (MkVm (Some quiet_env))) 0x0E 0x03 None 0 (JState false)
  = Done [ EvNew (JByteArray []);
           EvCall service_object
             (MethodID "onVendorUciNotificationReceived" "(II[B)V")
             [JInt 0x0E; JInt 0x03; JByteArray []] false;
           EvLog LvlI "onVendorUciNotificationReceived" "exit" ]
         tt (JState false).
Proof.
  split; [reflexivity | ]. split; [cbn; lia | ].
  apply (vendor_uci_payload_delivered quiet_env
           (unused_loaded (MkVm (Some quiet_env)))
           (MethodID "onVendorUciNotificationReceived" "(II[B)V") 0x0E 0x03 None 0
           (JState false));
    [reflexivity | reflexivity | lia | lia | cbn; lia].
Defined.

Lemma vendor_device_info_empty_rejected_witness :
  (0 <= 0 \/ Some [1] = None) /\
  Unused.onVendorDeviceInfo (unused_loaded (MkVm None)) (Some [1]) 0
    (JState false)
  = Done [EvLog LvlE "onVendorDeviceInfo"
            "data len is Zero or vendorDevice info  is NULL"] tt (JState false).
Proof.
  split; [left; lia | ].
  apply (vendor_device_info_empty_rejected (unused_loaded (MkVm None))
           (Some [1]) 0 (JState false)).
  left. lia.
Defined.

Lemma vendor_device_info_payload_delivered_witness :
  ScopedJniEnv (Unused.mVm (unused_loaded (MkVm (Some quiet_env))))
  = Some quiet_env /\
  0 < 3 <= Z.of_nat (List.length [0xFF; 0x00; 0x10]) /\
  Forall (fun b => 0 <= b < 256) [0xFF; 0x00; 0x10] /\
  Unused.onVendorDeviceInfo
    (unused_loaded (MkVm (Some quiet_env))) (Some [0xFF; 0x00; 0x10]) 3
    (JState false)
  = Done [ EvNew (JByteArray [0; 0; 0]);
           EvCall service_object (MethodID "onVendorDeviceInfo" "([B)V")
             [JByteArray [-1; 0; 16]] false;
           EvLog LvlI "onVendorDeviceInfo" "exit" ]
         tt (JState false).
Proof.
  split; [reflexivity | ]. split; [cbn; lia | ].
  split; [repeat constructor; lia | ].
  apply (vendor_device_info_payload_delivered quiet_env
           (unused_loaded (MkVm (Some quiet_env)))
           (MethodID "onVendorDeviceInfo" "([B)V") [0xFF; 0x00; 0x10] 3
           (JState false));
    [reflexivity | reflexivity | cbn; lia | repeat constructor; lia].
Defined.

(* ===================================================================== *)
(** * The scalar notifications *)

(** X7.  In both copies a session-status notification is delivered once,
    with the 32-bit session identifier as a non-negative long and the
    state and reason code unchanged, between the enter and exit lines. *)
Theorem session_status_delivered
    (e : JNIEnv) (this_u : Unused.UwbEventManager)
    (this_a : Active.UwbEventManager) (mid_u mid_a : jmethodID)
    (sessionId state reasonCode : Z) (s : jstate) :
  ScopedJniEnv (Unused.mVm this_u) = Some e ->
  ScopedJniEnv (Active.mVm this_a) = Some e ->
  Unused.mOnSessionStatusNotificationReceived this_u = Some mid_u ->
  Active.mOnSessionStatusNotificationReceived this_a = Some mid_a ->
  0 <= sessionId < 2 ^ 32 -> 0 <= state < 256 -> 0 <= reasonCode < 256 ->
  let fn := "notifySessionStateNotification" in
  let args := [JLong sessionId; JInt state; JInt reasonCode] in
  Unused.onSessionStatusNotificationReceived this_u sessionId state
    reasonCode s
  = Done (EvLog LvlI fn "enter; session ID=%x, State = %x reasonCode = %x"
          :: delivery_trace e s (Unused.mObject this_u) mid_u args fn
               "fail to notify")
         tt (JState false) /\
  Active.onSessionStatusNotificationReceived this_a sessionId state
    reasonCode s
  = Done (EvLog LvlI fn "enter; session ID=%x, State = %x reasonCode = %x"
          :: delivery_trace e s (Active.mObject this_a) mid_a args fn
               "fail to notify")
         tt (JState false).
Proof.
  intros Hu Ha Hmu Hma Hs Hst Hr fn args.
  unfold Unused.onSessionStatusNotificationReceived,
    Active.onSessionStatusNotificationReceived.
  rewrite Hu, Ha, Hmu, Hma.
  rewrite (to_jlong_small sessionId) by lia.
  rewrite (to_jint_small state), (to_jint_small reasonCode) by lia.
  split; (erewrite bind_Done by reflexivity); rewrite delivery_run;
    reflexivity.
Qed.

Lemma session_status_delivered_witness :
  ScopedJniEnv (Unused.mVm (unused_loaded (MkVm (Some quiet_env))))
  = Some quiet_env /\
  ScopedJniEnv (Active.mVm (active_loaded (MkVm (Some quiet_env))))
  = Some quiet_env /\
  0 <= 0xFFFFFFFF < 2 ^ 32 /\
  Unused.onSessionStatusNotificationReceived
    (unused_loaded (MkVm (Some quiet_env))) 0xFFFFFFFF 2 0 (JState false)
  = Done [ EvLog LvlI "notifySessionStateNotification"
             "enter; session ID=%x, State = %x reasonCode = %x";
           EvCall service_object
             (MethodID "onSessionStatusNotificationReceived" "(JII)V")
             [JLong 0xFFFFFFFF; JInt 2; JInt 0] false;
           EvLog LvlI "notifySessionStateNotification" "exit" ]
         tt (JState false).
Proof.
  split; [reflexivity | ]. split; [reflexivity | ]. split; [lia | ].
  apply (session_status_delivered quiet_env
           (unused_loaded (MkVm (Some quiet_env)))
           (active_loaded (MkVm (Some quiet_env)))
           (MethodID "onSessionStatusNotificationReceived" "(JII)V")
           (MethodID "onSessionStatusNotificationReceived" "(JII)V")
           0xFFFFFFFF 2 0 (JState false));
    first [reflexivity | lia].
Defined.

(** X8.  In both copies a device-state code and a generic-error code are
    each delivered once, unchanged, between the enter and exit lines. *)
Theorem state_codes_delivered
    (e : JNIEnv) (this_u : Unused.UwbEventManager)
    (this_a : Active.UwbEventManager) (dev_u dev_a err_u err_a : jmethodID)
    (state : Z) (s : jstate) :
  ScopedJniEnv (Unused.mVm this_u) = Some e ->
  ScopedJniEnv (Active.mVm this_a) = Some e ->
  Unused.mOnDeviceStateNotificationReceived this_u = Some dev_u ->
  Active.mOnDeviceStateNotificationReceived this_a = Some dev_a ->
  Unused.mOnCoreGenericErrorNotificationReceived this_u = Some err_u ->
  Active.mOnCoreGenericErrorNotificationReceived this_a = Some err_a ->
  0 <= state < 256 ->
  let fd := "notifyDeviceStateNotification" in
  let fe := "notifyCoreGenericErrorNotification" in
  Unused.onDeviceStateNotificationReceived this_u state s
  = Done (EvLog LvlI fd "enter:  State = %x"
          :: delivery_trace e s (Unused.mObject this_u) dev_u [JInt state] fd
               "fail to notify") tt (JState false) /\
  Active.onDeviceStateNotificationReceived this_a state s
  = Done (EvLog LvlI fd "enter:  State = %x"
          :: delivery_trace e s (Active.mObject this_a) dev_a [JInt state] fd
               "fail to notify") tt (JState false) /\
  Unused.onCoreGenericErrorNotificationReceived this_u state s
  = Done (EvLog LvlI fe "enter:  State = %x"
          :: delivery_trace e s (Unused.mObject this_u) err_u [JInt state] fe
               "fail to notify") tt (JState false) /\
  Active.onCoreGenericErrorNotificationReceived this_a state s
  = Done (EvLog LvlI fe "enter:  State = %x"
          :: delivery_trace e s (Active.mObject this_a) err_a [JInt state] fe
               "fail to notify") tt (JState false).
Proof.
  intros Hu Ha Hdu Hda Heu Hea Hst fd fe.
  unfold Unused.onDeviceStateNotificationReceived,
    Active.onDeviceStateNotificationReceived,
    Unused.onCoreGenericErrorNotificationReceived,
    Active.onCoreGenericErrorNotificationReceived.
  rewrite Hu, Ha, Hdu, Hda, Heu, Hea.
  rewrite (to_jint_small state) by lia.
  repeat split; (erewrite bind_Done by reflexivity); rewrite delivery_run;
    reflexivity.
Qed.

Lemma state_codes_delivered_witness :
  ScopedJniEnv (Unused.mVm (unused_loaded (MkVm (Some quiet_env))))
  = Some quiet_env /\
  ScopedJniEnv (Active.mVm (active_loaded (MkVm (Some quiet_env))))
  = Some quiet_env /\
  0 <= 0xFF < 256 /\
  Active.onCoreGenericErrorNotificationReceived
    (active_loaded (MkVm (Some quiet_env))) 0xFF (JState false)
  = Done [ EvLog LvlI "notifyCoreGenericErrorNotification"
             "enter:  State = %x";
           EvCall service_object
             (MethodID "onCoreGenericErrorNotificationReceived" "(I)V")
             [JInt 0xFF] false;
           EvLog LvlI "notifyCoreGenericErrorNotification" "exit" ]
         tt (JState false).
Proof.
  split; [reflexivity | ]. split; [reflexivity | ]. split; [lia | ].
  apply (state_codes_delivered quiet_env
           (unused_loaded (MkVm (Some quiet_env)))
           (active_loaded (MkVm (Some quiet_env)))
           (MethodID "onDeviceStatusNotificationReceived" "(I)V")
           (MethodID "onDeviceStatusNotificationReceived" "(I)V")
           (MethodID "onCoreGenericErrorNotificationReceived" "(I)V")
           (MethodID "onCoreGenericErrorNotificationReceived" "(I)V")
           0xFF (JState false));
    first [reflexivity | lia].
Defined.

(* ===================================================================== *)
(** * One invocation at most *)

Lemma range_delivery_run e obj mid args fn s :
  ((CallVoidMethod (Some e) obj mid args ;;
    exc <- ExceptionCheck (Some e) ;;
    if exc then
      ExceptionDescribe (Some e) ;;
      ExceptionClear (Some e) ;;
      JNI_TRACE_E fn "fail to send range data"
    else ret tt) ;;
   JNI_TRACE_I fn "exit") s
  = Done (range_delivery_trace e s obj mid args fn) tt (JState false).
Proof.
  rewrite (bind_Done _ _ _ _ _ _
             (call_describe_clear_run e obj mid args fn
                "fail to send range data" s)).
  unfold range_delivery_trace. cbn.
  destruct (exception_pending s || listener_throws e mid args); reflexivity.
Qed.

Lemma at_most_once_silent {A} (c : jni A) : silent c -> at_most_once c.
Proof. intros Hc s. rewrite (invocations_silent _ (Hc s)). lia. Qed.

Lemma at_most_once_bind {A B} (c : jni A) (k : A -> jni B) :
  silent c -> (forall a, at_most_once (k a)) -> at_most_once (bind c k).
Proof.
  intros Hc Hk s. rewrite events_of_bind. specialize (Hc s).
  destruct (c s) as [evs a s' | evs f]; cbn in Hc.
  - rewrite invocations_app, (invocations_silent _ Hc). apply Hk.
  - rewrite (invocations_silent _ Hc). lia.
Qed.

Lemma at_most_once_delivery e obj mid args fn msg :
  at_most_once
    ((CallVoidMethod (Some e) obj mid args ;; clear_exception (Some e) fn msg) ;;
     JNI_TRACE_I fn "exit").
Proof.
  intros s. rewrite delivery_run. cbn [events_of].
  rewrite invocations_delivery_trace. lia.
Qed.

Lemma at_most_once_range_delivery e obj mid args fn :
  at_most_once
    ((CallVoidMethod (Some e) obj mid args ;;
      exc <- ExceptionCheck (Some e) ;;
      if exc then
        ExceptionDescribe (Some e) ;;
        ExceptionClear (Some e) ;;
        JNI_TRACE_E fn "fail to send range data"
      else ret tt) ;;
     JNI_TRACE_I fn "exit").
Proof.
  intros s. rewrite range_delivery_run. cbn [events_of].
  rewrite invocations_range_delivery_trace. lia.
Qed.

Ltac once_tac :=
  repeat first
    [ apply at_most_once_delivery
    | apply at_most_once_range_delivery
    | apply at_most_once_silent; solve [silent_tac]
    | apply at_most_once_bind; [ solve [silent_tac] | intros ? ]
    | match goal with
      | |- at_most_once (if ?b then _ else _) => destruct b
      | |- at_most_once (let '(_, _) := ?p in _) => destruct p
      | |- at_most_once (match ?x with _ => _ end) => destruct x eqn:?
      | |- at_most_once (bind (if ?b then _ else _) _) => destruct b
      | |- at_most_once (bind (match ?x with _ => _ end) _) => destruct x
      end ].

(** X9.  No entry point of either copy invokes the listener more than
    once for one notification, whatever the notification, the manager and
    the state of the runtime. *)
Theorem one_invocation_at_most
    {defs : UciDefs}
    (this_u : Unused.UwbEventManager) (n_u : Unused.notification)
    (this_a : Active.UwbEventManager) (n_a : Active.notification) :
  at_most_once (Unused.handle this_u n_u) /\
  at_most_once (Active.handle this_a n_a).
Proof.
  pose proof silent_unused_vendor_specific_data.
  pose proof silent_unused_range_data_object.
  pose proof silent_unused_multicast_fill_arrays.
  pose proof silent_active_range_data_object.
  pose proof silent_active_multicast_fill_arrays.
  pose proof silent_clear_exception.
  pose proof silent_CallVoidMethod_null.
  split.
  - destruct n_u; cbn [Unused.handle].
    + unfold Unused.onRangeDataNotificationReceived,
        Unused.deliver_range_data.
      once_tac.
    + unfold Unused.onRawUciNotificationReceived. once_tac.
    + unfold Unused.onSessionStatusNotificationReceived. once_tac.
    + unfold Unused.onDeviceStateNotificationReceived. once_tac.
    + unfold Unused.onCoreGenericErrorNotificationReceived. once_tac.
    + unfold Unused.onMulticastListUpdateNotificationReceived,
        Unused.multicast_marshal_and_deliver.
      once_tac.
    + unfold Unused.onBlinkDataTxNotificationReceived. once_tac.
    + unfold Unused.onVendorUciNotificationReceived. once_tac.
    + unfold Unused.onVendorDeviceInfo.
      destruct (ScopedJniEnv (Unused.mVm this_u)); once_tac.
  - destruct n_a; cbn [Active.handle].
    + unfold Active.onRangeDataNotificationReceived,
        Active.deliver_range_data.
      once_tac.
    + unfold Active.onRawUciNotificationReceived. once_tac.
    + unfold Active.onSessionStatusNotificationReceived. once_tac.
    + unfold Active.onDeviceStateNotificationReceived. once_tac.
    + unfold Active.onCoreGenericErrorNotificationReceived. once_tac.
    + unfold Active.onMulticastListUpdateNotificationReceived,
        Active.multicast_marshal_and_deliver.
      once_tac.
    + unfold Active.onBlinkDataTxNotificationReceived. once_tac.
Qed.

(* ===================================================================== *)
(** * The unresolved listener method *)

Lemma logs_error_bind_right {A B} (c : jni A) (k : A -> jni B) :
  (forall a, logs_error (k a)) -> logs_error (bind c k).
Proof.
  intros Hk s evs b s'. unfold bind.
  destruct (c s) as [e1 a s1 | e1 f]; [ | discriminate].
  destruct (k a s1) as [e2 b' s2 | e2 f] eqn:E; [ | discriminate].
  intros [= <- <- <-]. rewrite existsb_app, (Hk a s1 e2 b' s2 E).
  apply orb_true_r.
Qed.

Lemma logs_error_bind_left {A B} (c : jni A) (k : A -> jni B) :
  logs_error c -> logs_error (bind c k).
Proof.
  intros Hc s evs b s'. unfold bind.
  destruct (c s) as [e1 a s1 | e1 f] eqn:E; [ | discriminate].
  destruct (k a s1) as [e2 b' s2 | e2 f]; [ | discriminate].
  intros [= <- <- <-]. rewrite existsb_app, (Hc s e1 a s1 E). reflexivity.
Qed.

Lemma logs_error_JNI_TRACE_E fn msg : logs_error (JNI_TRACE_E fn msg).
Proof. intros s evs a s' [= <- <- <-]. reflexivity. Qed.

Lemma logs_error_crash {A} f : logs_error (@crash A f).
Proof. intros s evs a s'. discriminate. Qed.

Ltac logs_tac :=
  repeat first
    [ apply logs_error_JNI_TRACE_E
    | apply logs_error_crash
    | apply logs_error_bind_left; solve [logs_tac]
    | apply logs_error_bind_right; intros ?
    | match goal with
      | |- logs_error (if ?b then _ else _) => destruct b
      | |- logs_error (match ?x with _ => _ end) => destruct x
      end ].

Section Unresolved.
Context {defs : UciDefs}.

Lemma unused_unresolved_silent this n :
  Unused.method_of this n = None -> silent (Unused.handle this n).
Proof.
  pose proof silent_unused_vendor_specific_data.
  pose proof silent_unused_range_data_object.
  pose proof silent_unused_multicast_fill_arrays.
  intros Hm. destruct n; cbn [Unused.handle Unused.method_of] in *.
  - unfold Unused.onRangeDataNotificationReceived, Unused.deliver_range_data.
    rewrite Hm. silent_tac.
  - unfold Unused.onRawUciNotificationReceived. rewrite Hm. silent_tac.
  - unfold Unused.onSessionStatusNotificationReceived. rewrite Hm. silent_tac.
  - unfold Unused.onDeviceStateNotificationReceived. rewrite Hm. silent_tac.
  - unfold Unused.onCoreGenericErrorNotificationReceived. rewrite Hm.
    silent_tac.
  - unfold Unused.onMulticastListUpdateNotificationReceived,
      Unused.multicast_marshal_and_deliver.
    rewrite Hm. silent_tac.
  - unfold Unused.onBlinkDataTxNotificationReceived. rewrite Hm. silent_tac.
  - unfold Unused.onVendorUciNotificationReceived. rewrite Hm. silent_tac.
  - unfold Unused.onVendorDeviceInfo. rewrite Hm. silent_tac.
Qed.

Lemma active_unresolved_silent this n :
  Active.method_of this n = None -> silent (Active.handle this n).
Proof.
  pose proof silent_active_range_data_object.
  pose proof silent_active_multicast_fill_arrays.
  intros Hm. destruct n; cbn [Active.handle Active.method_of] in *.
  - unfold Active.onRangeDataNotificationReceived, Active.deliver_range_data.
    rewrite Hm. silent_tac.
  - unfold Active.onRawUciNotificationReceived. rewrite Hm. silent_tac.
  - unfold Active.onSessionStatusNotificationReceived. rewrite Hm. silent_tac.
  - unfold Active.onDeviceStateNotificationReceived. rewrite Hm. silent_tac.
  - unfold Active.onCoreGenericErrorNotificationReceived. rewrite Hm.
    silent_tac.
  - unfold Active.onMulticastListUpdateNotificationReceived,
      Active.multicast_marshal_and_deliver.
    rewrite Hm. silent_tac.
  - unfold Active.onBlinkDataTxNotificationReceived. rewrite Hm. silent_tac.
Qed.

Lemma unused_unresolved_logged this n :
  Unused.method_of this n = None -> logs_error (Unused.handle this n).
Proof.
  intros Hm. destruct n; cbn [Unused.handle Unused.method_of] in *.
  - unfold Unused.onRangeDataNotificationReceived, Unused.deliver_range_data.
    rewrite Hm. logs_tac.
  - unfold Unused.onRawUciNotificationReceived. rewrite Hm. logs_tac.
  - unfold Unused.onSessionStatusNotificationReceived. rewrite Hm. logs_tac.
  - unfold Unused.onDeviceStateNotificationReceived. rewrite Hm. logs_tac.
  - unfold Unused.onCoreGenericErrorNotificationReceived. rewrite Hm.
    logs_tac.
  - unfold Unused.onMulticastListUpdateNotificationReceived,
      Unused.multicast_marshal_and_deliver.
    rewrite Hm. logs_tac.
  - unfold Unused.onBlinkDataTxNotificationReceived. rewrite Hm. logs_tac.
  - unfold Unused.onVendorUciNotificationReceived. rewrite Hm. logs_tac.
  - unfold Unused.onVendorDeviceInfo. rewrite Hm. logs_tac.
Qed.

Lemma active_unresolved_logged this n :
  Active.method_of this n = None -> logs_error (Active.handle this n).
Proof.
  intros Hm. destruct n; cbn [Active.handle Active.method_of] in *.
  - unfold Active.onRangeDataNotificationReceived, Active.deliver_range_data.
    rewrite Hm. logs_tac.
  - unfold Active.onRawUciNotificationReceived. rewrite Hm. logs_tac.
  - unfold Active.onSessionStatusNotificationReceived. rewrite Hm. logs_tac.
  - unfold Active.onDeviceStateNotificationReceived. rewrite Hm. logs_tac.
  - unfold Active.onCoreGenericErrorNotificationReceived. rewrite Hm.
    logs_tac.
  - unfold Active.onMulticastListUpdateNotificationReceived,
      Active.multicast_marshal_and_deliver.
    rewrite Hm. logs_tac.
  - unfold Active.onBlinkDataTxNotificationReceived. rewrite Hm. logs_tac.
Qed.

End Unresolved.

(** X10.  In both copies, an entry point whose listener method is not
    resolved never invokes the listener, and whenever it returns it has
    logged an error line. *)
Theorem unresolved_method_not_invoked
    {defs : UciDefs}
    (this_u : Unused.UwbEventManager) (n_u : Unused.notification)
    (this_a : Active.UwbEventManager) (n_a : Active.notification) :
  Unused.method_of this_u n_u = None ->
  Active.method_of this_a n_a = None ->
  (silent (Unused.handle this_u n_u) /\
   logs_error (Unused.handle this_u n_u)) /\
  (silent (Active.handle this_a n_a) /\
   logs_error (Active.handle this_a n_a)).
Proof.
  intros Hu Ha. repeat split.
  - apply unused_unresolved_silent; assumption.
  - apply unused_unresolved_logged; assumption.
  - apply active_unresolved_silent; assumption.
  - apply active_unresolved_logged; assumption.
Qed.

Lemma unresolved_method_not_invoked_witness :
  Unused.method_of (unused_loaded (MkVm (Some raising_env)))
    (Unused.BlinkDataTx 1) = None /\
  Active.method_of (active_loaded (MkVm (Some raising_env)))
    (Active.RawUci (Some [1; 2]) 2) = None /\
  (let run :=
     @Unused.handle sample_defs (unused_loaded (MkVm (Some raising_env)))
       (Unused.BlinkDataTx 1) (JState false) in
   existsb is_call (events_of run) = false /\
   existsb is_error_line (events_of run) = true) /\
  (let run :=
     @Active.handle sample_defs (active_loaded (MkVm (Some raising_env)))
       (Active.RawUci (Some [1; 2]) 2) (JState false) in
   existsb is_call (events_of run) = false /\
   existsb is_error_line (events_of run) = true).
Proof.
  split; [reflexivity | ]. split; [reflexivity | ].
  destruct (@unresolved_method_not_invoked sample_defs
              (unused_loaded (MkVm (Some raising_env))) (Unused.BlinkDataTx 1)
              (active_loaded (MkVm (Some raising_env)))
              (Active.RawUci (Some [1; 2]) 2) eq_refl eq_refl)
    as [[Su Lu] [Sa La]].
  split.
  - split; [apply Su | ].
    exact (Lu (JState false) _ tt (JState false) eq_refl).
  - split; [apply Sa | ].
    exact (La (JState false) _ tt (JState false) eq_refl).
Defined.

(* ===================================================================== *)
(** * Rejected notifications *)

(** X11.  In both copies, when no environment can be obtained for the
    calling thread, every entry point other than [onVendorDeviceInfo]
    returns with the state unchanged, having produced log lines only,
    among them the error line "jni env is null". *)
Theorem env_unavailable_logged_and_skipped
    {defs : UciDefs}
    (this_u : Unused.UwbEventManager) (n_u : Unused.notification)
    (this_a : Active.UwbEventManager) (n_a : Active.notification)
    (s : jstate) :
  ScopedJniEnv (Unused.mVm this_u) = None ->
  ScopedJniEnv (Active.mVm this_a) = None ->
  (forall data len, n_u <> Unused.VendorDeviceInfo data len) ->
  (exists evs fn,
      Unused.handle this_u n_u s = Done evs tt s /\
      forallb is_log evs = true /\
      In (EvLog LvlE fn "jni env is null") evs) /\
  (exists evs fn,
      Active.handle this_a n_a s = Done evs tt s /\
      forallb is_log evs = true /\
      In (EvLog LvlE fn "jni env is null") evs).
Proof.
  intros Hu Ha Hn. split.
  - apply unused_env_unavailable_skipped; assumption.
  - apply active_env_unavailable_skipped; assumption.
Qed.

Lemma env_unavailable_logged_and_skipped_witness :
  ScopedJniEnv (Unused.mVm (unused_loaded (MkVm None))) = None /\
  ScopedJniEnv (Active.mVm (active_loaded (MkVm None))) = None /\
  (exists evs fn,
      @Unused.handle sample_defs (unused_loaded (MkVm None))
        (Unused.RangeData sample_dltdoa_ntf) (JState false)
      = Done evs tt (JState false) /\
      forallb is_log evs = true /\
      In (EvLog LvlE fn "jni env is null") evs) /\
  (exists evs fn,
      @Active.handle sample_defs (active_loaded (MkVm None))
        (Active.RangeData sample_untagged_active) (JState false)
      = Done evs tt (JState false) /\
      forallb is_log evs = true /\
      In (EvLog LvlE fn "jni env is null") evs).
Proof.
  split; [reflexivity | ]. split; [reflexivity | ].
  apply (@env_unavailable_logged_and_skipped sample_defs
           (unused_loaded (MkVm None)) (Unused.RangeData sample_dltdoa_ntf)
           (active_loaded (MkVm None))
           (Active.RangeData sample_untagged_active) (JState false));
    [reflexivity | reflexivity | discriminate].
Defined.

(** X12.  The superseded copy rejects a multicast-list update whose
    controlee count exceeds the bound, and both copies reject a null
    notification: the handler returns with the state unchanged, having
    produced log lines only. *)
Theorem multicast_update_rejected
    {defs : UciDefs}
    (this_u : Unused.UwbEventManager) (this_a : Active.UwbEventManager)
    (ntf : Unused.tUWA_SESSION_UPDATE_MULTICAST_LIST_NTF) (s : jstate) :
  Unused.mc_no_of_controlees ntf > MAX_NUM_CONTROLLEES ->
  (exists evs,
      Unused.onMulticastListUpdateNotificationReceived this_u (Some ntf) s
      = Done evs tt s /\ forallb is_log evs = true) /\
  (exists evs,
      Unused.onMulticastListUpdateNotificationReceived this_u None s
      = Done evs tt s /\ forallb is_log evs = true) /\
  (exists evs,
      Active.onMulticastListUpdateNotificationReceived this_a None s
      = Done evs tt s /\ forallb is_log evs = true).
Proof.
  intros H. split; [apply unused_multicast_rejects_excess; assumption | ].
  unfold Unused.onMulticastListUpdateNotificationReceived,
    Active.onMulticastListUpdateNotificationReceived.
  split;
    [destruct (ScopedJniEnv (Unused.mVm this_u))
    | destruct (ScopedJniEnv (Active.mVm this_a))];
    eexists; split; reflexivity.
Qed.

Lemma multicast_update_rejected_witness :
  Unused.mc_no_of_controlees sample_multicast_excess_unused
  > @MAX_NUM_CONTROLLEES sample_defs /\
  exists evs,
    @Unused.onMulticastListUpdateNotificationReceived sample_defs
      (unused_loaded (MkVm (Some quiet_env)))
      (Some sample_multicast_excess_unused) (JState false)
    = Done evs tt (JState false) /\ forallb is_log evs = true.
Proof.
  split; [reflexivity | ].
  apply (@multicast_update_rejected sample_defs
           (unused_loaded (MkVm (Some quiet_env)))
           (active_loaded (MkVm (Some quiet_env)))
           sample_multicast_excess_unused (JState false)).
  reflexivity.
Defined.

(* ===================================================================== *)
(** * The marshalling of a multicast-list update *)

Lemma SetIntArrayRegion_run e old n buf s :
  Z.of_nat (length old) = n -> n <= Z.of_nat (length buf) ->
  SetIntArrayRegion (Some e) (JIntArray old) 0 n buf s
  = Done [] (JIntArray (map to_jint (firstn (Z.to_nat n) buf))) s.
Proof.
  intros Ho Hb.
  unfold SetIntArrayRegion, set_region, with_env, bind, ret.
  replace (Z.of_nat (length buf) <? n) with false
    by (symmetry; apply Z.ltb_ge; lia).
  replace (n <? 0) with false by (symmetry; apply Z.ltb_ge; lia).
  replace (Z.of_nat (length old) <? 0 + n) with false
    by (symmetry; apply Z.ltb_ge; lia).
  cbn. unfold splice. cbn.
  rewrite skipn_all2 by lia. rewrite app_nil_r. reflexivity.
Qed.

Lemma SetLongArrayRegion_run e old n buf s :
  Z.of_nat (length old) = n -> n <= Z.of_nat (length buf) ->
  SetLongArrayRegion (Some e) (JLongArray old) 0 n buf s
  = Done [] (JLongArray (map to_jlong (firstn (Z.to_nat n) buf))) s.
Proof.
  intros Ho Hb.
  unfold SetLongArrayRegion, set_region, with_env, bind, ret.
  replace (Z.of_nat (length buf) <? n) with false
    by (symmetry; apply Z.ltb_ge; lia).
  replace (n <? 0) with false by (symmetry; apply Z.ltb_ge; lia).
  replace (Z.of_nat (length old) <? 0 + n) with false
    by (symmetry; apply Z.ltb_ge; lia).
  cbn. unfold splice. cbn.
  rewrite skipn_all2 by lia. rewrite app_nil_r. reflexivity.
Qed.

Lemma firstn_S_nth {A} (l : list A) k a :
  nth_error l k = Some a -> firstn (S k) l = (firstn k l ++ [a])%list.
Proof.
  revert l. induction k as [ | k IH]; intros [ | h l] H; try discriminate.
  - injection H as <-. reflexivity.
  - cbn [firstn app]. f_equal. apply IH. assumption.
Qed.

Lemma read_at_run {A} (l : list A) k a s :
  nth_error l k = Some a -> read_at l (Z.of_nat k) s = Done [] a s.
Proof.
  intros H. unfold read_at.
  destruct (Z.ltb_spec (Z.of_nat k) 0); [lia | ].
  rewrite Nat2Z.id, H. reflexivity.
Qed.

Lemma list_set_copy (src : list Z) k a count :
  nth_error src k = Some a ->
  list_set (firstn k src ++ repeat 0 (S count))%list (Z.to_nat (Z.of_nat k)) a
  = (firstn (S k) src ++ repeat 0 count)%list.
Proof.
  intros H. rewrite Nat2Z.id.
  assert (Hk : length (firstn k src) = k).
  { rewrite length_firstn. apply Nat.min_l.
    apply Nat.lt_le_incl. apply nth_error_Some. congruence. }
  rewrite <- Hk at 2. cbn [repeat]. rewrite list_set_middle.
  rewrite (firstn_S_nth _ _ _ H), <- app_assoc. reflexivity.
Qed.

(** The copy loop of one native list into a local array. *)
Lemma copy_loop_run (src : list Z) s :
  forall count k,
    (k + count <= length src)%nat ->
    for_range (Z.of_nat k) count
      (fun i l => x <- read_at src i ;; ret (list_set l (Z.to_nat i) x))
      (firstn k src ++ repeat 0 count)%list s
    = Done [] (firstn (k + count) src) s.
Proof.
  induction count as [ | count IH]; intros k Hk.
  - cbn. rewrite app_nil_r, Nat.add_0_r. reflexivity.
  - destruct (nth_error src k) as [a | ] eqn:Ha;
      [ | apply nth_error_None in Ha; lia].
    cbn [for_range].
    assert (Hbody :
      (x <- read_at src (Z.of_nat k) ;;
       ret (list_set (firstn k src ++ repeat 0 (S count))%list
              (Z.to_nat (Z.of_nat k)) x)) s
      = Done [] (firstn (S k) src ++ repeat 0 count)%list s).
    { rewrite (bind_Done _ _ _ _ _ _ (read_at_run _ _ _ s Ha)).
      rewrite (list_set_copy _ _ _ _ Ha). reflexivity. }
    rewrite (bind_Done _ _ _ _ _ _ Hbody).
    replace (Z.of_nat k + 1) with (Z.of_nat (S k)) by lia.
    rewrite (IH (S k)) by lia.
    replace (S k + count)%nat with (k + S count)%nat by lia. reflexivity.
Qed.

(** The copy loop of two native lists into two local arrays. *)
Lemma pair_copy_loop_run (src1 src2 : list Z) s :
  forall count k,
    (k + count <= length src1)%nat ->
    (k + count <= length src2)%nat ->
    for_range (Z.of_nat k) count
      (fun i '(l1, l2) =>
         a <- read_at src1 i ;;
         b <- read_at src2 i ;;
         ret (list_set l1 (Z.to_nat i) a, list_set l2 (Z.to_nat i) b))
      ((firstn k src1 ++ repeat 0 count)%list,
       (firstn k src2 ++ repeat 0 count)%list) s
    = Done [] (firstn (k + count) src1, firstn (k + count) src2) s.
Proof.
  induction count as [ | count IH]; intros k Hk1 Hk2.
  - cbn. rewrite !app_nil_r, Nat.add_0_r. reflexivity.
  - destruct (nth_error src1 k) as [a | ] eqn:Ha;
      [ | apply nth_error_None in Ha; lia].
    destruct (nth_error src2 k) as [b | ] eqn:Hb;
      [ | apply nth_error_None in Hb; lia].
    cbn [for_range].
    assert (Hbody :
      (a <- read_at src1 (Z.of_nat k) ;;
       b <- read_at src2 (Z.of_nat k) ;;
       ret (list_set (firstn k src1 ++ repeat 0 (S count))%list
              (Z.to_nat (Z.of_nat k)) a,
            list_set (firstn k src2 ++ repeat 0 (S count))%list
              (Z.to_nat (Z.of_nat k)) b)) s
      = Done [] ((firstn (S k) src1 ++ repeat 0 count)%list,
                 (firstn (S k) src2 ++ repeat 0 count)%list) s).
    { rewrite (bind_Done _ _ _ _ _ _ (read_at_run _ _ _ s Ha)).
      rewrite (bind_Done _ _ _ _ _ _ (read_at_run _ _ _ s Hb)).
      rewrite (list_set_copy _ _ _ _ Ha), (list_set_copy _ _ _ _ Hb).
      reflexivity. }
    rewrite (bind_Done _ _ _ _ _ _ Hbody).
    replace (Z.of_nat k + 1) with (Z.of_nat (S k)) by lia.
    rewrite (IH (S k)) by lia.
    replace (S k + count)%nat with (k + S count)%nat by lia. reflexivity.
Qed.

Section MulticastMarshalling.
Context {defs : UciDefs}.
Variable e : JNIEnv.

Lemma unused_multicast_fill_run ntf s :
  let n := Z.to_nat (Unused.mc_no_of_controlees ntf) in
  0 <= Unused.mc_no_of_controlees ntf ->
  Unused.multicast_lists_ok ntf = true ->
  Unused.multicast_fill_arrays (Some e) ntf
    (JIntArray (repeat 0 n)) (JLongArray (repeat 0 n)) (JIntArray (repeat 0 n))
    s
  = Done []
      (JIntArray
         (map to_jint (firstn n (Unused.mc_controlee_mac_address_list ntf))),
       JLongArray (map to_jlong (firstn n (Unused.mc_subsession_id_list ntf))),
       JIntArray (map to_jint (firstn n (Unused.mc_status_list ntf)))) s.
Proof.
  intros n Hn Hok. unfold Unused.multicast_lists_ok in Hok.
  rewrite !andb_true_iff, !Z.leb_le in Hok. destruct Hok as [[Hm Hs] Ht].
  unfold Unused.multicast_fill_arrays.
  destruct (Z.gtb_spec (Unused.mc_no_of_controlees ntf) 0) as [Hpos | Hz].
  - unfold for_int. fold n.
    pose proof (pair_copy_loop_run
                  (Unused.mc_controlee_mac_address_list ntf)
                  (Unused.mc_status_list ntf) s n 0
                  ltac:(lia) ltac:(lia)) as Hl1.
    pose proof (copy_loop_run (Unused.mc_subsession_id_list ntf) s n 0
                  ltac:(lia)) as Hl2.
    cbn [firstn app Z.of_nat Nat.add] in Hl1, Hl2.
    rewrite (bind_Done _ _ _ _ _ _ Hl1). cbv beta iota.
    rewrite (bind_Done _ _ _ _ _ _ Hl2).
    assert (Hf : forall l : list Z,
               (n <= length l)%nat ->
               Unused.mc_no_of_controlees ntf
               <= Z.of_nat (length (firstn n l))).
    { intros l Hl. rewrite length_firstn. lia. }
    assert (Hz : Z.of_nat (length (repeat 0 n))
                 = Unused.mc_no_of_controlees ntf)
      by (rewrite repeat_length; lia).
    rewrite (bind_Done _ _ _ _ _ _
               (SetIntArrayRegion_run e (repeat 0 n) _
                  (firstn n (Unused.mc_controlee_mac_address_list ntf)) s
                  Hz (Hf (Unused.mc_controlee_mac_address_list ntf) ltac:(lia)))).
    rewrite (bind_Done _ _ _ _ _ _
               (SetLongArrayRegion_run e (repeat 0 n) _
                  (firstn n (Unused.mc_subsession_id_list ntf)) s
                  Hz (Hf (Unused.mc_subsession_id_list ntf) ltac:(lia)))).
    rewrite (bind_Done _ _ _ _ _ _
               (SetIntArrayRegion_run e (repeat 0 n) _
                  (firstn n (Unused.mc_status_list ntf)) s
                  Hz (Hf (Unused.mc_status_list ntf) ltac:(lia)))).
    fold n. rewrite !firstn_firstn, Nat.min_id. reflexivity.
  - assert (n = 0%nat) as -> by lia. reflexivity.
Qed.

Lemma active_multicast_fill_run ntf s :
  let n := Z.to_nat (Active.mc_no_of_controlees ntf) in
  0 <= Active.mc_no_of_controlees ntf ->
  Active.multicast_lists_ok ntf = true ->
  Active.multicast_fill_arrays (Some e) ntf
    (JLongArray (repeat 0 n)) (JIntArray (repeat 0 n)) s
  = Done []
      (JLongArray (map to_jlong (firstn n (Active.mc_subsession_id_list ntf))),
       JIntArray (map to_jint (firstn n (Active.mc_status_list ntf)))) s.
Proof.
  intros n Hn Hok. unfold Active.multicast_lists_ok in Hok.
  rewrite !andb_true_iff, !Z.leb_le in Hok. destruct Hok as [Hs Ht].
  unfold Active.multicast_fill_arrays.
  destruct (Z.gtb_spec (Active.mc_no_of_controlees ntf) 0) as [Hpos | Hz].
  - unfold for_int. fold n.
    pose proof (copy_loop_run (Active.mc_status_list ntf) s n 0
                  ltac:(lia)) as Hl1.
    pose proof (copy_loop_run (Active.mc_subsession_id_list ntf) s n 0
                  ltac:(lia)) as Hl2.
    cbn [firstn app Z.of_nat Nat.add] in Hl1, Hl2.
    rewrite (bind_Done _ _ _ _ _ _ Hl1).
    rewrite (bind_Done _ _ _ _ _ _ Hl2).
    assert (Hf : forall l : list Z,
               (n <= length l)%nat ->
               Active.mc_no_of_controlees ntf
               <= Z.of_nat (length (firstn n l))).
    { intros l Hl. rewrite length_firstn. lia. }
    assert (Hz : Z.of_nat (length (repeat 0 n))
                 = Active.mc_no_of_controlees ntf)
      by (rewrite repeat_length; lia).
    rewrite (bind_Done _ _ _ _ _ _
               (SetLongArrayRegion_run e (repeat 0 n) _
                  (firstn n (Active.mc_subsession_id_list ntf)) s
                  Hz (Hf (Active.mc_subsession_id_list ntf) ltac:(lia)))).
    rewrite (bind_Done _ _ _ _ _ _
               (SetIntArrayRegion_run e (repeat 0 n) _
                  (firstn n (Active.mc_status_list ntf)) s
                  Hz (Hf (Active.mc_status_list ntf) ltac:(lia)))).
    fold n. rewrite !firstn_firstn, Nat.min_id. reflexivity.
  - assert (n = 0%nat) as -> by lia. reflexivity.
Qed.

(** X13.  In the superseded copy a multicast-list update with a controlee
    count within the bound is delivered once, as an update object over
    three parallel arrays of exactly that many elements: the first
    entries of the native address, sub-session and status lists, the
    addresses and statuses read as 32-bit signed and the sub-session
    identifiers as 64-bit signed. *)
Theorem unused_multicast_update_marshalled
    (this : Unused.UwbEventManager) (mid : jmethodID)
    (ntf : Unused.tUWA_SESSION_UPDATE_MULTICAST_LIST_NTF) (s : jstate) :
  ScopedJniEnv (Unused.mVm this) = Some e ->
  Unused.mOnMulticastListUpdateNotificationReceived this = Some mid ->
  0 <= Unused.mc_no_of_controlees ntf <= MAX_NUM_CONTROLLEES ->
  Unused.multicast_lists_ok ntf = true ->
  let n := Z.to_nat (Unused.mc_no_of_controlees ntf) in
  let macs := map to_jint (firstn n (Unused.mc_controlee_mac_address_list ntf)) in
  let subs := map to_jlong (firstn n (Unused.mc_subsession_id_list ntf)) in
  let stats := map to_jint (firstn n (Unused.mc_status_list ntf)) in
  let obj :=
    JObject (Unused.mMulticastUpdateListDataClass this)
      (MethodID "<init>" "(JII[I[J[I)V")
      [ JLong (to_jlong (Unused.mc_session_id ntf));
        JInt (to_jint (Unused.mc_remaining_list ntf));
        JInt (to_jint (Unused.mc_no_of_controlees ntf));
        JIntArray macs; JLongArray subs; JIntArray stats ] in
  (length macs = n /\ length subs = n /\ length stats = n) /\
  Unused.onMulticastListUpdateNotificationReceived this (Some ntf) s
  = Done (EvLog LvlI Unused.fn_multicast "enter;"
          :: EvNew (JIntArray (repeat 0 n))
          :: EvNew (JLongArray (repeat 0 n))
          :: EvNew (JIntArray (repeat 0 n))
          :: EvNew obj
          :: delivery_trace e s (Unused.mObject this) mid [obj]
               Unused.fn_multicast "fail to send Multicast update list ntf")
         tt (JState false).
Proof.
  intros Henv Hmid Hn Hok n macs subs stats obj.
  split.
  - unfold Unused.multicast_lists_ok in Hok.
    rewrite !andb_true_iff, !Z.leb_le in Hok. destruct Hok as [[Hm Hs] Ht].
    unfold macs, subs, stats. rewrite !length_map, !length_firstn. lia.
  - unfold Unused.onMulticastListUpdateNotificationReceived.
    rewrite Henv.
    destruct (Z.gtb_spec (Unused.mc_no_of_controlees ntf) MAX_NUM_CONTROLLEES);
      [lia | ].
    unfold Unused.multicast_marshal_and_deliver. rewrite Hmid.
    erewrite bind_Done by reflexivity.
    erewrite bind_Done by reflexivity.
    erewrite bind_Done by reflexivity.
    erewrite bind_Done by reflexivity.
    fold n.
    rewrite (bind_Done _ _ _ _ _ _
               (unused_multicast_fill_run ntf s ltac:(lia) Hok)).
    cbv beta iota. fold n macs subs stats.
    erewrite bind_Done by reflexivity.
    erewrite bind_Done by reflexivity.
    fold obj. rewrite delivery_run. reflexivity.
Qed.

(** X14.  The active copy marshals a multicast-list update of any
    controlee count its native lists have room for: it is delivered once,
    as an update object over two parallel arrays of exactly that many
    elements, the first entries of the native sub-session and status
    lists. *)
Theorem active_multicast_update_marshalled
    (this : Active.UwbEventManager) (mid : jmethodID)
    (ntf : Active.tUWA_SESSION_UPDATE_MULTICAST_LIST_NTF) (s : jstate) :
  ScopedJniEnv (Active.mVm this) = Some e ->
  Active.mOnMulticastListUpdateNotificationReceived this = Some mid ->
  0 <= Active.mc_no_of_controlees ntf ->
  Active.multicast_lists_ok ntf = true ->
  let n := Z.to_nat (Active.mc_no_of_controlees ntf) in
  let subs := map to_jlong (firstn n (Active.mc_subsession_id_list ntf)) in
  let stats := map to_jint (firstn n (Active.mc_status_list ntf)) in
  let obj :=
    JObject (Active.mMulticastUpdateListDataClass this)
      (MethodID "<init>" "(JII[J[I)V")
      [ JLong (to_jlong (Active.mc_session_id ntf));
        JInt (to_jint (Active.mc_remaining_list ntf));
        JInt (to_jint (Active.mc_no_of_controlees ntf));
        JLongArray subs; JIntArray stats ] in
  (length subs = n /\ length stats = n) /\
  Active.onMulticastListUpdateNotificationReceived this (Some ntf) s
  = Done (EvLog LvlI Active.fn_multicast "enter;"
          :: EvNew (JLongArray (repeat 0 n))
          :: EvNew (JIntArray (repeat 0 n))
          :: EvNew obj
          :: delivery_trace e s (Active.mObject this) mid [obj]
               Active.fn_multicast "fail to send Multicast update list ntf")
         tt (JState false).
Proof.
  intros Henv Hmid Hn Hok n subs stats obj.
  split.
  - unfold Active.multicast_lists_ok in Hok.
    rewrite !andb_true_iff, !Z.leb_le in Hok. destruct Hok as [Hs Ht].
    unfold subs, stats. rewrite !length_map, !length_firstn. lia.
  - unfold Active.onMulticastListUpdateNotificationReceived.
    rewrite Henv.
    unfold Active.multicast_marshal_and_deliver. rewrite Hmid.
    erewrite bind_Done by reflexivity.
    erewrite bind_Done by reflexivity.
    erewrite bind_Done by reflexivity.
    fold n.
    rewrite (bind_Done _ _ _ _ _ _
               (active_multicast_fill_run ntf s ltac:(lia) Hok)).
    cbv beta iota. fold n subs stats.
    erewrite bind_Done by reflexivity.
    erewrite bind_Done by reflexivity.
    fold obj. rewrite delivery_run. reflexivity.
Qed.

End MulticastMarshalling.

(* ===================================================================== *)
(** * The ranging notification, end to end *)

(** The copy loop of a measurement array: starting at [k] with [count]
    records to go, every remaining slot receives the marshalling of its
    record. *)
Lemma marshal_loop_run {M} (measure : M -> jni jvalue) e cls
    (records : list M) s :
  (forall m, In m records -> exists evs o, measure m s = Done evs o s) ->
  forall count k objs,
    (k + count <= length records)%nat ->
    length objs = k ->
    exists evs objs',
      for_range (Z.of_nat k) count
        (fun i arr =>
           m <- read_at records i ;;
           o <- measure m ;;
           SetObjectArrayElement (Some e) arr i o)
        (JObjectArray cls (objs ++ repeat JNull count)) s
      = Done evs (JObjectArray cls (objs ++ objs')) s /\
      Forall2 (fun m o =>
                 In m records /\ exists evs', measure m s = Done evs' o s)
        (firstn count (skipn k records)) objs'.
Proof.
  intros Hall. induction count as [ | count IH]; intros k objs Hk Hlen.
  - exists [], []. split; [reflexivity | constructor].
  - destruct (nth_error records k) as [m | ] eqn:Hm;
      [ | apply nth_error_None in Hm; lia].
    destruct (Hall m (nth_error_In _ _ Hm)) as (ev & o & Eo).
    destruct (IH (S k) (objs ++ [o])%list ltac:(lia)
                ltac:(rewrite length_app; cbn; lia))
      as (evs & objs' & Eloop & Hrel).
    exists (ev ++ evs)%list, (o :: objs'). split.
    + cbn [for_range repeat].
      assert (Hbody :
        (m <- read_at records (Z.of_nat k) ;;
         o <- measure m ;;
         SetObjectArrayElement (Some e)
           (JObjectArray cls (objs ++ JNull :: repeat JNull count))
           (Z.of_nat k) o) s
        = Done ev (JObjectArray cls ((objs ++ [o]) ++ repeat JNull count)) s).
      { rewrite (bind_Done _ _ _ _ _ _ (read_at_run _ _ _ s Hm)).
        rewrite (bind_Done _ _ _ _ _ _ Eo).
        unfold SetObjectArrayElement, with_env.
        destruct (Z.ltb_spec (Z.of_nat k) 0); [lia | ].
        destruct (Z.leb_spec
                    (Z.of_nat (length (objs ++ JNull :: repeat JNull count)))
                    (Z.of_nat k)) as [Hge | _].
        { rewrite length_app in Hge. cbn in Hge. lia. }
        cbn [orb ret]. rewrite Nat2Z.id, <- Hlen, list_set_middle.
        rewrite <- app_assoc, !app_nil_r. reflexivity. }
      rewrite (bind_Done _ _ _ _ _ _ Hbody).
      replace (Z.of_nat k + 1) with (Z.of_nat (S k)) by lia.
      rewrite Eloop, <- app_assoc. reflexivity.
    + rewrite (firstn_skipn_nth _ _ _ _ Hm). constructor; [ | assumption].
      split; [exact (nth_error_In _ _ Hm) | ]. exists ev. assumption.
Qed.

(** A measurement array of [n] slots filled from the first [n] records. *)
Lemma marshal_array_run {M} (measure : M -> jni jvalue) e cls
    (records : list M) (n : Z) s :
  (forall m, In m records -> exists evs o, measure m s = Done evs o s) ->
  0 <= n <= Z.of_nat (length records) ->
  exists evs elems,
    for_int n
      (fun i arr =>
         m <- read_at records i ;;
         o <- measure m ;;
         SetObjectArrayElement (Some e) arr i o)
      (JObjectArray cls (repeat JNull (Z.to_nat n))) s
    = Done evs (JObjectArray cls elems) s /\
    Z.of_nat (length elems) = n /\
    Forall2 (fun m o =>
               In m records /\ exists evs', measure m s = Done evs' o s)
      (firstn (Z.to_nat n) records) elems.
Proof.
  intros Hall Hn.
  destruct (marshal_loop_run measure e cls records s Hall (Z.to_nat n) 0%nat
              [] ltac:(lia) eq_refl)
    as (evs & elems & Eloop & Hrel).
  cbn [app skipn Z.of_nat] in Eloop, Hrel.
  exists evs, elems. split; [exact Eloop | split; [ | exact Hrel] ].
  apply Forall2_length in Hrel. rewrite <- Hrel, length_firstn. lia.
Qed.

Lemma silent_done {A} (c : jni A) s evs a s' :
  silent c -> c s = Done evs a s' -> existsb is_call evs = false.
Proof. intros Hc E. specialize (Hc s). rewrite E in Hc. exact Hc. Qed.

Section RangingEndToEnd.
Context {defs : UciDefs}.
Variable e : JNIEnv.

(** Lines 79-89 of the superseded copy: the vendor payload is a byte
    array when its length is positive and null otherwise. *)
Lemma vendor_specific_data_value ntf s :
  Unused.vendor_ok ntf = true ->
  let len := Unused.vs_len (Unused.vendor_specific_ntf ntf) in
  exists evs,
    Unused.vendor_specific_data (Some e) ntf s
    = Done evs
        (if len >? 0
         then JByteArray
                (map to_jbyte
                   (firstn (Z.to_nat len)
                      (Unused.vs_data (Unused.vendor_specific_ntf ntf))))
         else JNull) s.
Proof.
  intros H len. unfold Unused.vendor_ok in H. apply Z.leb_le in H.
  unfold Unused.vendor_specific_data. fold len.
  destruct (Z.gtb_spec len 0).
  - rewrite new_byte_array_filled by (unfold len in *; lia). eauto.
  - eexists. reflexivity.
Qed.

Lemma unused_range_handler_run this ntf mid s ev v eo obj :
  ScopedJniEnv (Unused.mVm this) = Some e ->
  Unused.mOnRangeDataNotificationReceived this = Some mid ->
  Unused.vendor_specific_data (Some e) ntf s = Done ev v s ->
  Unused.range_data_object this (Some e) ntf v s = Done eo obj s ->
  is_null obj = false ->
  Unused.onRangeDataNotificationReceived this ntf s
  = Done ((ev ++ eo)
          ++ range_delivery_trace e s (Unused.mObject this) mid [obj]
               Unused.fn_range)
         tt (JState false) /\
  existsb is_call (ev ++ eo) = false.
Proof.
  intros Henv Hmid Ev Eo Hnull. split.
  - unfold Unused.onRangeDataNotificationReceived. rewrite Henv.
    rewrite (bind_Done _ _ _ _ _ _ Ev), (bind_Done _ _ _ _ _ _ Eo).
    unfold Unused.deliver_range_data. rewrite Hmid, Hnull. cbn [negb].
    rewrite range_delivery_run, app_assoc. reflexivity.
  - rewrite existsb_app.
    rewrite (silent_done _ _ _ _ _
               (silent_unused_vendor_specific_data (Some e) ntf) Ev).
    rewrite (silent_done _ _ _ _ _
               (silent_unused_range_data_object this (Some e) ntf v) Eo).
    reflexivity.
Qed.

Lemma active_range_handler_run this ntf mid s eo obj :
  ScopedJniEnv (Active.mVm this) = Some e ->
  Active.mOnRangeDataNotificationReceived this = Some mid ->
  Active.range_data_object this (Some e) ntf s = Done eo obj s ->
  Active.onRangeDataNotificationReceived this ntf s
  = Done (eo
          ++ range_delivery_trace e s (Active.mObject this) mid [obj]
               Active.fn_range)
         tt (JState false) /\
  existsb is_call eo = false.
Proof.
  intros Henv Hmid Eo. split.
  - unfold Active.onRangeDataNotificationReceived. rewrite Henv.
    rewrite (bind_Done _ _ _ _ _ _ Eo).
    unfold Active.deliver_range_data. rewrite Hmid.
    rewrite range_delivery_run. reflexivity.
  - exact (silent_done _ _ _ _ _
             (silent_active_range_data_object this (Some e) ntf) Eo).
Qed.

End RangingEndToEnd.

Section RangingBranches.
Context {defs : UciDefs}.
Variable e : JNIEnv.

Lemma Forall2_Forall_r {A B} (R : A -> B -> Prop) (P : B -> Prop) l l' :
  (forall a b, R a b -> P b) -> Forall2 R l l' -> Forall P l'.
Proof. intros H. induction 1; constructor; eauto. Qed.

(** X15.  In the superseded copy a two-way notification whose view holds
    [no_of_measurements] well-formed records is delivered once: the
    listener receives a ranging-data object built by the two-way
    constructor over the vendor payload and an array of exactly
    [no_of_measurements] objects, the [i]-th being the marshalling of the
    [i]-th record, each with complementary address and padding
    lengths. *)
Theorem unused_twoway_notification_delivered
    (this : Unused.UwbEventManager) (mid : jmethodID)
    (ntf : Unused.tUWA_RANGE_DATA_NTF) (s : jstate) :
  ScopedJniEnv (Unused.mVm this) = Some e ->
  Unused.mOnRangeDataNotificationReceived this = Some mid ->
  Unused.ranging_measure_type ntf = MEASUREMENT_TYPE_TWOWAY ->
  Unused.twr_view_ok ntf = true ->
  Unused.vendor_ok ntf = true ->
  exists pre elems v,
    let obj :=
      JObject (Unused.mRangeDataClass this)
        (MethodID "<init>"
           "(JJIJIII[Lcom/android/server/uwb/data/UwbTwoWayMeasurement;[B)V")
        (Unused.range_data_args ntf
           (JObjectArray (Unused.mRangingTwoWayMeasuresClass this) elems) v) in
    Unused.onRangeDataNotificationReceived this ntf s
    = Done (pre ++ range_delivery_trace e s (Unused.mObject this) mid [obj]
                     Unused.fn_range) tt (JState false) /\
    existsb is_call pre = false /\
    (exists ev, Unused.vendor_specific_data (Some e) ntf s = Done ev v s) /\
    Z.of_nat (length elems) = Unused.no_of_measurements ntf /\
    Forall (complementary_lengths (Unused.mac_addr_mode_indicator ntf) 14)
      elems /\
    Forall2 (fun m o =>
               exists evs,
                 Unused.twr_measure this (Some e)
                   (Unused.mac_addr_mode_indicator ntf) m s = Done evs o s)
      (firstn (Z.to_nat (Unused.no_of_measurements ntf))
         (Unused.twr_range_measr (Unused.ranging_measures ntf)))
      elems.
Proof.
  intros Henv Hmid Htag Hok Hv.
  unfold Unused.twr_view_ok in Hok. rewrite !andb_true_iff, !Z.leb_le in Hok.
  destruct Hok as [[Hn0 Hn] Hall]. rewrite forallb_forall in Hall.
  destruct (vendor_specific_data_value e ntf s Hv) as (ev & Ev).
  set (v := if Unused.vs_len (Unused.vendor_specific_ntf ntf) >? 0
            then _ else JNull) in Ev.
  assert (Hrec : forall m,
             In m (Unused.twr_range_measr (Unused.ranging_measures ntf)) ->
             exists evs o,
               Unused.twr_measure this (Some e)
                 (Unused.mac_addr_mode_indicator ntf) m s = Done evs o s).
  { intros m Hm.
    destruct (twr_measure_unused this e (Unused.mac_addr_mode_indicator ntf)
                m s (Hall m Hm)) as (evs & o & Eo & _).
    eauto. }
  destruct (marshal_array_run _ e (Unused.mRangingTwoWayMeasuresClass this)
              _ (Unused.no_of_measurements ntf) s Hrec ltac:(lia))
    as (el & elems & Eloop & Hlen & Hrel).
  assert (Eo : exists eo,
             Unused.range_data_object this (Some e) ntf v s
             = Done eo
                 (JObject (Unused.mRangeDataClass this)
                    (MethodID "<init>"
                       "(JJIJIII[Lcom/android/server/uwb/data/UwbTwoWayMeasurement;[B)V")
                    (Unused.range_data_args ntf
                       (JObjectArray (Unused.mRangingTwoWayMeasuresClass this)
                          elems) v)) s).
  { unfold Unused.range_data_object. rewrite Htag, Z.eqb_refl.
    unfold Unused.range_data_twoway.
    erewrite bind_Done by reflexivity.
    rewrite (bind_Done _ _ _ _ _ _ (NewObjectArray_run e _ _ _ s)).
    rewrite (bind_Done _ _ _ _ _ _ Eloop).
    erewrite bind_Done by reflexivity.
    rewrite NewObject_run. eexists. reflexivity. }
  destruct Eo as (eo & Eo).
  destruct (unused_range_handler_run e this ntf mid s ev v eo _
              Henv Hmid Ev Eo eq_refl) as [Erun Hsilent].
  exists (ev ++ eo)%list, elems, v. cbv zeta.
  split; [exact Erun | ]. split; [exact Hsilent | ].
  split; [eauto | ]. split; [exact Hlen | ]. split.
  - eapply Forall2_Forall_r; [ | exact Hrel].
    intros m o (Hin & evs & Em).
    destruct (twr_measure_unused this e (Unused.mac_addr_mode_indicator ntf)
                m s (Hall m Hin)) as (evs' & o' & Eo' & Hc).
    rewrite Em in Eo'. injection Eo' as _ <-. exact Hc.
  - eapply Forall2_impl; [ | exact Hrel].
    intros m o (_ & H). exact H.
Qed.

(** X16.  The same in the active copy, whose two-way records carry no
    RSSI and whose notification carries no vendor payload. *)
Theorem active_twoway_notification_delivered
    (this : Active.UwbEventManager) (mid : jmethodID)
    (ntf : Active.tUWA_RANGE_DATA_NTF) (s : jstate) :
  ScopedJniEnv (Active.mVm this) = Some e ->
  Active.mOnRangeDataNotificationReceived this = Some mid ->
  Active.ranging_measure_type ntf = MEASUREMENT_TYPE_TWOWAY ->
  Active.twr_view_ok ntf = true ->
  exists pre elems,
    let obj :=
      JObject (Active.mRangeDataClass this)
        (MethodID "<init>"
           "(JJIJIII[Lcom/android/uwb/data/UwbTwoWayMeasurement;)V")
        (Active.range_data_args ntf
           (JObjectArray (Active.mRangingTwoWayMeasuresClass this) elems)) in
    Active.onRangeDataNotificationReceived this ntf s
    = Done (pre ++ range_delivery_trace e s (Active.mObject this) mid [obj]
                     Active.fn_range) tt (JState false) /\
    existsb is_call pre = false /\
    Z.of_nat (length elems) = Active.no_of_measurements ntf /\
    Forall (complementary_lengths (Active.mac_addr_mode_indicator ntf) 13)
      elems /\
    Forall2 (fun m o =>
               exists evs,
                 Active.twr_measure this (Some e)
                   (Active.mac_addr_mode_indicator ntf) m s = Done evs o s)
      (firstn (Z.to_nat (Active.no_of_measurements ntf))
         (Active.twr_range_measr (Active.ranging_measures ntf)))
      elems.
Proof.
  intros Henv Hmid Htag Hok.
  unfold Active.twr_view_ok in Hok. rewrite !andb_true_iff, !Z.leb_le in Hok.
  destruct Hok as [[Hn0 Hn] Hall]. rewrite forallb_forall in Hall.
  assert (Hrec : forall m,
             In m (Active.twr_range_measr (Active.ranging_measures ntf)) ->
             exists evs o,
               Active.twr_measure this (Some e)
                 (Active.mac_addr_mode_indicator ntf) m s = Done evs o s).
  { intros m Hm.
    destruct (twr_measure_active this e (Active.mac_addr_mode_indicator ntf)
                m s (Hall m Hm)) as (evs & o & Eo & _).
    eauto. }
  destruct (marshal_array_run _ e (Active.mRangingTwoWayMeasuresClass this)
              _ (Active.no_of_measurements ntf) s Hrec ltac:(lia))
    as (el & elems & Eloop & Hlen & Hrel).
  assert (Eo : exists eo,
             Active.range_data_object this (Some e) ntf s
             = Done eo
                 (JObject (Active.mRangeDataClass this)
                    (MethodID "<init>"
                       "(JJIJIII[Lcom/android/uwb/data/UwbTwoWayMeasurement;)V")
                    (Active.range_data_args ntf
                       (JObjectArray (Active.mRangingTwoWayMeasuresClass this)
                          elems))) s).
  { unfold Active.range_data_object. rewrite Htag, Z.eqb_refl.
    unfold Active.range_data_twoway.
    erewrite bind_Done by reflexivity.
    rewrite (bind_Done _ _ _ _ _ _ (NewObjectArray_run e _ _ _ s)).
    rewrite (bind_Done _ _ _ _ _ _ Eloop).
    erewrite bind_Done by reflexivity.
    rewrite NewObject_run. eexists. reflexivity. }
  destruct Eo as (eo & Eo).
  destruct (active_range_handler_run e this ntf mid s eo _ Henv Hmid Eo)
    as [Erun Hsilent].
  exists eo, elems. cbv zeta.
  split; [exact Erun | ]. split; [exact Hsilent | ].
  split; [exact Hlen | ]. split.
  - eapply Forall2_Forall_r; [ | exact Hrel].
    intros m o (Hin & evs & Em).
    destruct (twr_measure_active this e (Active.mac_addr_mode_indicator ntf)
                m s (Hall m Hin)) as (evs' & o' & Eo' & Hc).
    rewrite Em in Eo'. injection Eo' as _ <-. exact Hc.
  - eapply Forall2_impl; [ | exact Hrel].
    intros m o (_ & H). exact H.
Qed.

(** X17.  In the superseded copy a downlink-TDoA notification whose view
    holds [no_of_measurements] well-formed records is delivered once: the
    listener receives a ranging-data object built by the downlink-TDoA
    constructor over the vendor payload and an array of exactly
    [no_of_measurements] objects, the [i]-th being the marshalling of the
    [i]-th record. *)
Theorem dltdoa_notification_delivered
    (this : Unused.UwbEventManager) (mid : jmethodID)
    (ntf : Unused.tUWA_RANGE_DATA_NTF) (s : jstate) :
  ScopedJniEnv (Unused.mVm this) = Some e ->
  Unused.mOnRangeDataNotificationReceived this = Some mid ->
  Unused.ranging_measure_type ntf <> MEASUREMENT_TYPE_TWOWAY ->
  Unused.ranging_measure_type ntf = MEASUREMENT_TYPE_DLTDOA ->
  Unused.dltdoa_view_ok ntf = true ->
  Unused.vendor_ok ntf = true ->
  exists pre elems v,
    let obj :=
      JObject (Unused.mRangeDataClass this)
        (MethodID "<init>"
           "(JJIJBBI[Lcom/android/server/uwb/data/UwbDownLinkTDoAMeasurement;[B)V")
        (Unused.range_data_args ntf
           (JObjectArray (Unused.mRangeDlTdoaMeasuresClass this) elems) v) in
    Unused.onRangeDataNotificationReceived this ntf s
    = Done (pre ++ range_delivery_trace e s (Unused.mObject this) mid [obj]
                     Unused.fn_range) tt (JState false) /\
    existsb is_call pre = false /\
    (exists ev, Unused.vendor_specific_data (Some e) ntf s = Done ev v s) /\
    Z.of_nat (length elems) = Unused.no_of_measurements ntf /\
    Forall2 (fun m o =>
               exists evs,
                 Unused.dltdoa_measure this (Some e)
                   (Unused.mac_addr_mode_indicator ntf) m s = Done evs o s)
      (firstn (Z.to_nat (Unused.no_of_measurements ntf))
         (Unused.dltdoa_range_measr (Unused.ranging_measures ntf)))
      elems.
Proof.
  intros Henv Hmid Hnot Htag Hok Hv.
  unfold Unused.dltdoa_view_ok in Hok.
  rewrite !andb_true_iff, !Z.leb_le in Hok.
  destruct Hok as [[Hn0 Hn] Hall]. rewrite forallb_forall in Hall.
  destruct (vendor_specific_data_value e ntf s Hv) as (ev & Ev).
  set (v := if Unused.vs_len (Unused.vendor_specific_ntf ntf) >? 0
            then _ else JNull) in Ev.
  assert (Hrec : forall m,
             In m (Unused.dltdoa_range_measr (Unused.ranging_measures ntf)) ->
             exists evs o,
               Unused.dltdoa_measure this (Some e)
                 (Unused.mac_addr_mode_indicator ntf) m s = Done evs o s).
  { intros m Hm.
    destruct (dltdoa_measure_run this e (Unused.mac_addr_mode_indicator ntf)
                m s (Hall m Hm))
      as (? & ? & ? & ? & ? & ? & ? & ? & ? & ? & o & _ & _ & _ & _ & _ & Eo
          & _).
    eauto. }
  destruct (marshal_array_run _ e (Unused.mRangeDlTdoaMeasuresClass this)
              _ (Unused.no_of_measurements ntf) s Hrec ltac:(lia))
    as (el & elems & Eloop & Hlen & Hrel).
  assert (Eo : exists eo,
             Unused.range_data_object this (Some e) ntf v s
             = Done eo
                 (JObject (Unused.mRangeDataClass this)
                    (MethodID "<init>"
                       "(JJIJBBI[Lcom/android/server/uwb/data/UwbDownLinkTDoAMeasurement;[B)V")
                    (Unused.range_data_args ntf
                       (JObjectArray (Unused.mRangeDlTdoaMeasuresClass this)
                          elems) v)) s).
  { unfold Unused.range_data_object.
    destruct (Z.eqb_spec (Unused.ranging_measure_type ntf)
                MEASUREMENT_TYPE_TWOWAY); [contradiction | ].
    rewrite Htag, Z.eqb_refl.
    unfold Unused.range_data_dltdoa.
    erewrite bind_Done by reflexivity.
    rewrite (bind_Done _ _ _ _ _ _ (NewObjectArray_run e _ _ _ s)).
    rewrite (bind_Done _ _ _ _ _ _ Eloop).
    erewrite bind_Done by reflexivity.
    rewrite NewObject_run. eexists. reflexivity. }
  destruct Eo as (eo & Eo).
  destruct (unused_range_handler_run e this ntf mid s ev v eo _
              Henv Hmid Ev Eo eq_refl) as [Erun Hsilent].
  exists (ev ++ eo)%list, elems, v. cbv zeta.
  split; [exact Erun | ]. split; [exact Hsilent | ].
  split; [eauto | ]. split; [exact Hlen | ].
  eapply Forall2_impl; [ | exact Hrel].
  intros m o (_ & H). exact H.
Qed.

Lemma owr_aoa_measure_run this mode m s :
  Unused.owr_buffers_ok m = true ->
  exists evs bs,
    Unused.owr_aoa_measure this (Some e) mode m s
    = Done evs
        (JObject (Unused.mRangingOwrAoaMeasuresClass this)
           (MethodID "<init>" "([BIIIIIIII)V")
           [ JByteArray bs;
             JInt (to_jint (Unused.owr_status m));
             JInt (to_jint (Unused.owr_nLos m));
             JInt (to_jint (Unused.owr_frame_seq_num m));
             JInt (to_jint (Unused.owr_block_index m));
             JInt (to_jint (Unused.owr_aoa_azimuth m));
             JInt (to_jint (Unused.owr_aoa_azimuth_FOM m));
             JInt (to_jint (Unused.owr_aoa_elevation m));
             JInt (to_jint (Unused.owr_aoa_elevation_FOM m)) ]) s /\
    ((mode = SHORT_MAC_ADDRESS /\ length bs = 2%nat) \/
     (mode <> SHORT_MAC_ADDRESS /\ length bs = 8%nat)).
Proof.
  unfold Unused.owr_buffers_ok. rewrite Z.leb_le. intros H.
  unfold Unused.owr_aoa_measure.
  destruct (Z.eqb_spec mode SHORT_MAC_ADDRESS) as [Hs | Hs].
  - rewrite (bind_Done _ _ _ _ _ _
               (new_byte_array_filled e 2 (Unused.owr_mac_addr m) s
                  ltac:(lia))).
    erewrite bind_Done by reflexivity. rewrite NewObject_run.
    do 2 eexists. split; [reflexivity | ].
    left. split; [assumption | ]. rewrite filled_length; lia.
  - rewrite (bind_Done _ _ _ _ _ _
               (new_byte_array_filled e 8 (Unused.owr_mac_addr m) s
                  ltac:(lia))).
    erewrite bind_Done by reflexivity. rewrite NewObject_run.
    do 2 eexists. split; [reflexivity | ].
    right. split; [assumption | ]. rewrite filled_length; lia.
Qed.

(** X18.  In the superseded copy a one-way-with-AoA notification is
    delivered once with a single measurement object, not an array,
    whatever [no_of_measurements] says: the object is built from the one
    record of the view, with a 2-byte address in the short mode and an
    8-byte address otherwise, and eight integer fields. *)
Theorem owr_aoa_notification_delivered
    (this : Unused.UwbEventManager) (mid : jmethodID)
    (ntf : Unused.tUWA_RANGE_DATA_NTF) (s : jstate) :
  ScopedJniEnv (Unused.mVm this) = Some e ->
  Unused.mOnRangeDataNotificationReceived this = Some mid ->
  Unused.ranging_measure_type ntf <> MEASUREMENT_TYPE_TWOWAY ->
  Unused.ranging_measure_type ntf <> MEASUREMENT_TYPE_DLTDOA ->
  Unused.ranging_measure_type ntf = MEASUREMENT_TYPE_OWR_WITH_AOA ->
  Unused.owr_buffers_ok
    (Unused.owr_with_aoa_range_measr (Unused.ranging_measures ntf)) = true ->
  Unused.vendor_ok ntf = true ->
  let m := Unused.owr_with_aoa_range_measr (Unused.ranging_measures ntf) in
  let mode := Unused.mac_addr_mode_indicator ntf in
  exists pre bs v,
    let measure :=
      JObject (Unused.mRangingOwrAoaMeasuresClass this)
        (MethodID "<init>" "([BIIIIIIII)V")
        [ JByteArray bs;
          JInt (to_jint (Unused.owr_status m));
          JInt (to_jint (Unused.owr_nLos m));
          JInt (to_jint (Unused.owr_frame_seq_num m));
          JInt (to_jint (Unused.owr_block_index m));
          JInt (to_jint (Unused.owr_aoa_azimuth m));
          JInt (to_jint (Unused.owr_aoa_azimuth_FOM m));
          JInt (to_jint (Unused.owr_aoa_elevation m));
          JInt (to_jint (Unused.owr_aoa_elevation_FOM m)) ] in
    let obj :=
      JObject (Unused.mRangeDataClass this)
        (MethodID "<init>"
           "(JJIJIIILcom/android/server/uwb/data/UwbOwrAoaMeasurement;[B)V")
        (Unused.range_data_args ntf measure v) in
    Unused.onRangeDataNotificationReceived this ntf s
    = Done (pre ++ range_delivery_trace e s (Unused.mObject this) mid [obj]
                     Unused.fn_range) tt (JState false) /\
    existsb is_call pre = false /\
    (exists ev, Unused.vendor_specific_data (Some e) ntf s = Done ev v s) /\
    ((mode = SHORT_MAC_ADDRESS /\ length bs = 2%nat) \/
     (mode <> SHORT_MAC_ADDRESS /\ length bs = 8%nat)).
Proof.
  intros Henv Hmid Hn1 Hn2 Htag Hok Hv m mode.
  destruct (vendor_specific_data_value e ntf s Hv) as (ev & Ev).
  set (v := if Unused.vs_len (Unused.vendor_specific_ntf ntf) >? 0
            then _ else JNull) in Ev.
  destruct (owr_aoa_measure_run this mode m s Hok) as (em & bs & Em & Hlen).
  assert (Eo : exists eo,
             Unused.range_data_object this (Some e) ntf v s
             = Done eo
                 (JObject (Unused.mRangeDataClass this)
                    (MethodID "<init>"
                       "(JJIJIIILcom/android/server/uwb/data/UwbOwrAoaMeasurement;[B)V")
                    (Unused.range_data_args ntf
                       (JObject (Unused.mRangingOwrAoaMeasuresClass this)
                          (MethodID "<init>" "([BIIIIIIII)V")
                          [ JByteArray bs;
                            JInt (to_jint (Unused.owr_status m));
                            JInt (to_jint (Unused.owr_nLos m));
                            JInt (to_jint (Unused.owr_frame_seq_num m));
                            JInt (to_jint (Unused.owr_block_index m));
                            JInt (to_jint (Unused.owr_aoa_azimuth m));
                            JInt (to_jint (Unused.owr_aoa_azimuth_FOM m));
                            JInt (to_jint (Unused.owr_aoa_elevation m));
                            JInt (to_jint (Unused.owr_aoa_elevation_FOM m)) ])
                       v)) s).
  { unfold Unused.range_data_object.
    destruct (Z.eqb_spec (Unused.ranging_measure_type ntf)
                MEASUREMENT_TYPE_TWOWAY); [contradiction | ].
    destruct (Z.eqb_spec (Unused.ranging_measure_type ntf)
                MEASUREMENT_TYPE_DLTDOA); [contradiction | ].
    rewrite Htag, Z.eqb_refl.
    unfold Unused.range_data_owr_aoa.
    erewrite bind_Done by reflexivity.
    fold m mode. rewrite (bind_Done _ _ _ _ _ _ Em).
    erewrite bind_Done by reflexivity.
    rewrite NewObject_run. eexists. reflexivity. }
  destruct Eo as (eo & Eo).
  destruct (unused_range_handler_run e this ntf mid s ev v eo _
              Henv Hmid Ev Eo eq_refl) as [Erun Hsilent].
  exists (ev ++ eo)%list, bs, v. cbv zeta.
  split; [exact Erun | ]. split; [exact Hsilent | ].
  split; [eauto | exact Hlen].
Qed.

End RangingBranches.

(* ===================================================================== *)
(** * The symbol lookups *)

Lemma unused_doLoadSymbols_run rt this thiz s :
  exists this',
    Unused.doLoadSymbols rt this thiz s
    = Done [ EvLog LvlI "UwbEventManager::doLoadSymbols" "enter";
             EvLog LvlI "UwbEventManager::doLoadSymbols" "exit" ] this' s /\
    Unused.mVm this' = rt_vm rt /\
    Unused.mOnBlinkDataTxNotificationReceived this'
    = Unused.mOnBlinkDataTxNotificationReceived this /\
    (rt_object_class rt thiz = None ->
     forall n, Unused.method_of this' n = Unused.method_of this n) /\
    (forall clazz,
        rt_object_class rt thiz = Some clazz ->
        Unused.mObject this' = thiz /\
        Unused.mOnDeviceStateNotificationReceived this'
        = rt_method_id rt clazz "onDeviceStatusNotificationReceived" "(I)V").
Proof.
  unfold Unused.doLoadSymbols.
  destruct (rt_object_class rt thiz) as [clazz | ]; eexists;
    (split; [reflexivity | ]); cbn;
    (split; [reflexivity | ]); (split; [reflexivity | ]).
  - split; [discriminate | ]. intros c [= <-]. split; reflexivity.
  - split; [ | discriminate]. intros _ n. destruct n; reflexivity.
Qed.

Lemma active_doLoadSymbols_run rt this thiz s :
  exists this',
    Active.doLoadSymbols rt this thiz s
    = Done [ EvLog LvlI "UwbEventManager::doLoadSymbols" "enter";
             EvLog LvlI "UwbEventManager::doLoadSymbols" "exit" ] this' s /\
    Active.mVm this' = rt_vm rt /\
    Active.mOnBlinkDataTxNotificationReceived this'
    = Active.mOnBlinkDataTxNotificationReceived this /\
    Active.mOnRawUciNotificationReceived this'
    = Active.mOnRawUciNotificationReceived this /\
    (rt_object_class rt thiz = None ->
     forall n, Active.method_of this' n = Active.method_of this n) /\
    (forall clazz,
        rt_object_class rt thiz = Some clazz ->
        Active.mObject this' = thiz /\
        Active.mOnDeviceStateNotificationReceived this'
        = rt_method_id rt clazz "onDeviceStatusNotificationReceived" "(I)V").
Proof.
  unfold Active.doLoadSymbols.
  destruct (rt_object_class rt thiz) as [clazz | ]; eexists;
    (split; [reflexivity | ]); cbn;
    (split; [reflexivity | ]); (split; [reflexivity | ]);
    (split; [reflexivity | ]).
  - split; [discriminate | ]. intros c [= <-]. split; reflexivity.
  - split; [ | discriminate]. intros _ n. destruct n; reflexivity.
Qed.

(** X19.  [doLoadSymbols] never resolves the blink-data-tx method, in
    either copy, nor the raw-notification method in the active copy: on a
    manager in which they are null, as the constructors leave them, the
    lookups return a manager whose blink-data-tx handler (and, in the
    active copy, raw-notification handler) never invokes the listener,
    whatever the runtime answers. *)
Theorem load_symbols_leaves_blink_and_raw_unresolved
    {defs : UciDefs} (rt : JavaRuntime)
    (this_u : Unused.UwbEventManager) (this_a : Active.UwbEventManager)
    (thiz : jvalue) (s : jstate) :
  Unused.mOnBlinkDataTxNotificationReceived this_u = None ->
  Active.mOnBlinkDataTxNotificationReceived this_a = None ->
  Active.mOnRawUciNotificationReceived this_a = None ->
  exists evs_u this_u' evs_a this_a',
    Unused.doLoadSymbols rt this_u thiz s = Done evs_u this_u' s /\
    Active.doLoadSymbols rt this_a thiz s = Done evs_a this_a' s /\
    (forall status,
        silent (Unused.onBlinkDataTxNotificationReceived this_u' status)) /\
    (forall status,
        silent (Active.onBlinkDataTxNotificationReceived this_a' status)) /\
    (forall data length,
        silent (Active.onRawUciNotificationReceived this_a' data length)).
Proof.
  intros Hbu Hba Hra.
  destruct (unused_doLoadSymbols_run rt this_u thiz s)
    as (u' & Eu & _ & Hu & _).
  destruct (active_doLoadSymbols_run rt this_a thiz s)
    as (a' & Ea & _ & Hab & Har & _).
  eexists; exists u'; eexists; exists a'.
  split; [exact Eu | ]. split; [exact Ea | ].
  rewrite Hbu in Hu. rewrite Hba in Hab. rewrite Hra in Har.
  repeat split.
  - intros status.
    exact (unused_unresolved_silent u' (Unused.BlinkDataTx status) Hu).
  - intros status.
    exact (active_unresolved_silent a' (Active.BlinkDataTx status) Hab).
  - intros data length.
    exact (active_unresolved_silent a' (Active.RawUci data length) Har).
Qed.

Lemma load_symbols_leaves_blink_and_raw_unresolved_witness :
  let rt := sample_runtime (Some raising_env) in
  exists evs_u this_u' evs_a this_a',
    Unused.doLoadSymbols rt (unused_constructed (MkVm None)) service_object
      (JState false) = Done evs_u this_u' (JState false) /\
    Active.doLoadSymbols rt (active_constructed (MkVm None)) service_object
      (JState false) = Done evs_a this_a' (JState false) /\
    existsb is_call
      (events_of (Unused.onBlinkDataTxNotificationReceived this_u' 1
                    (JState false))) = false /\
    existsb is_call
      (events_of (Active.onRawUciNotificationReceived this_a' (Some [1]) 1
                    (JState false))) = false.
Proof.
  destruct (@load_symbols_leaves_blink_and_raw_unresolved sample_defs
              (sample_runtime (Some raising_env))
              (unused_constructed (MkVm None))
              (active_constructed (MkVm None)) service_object (JState false)
              eq_refl eq_refl eq_refl)
    as (eu & u' & ea & a' & Eu & Ea & Hb & _ & Hr).
  exists eu, u', ea, a'. split; [exact Eu | ]. split; [exact Ea | ].
  split; [apply Hb | apply Hr].
Defined.

(** X20.  When the class of the listener object cannot be found,
    [doLoadSymbols] records the virtual machine and nothing else: a
    manager with no method resolved stays so, and no entry point of
    either copy invokes the listener afterwards. *)
Theorem load_symbols_without_class
    {defs : UciDefs} (rt : JavaRuntime)
    (this_u : Unused.UwbEventManager) (this_a : Active.UwbEventManager)
    (thiz : jvalue) (s : jstate) :
  rt_object_class rt thiz = None ->
  Unused.unregistered this_u ->
  Active.unregistered this_a ->
  exists evs_u this_u' evs_a this_a',
    Unused.doLoadSymbols rt this_u thiz s = Done evs_u this_u' s /\
    Active.doLoadSymbols rt this_a thiz s = Done evs_a this_a' s /\
    Unused.mVm this_u' = rt_vm rt /\ Active.mVm this_a' = rt_vm rt /\
    Unused.unregistered this_u' /\ Active.unregistered this_a' /\
    (forall n, silent (Unused.handle this_u' n)) /\
    (forall n, silent (Active.handle this_a' n)).
Proof.
  intros Hc Hu Ha.
  destruct (unused_doLoadSymbols_run rt this_u thiz s)
    as (u' & Eu & Vu & _ & Fu & _).
  destruct (active_doLoadSymbols_run rt this_a thiz s)
    as (a' & Ea & Va & _ & _ & Fa & _).
  assert (Uu : Unused.unregistered u').
  { intros n. rewrite (Fu Hc n). apply Hu. }
  assert (Ua : Active.unregistered a').
  { intros n. rewrite (Fa Hc n). apply Ha. }
  eexists; exists u'; eexists; exists a'.
  split; [exact Eu | ]. split; [exact Ea | ].
  repeat split; try assumption.
  - intros n. apply unused_unresolved_silent, Uu.
  - intros n. apply active_unresolved_silent, Ua.
Qed.

(** X21.  After [doLoadSymbols] found the class of the listener object
    and its device-state method, a device-state notification is delivered
    to that very object through that method, once, with the state code
    unchanged, in both copies. *)
Theorem registered_listener_receives_device_state
    (rt : JavaRuntime) (e : JNIEnv) (clazz : jclass) (mid : jmethodID)
    (this_u : Unused.UwbEventManager) (this_a : Active.UwbEventManager)
    (thiz : jvalue) (state : Z) (s : jstate) :
  rt_object_class rt thiz = Some clazz ->
  rt_method_id rt clazz "onDeviceStatusNotificationReceived" "(I)V"
  = Some mid ->
  ScopedJniEnv (rt_vm rt) = Some e ->
  0 <= state < 256 ->
  let fl := "UwbEventManager::doLoadSymbols" in
  let fd := "notifyDeviceStateNotification" in
  let trace :=
    EvLog LvlI fl "enter" :: EvLog LvlI fl "exit"
    :: EvLog LvlI fd "enter:  State = %x"
    :: delivery_trace e s thiz mid [JInt state] fd "fail to notify" in
  (this' <- Unused.doLoadSymbols rt this_u thiz ;;
   Unused.onDeviceStateNotificationReceived this' state) s
  = Done trace tt (JState false) /\
  (this' <- Active.doLoadSymbols rt this_a thiz ;;
   Active.onDeviceStateNotificationReceived this' state) s
  = Done trace tt (JState false).
Proof.
  intros Hc Hm Henv Hst fl fd trace.
  destruct (unused_doLoadSymbols_run rt this_u thiz s)
    as (u' & Eu & Vu & _ & _ & Lu).
  destruct (active_doLoadSymbols_run rt this_a thiz s)
    as (a' & Ea & Va & _ & _ & _ & La).
  destruct (Lu clazz Hc) as [Ou Mu]. destruct (La clazz Hc) as [Oa Ma].
  rewrite Hm in Mu, Ma.
  rewrite (bind_Done _ _ _ _ _ _ Eu), (bind_Done _ _ _ _ _ _ Ea).
  unfold Unused.onDeviceStateNotificationReceived,
    Active.onDeviceStateNotificationReceived.
  rewrite Vu, Va, Henv, Mu, Ma, Ou, Oa.
  rewrite (to_jint_small state) by lia.
  split; (erewrite bind_Done by reflexivity); rewrite delivery_run;
    reflexivity.
Qed.

Lemma load_symbols_without_class_witness :
  rt_object_class sample_runtime_without_class service_object = None /\
  Unused.unregistered (unused_constructed (MkVm None)) /\
  Active.unregistered (active_constructed (MkVm None)) /\
  exists evs_u this_u' evs_a this_a',
    Unused.doLoadSymbols sample_runtime_without_class
      (unused_constructed (MkVm None)) service_object (JState false)
    = Done evs_u this_u' (JState false) /\
    Active.doLoadSymbols sample_runtime_without_class
      (active_constructed (MkVm None)) service_object (JState false)
    = Done evs_a this_a' (JState false) /\
    existsb is_call
      (events_of (@Unused.handle sample_defs this_u' (Unused.DeviceState 1)
                    (JState false))) = false /\
    existsb is_call
      (events_of (@Active.handle sample_defs this_a' (Active.DeviceState 1)
                    (JState false))) = false.
Proof.
  assert (Hu : Unused.unregistered (unused_constructed (MkVm None)))
    by (intros n; destruct n; reflexivity).
  assert (Ha : Active.unregistered (active_constructed (MkVm None)))
    by (intros n; destruct n; reflexivity).
  split; [reflexivity | ]. split; [exact Hu | ]. split; [exact Ha | ].
  destruct (@load_symbols_without_class sample_defs
              sample_runtime_without_class (unused_constructed (MkVm None))
              (active_constructed (MkVm None)) service_object (JState false)
              eq_refl Hu Ha)
    as (eu & u' & ea & a' & Eu & Ea & _ & _ & _ & _ & Su & Sa).
  exists eu, u', ea, a'. split; [exact Eu | ]. split; [exact Ea | ].
  split; [apply Su | apply Sa].
Defined.

Lemma registered_listener_receives_device_state_witness :
  let rt := sample_runtime (Some raising_env) in
  rt_object_class rt service_object = Some "NativeUwbManager" /\
  ScopedJniEnv (rt_vm rt) = Some raising_env /\
  0 <= 2 < 256 /\
  (this' <- Active.doLoadSymbols rt (active_constructed (MkVm None))
              service_object ;;
   Active.onDeviceStateNotificationReceived this' 2) (JState false)
  = Done [ EvLog LvlI "UwbEventManager::doLoadSymbols" "enter";
           EvLog LvlI "UwbEventManager::doLoadSymbols" "exit";
           EvLog LvlI "notifyDeviceStateNotification" "enter:  State = %x";
           EvCall service_object
             (MethodID "onDeviceStatusNotificationReceived" "(I)V")
             [JInt 2] true;
           EvExceptionClear;
           EvLog LvlE "notifyDeviceStateNotification" "fail to notify";
           EvLog LvlI "notifyDeviceStateNotification" "exit" ]
         tt (JState false).
Proof.
  split; [reflexivity | ]. split; [reflexivity | ]. split; [lia | ].
  apply (registered_listener_receives_device_state
           (sample_runtime (Some raising_env)) raising_env "NativeUwbManager"
           (MethodID "onDeviceStatusNotificationReceived" "(I)V")
           (unused_constructed (MkVm None)) (active_constructed (MkVm None))
           service_object 2 (JState false));
    first [reflexivity | lia].
Defined.

(* ===================================================================== *)
(** * Successive notifications *)

(** X22.  In both copies, when the handling of a notification saw the
    listener raise, the handling of the next notification on the thread
    runs as from a state with no exception pending: the run of the two in
    sequence is the trace of the first followed by that run of the
    second. *)
Theorem raising_notification_does_not_abort_next
    {defs : UciDefs}
    (this_u : Unused.UwbEventManager) (n1_u n2_u : Unused.notification)
    (this_a : Active.UwbEventManager) (n1_a n2_a : Active.notification)
    (s : jstate) :
  existsb is_raising_call (events_of (Unused.handle this_u n1_u s)) = true ->
  existsb is_raising_call (events_of (Active.handle this_a n1_a s)) = true ->
  (exists evs1,
      Unused.handle this_u n1_u s = Done evs1 tt (JState false) /\
      (Unused.handle this_u n1_u ;; Unused.handle this_u n2_u) s
      = match Unused.handle this_u n2_u (JState false) with
        | Done evs2 b s2 => Done (evs1 ++ evs2) b s2
        | Crash evs2 f => Crash (evs1 ++ evs2) f
        end) /\
  (exists evs1,
      Active.handle this_a n1_a s = Done evs1 tt (JState false) /\
      (Active.handle this_a n1_a ;; Active.handle this_a n2_a) s
      = match Active.handle this_a n2_a (JState false) with
        | Done evs2 b s2 => Done (evs1 ++ evs2) b s2
        | Crash evs2 f => Crash (evs1 ++ evs2) f
        end).
Proof.
  intros Hu Ha. split.
  - apply next_notification_runs;
      [apply unused_handlers_contain_faults | exact Hu].
  - apply next_notification_runs;
      [apply active_handlers_contain_faults | exact Ha].
Qed.

Lemma raising_notification_does_not_abort_next_witness :
  let this_u := unused_loaded (MkVm (Some raising_env)) in
  let this_a := active_loaded (MkVm (Some raising_env)) in
  let first_u := @Unused.handle sample_defs this_u (Unused.DeviceState 1) in
  let next_u := @Unused.handle sample_defs this_u (Unused.SessionStatus 7 2 0) in
  let first_a := @Active.handle sample_defs this_a (Active.DeviceState 1) in
  let next_a := @Active.handle sample_defs this_a (Active.SessionStatus 7 2 0) in
  existsb is_raising_call (events_of (first_u (JState false))) = true /\
  existsb is_raising_call (events_of (first_a (JState false))) = true /\
  (exists evs1,
      first_u (JState false) = Done evs1 tt (JState false) /\
      (first_u ;; next_u) (JState false)
      = match next_u (JState false) with
        | Done evs2 b s2 => Done (evs1 ++ evs2) b s2
        | Crash evs2 f => Crash (evs1 ++ evs2) f
        end) /\
  (exists evs1,
      first_a (JState false) = Done evs1 tt (JState false) /\
      (first_a ;; next_a) (JState false)
      = match next_a (JState false) with
        | Done evs2 b s2 => Done (evs1 ++ evs2) b s2
        | Crash evs2 f => Crash (evs1 ++ evs2) f
        end).
Proof.
  cbv zeta.
  split; [reflexivity | ]. split; [reflexivity | ].
  exact (@raising_notification_does_not_abort_next sample_defs
           (unused_loaded (MkVm (Some raising_env)))
           (Unused.DeviceState 1) (Unused.SessionStatus 7 2 0)
           (active_loaded (MkVm (Some raising_env)))
           (Active.DeviceState 1) (Active.SessionStatus 7 2 0)
           (JState false) eq_refl eq_refl).
Defined.

(* ===================================================================== *)
(** * Bounds and lengths of the record fields *)

(** X23.  Whatever the control word, the active-ranging-round count the
    code computes lies between 0 and 15, so the round list of a marshalled
    downlink-TDoA record is null or a byte array of at most 15 bytes. *)
Theorem active_ranging_round_bounded
    {defs : UciDefs} (this : Unused.UwbEventManager) (e : JNIEnv) (mode : Z)
    (m : Unused.tUWA_DLTDOA_RANGING_MEASR) (s : jstate) :
  Unused.dltdoa_buffers_ok m = true ->
  (forall mc, 0 <= Unused.activeRangingRoundValue mc <= 15) /\
  exists evs obj rr,
    Unused.dltdoa_measure this (Some e) mode m s = Done evs obj s /\
    ctor_arg obj Unused.DL_ARG_ACTIVE_RANGING_ROUND = Some rr /\
    (rr = JNull \/
     exists bs, rr = JByteArray bs /\ (0 < length bs <= 15)%nat).
Proof.
  intros Hok. split.
  - intros mc. rewrite activeRangingRoundValue_eq. apply active_rr_bits_bound.
  - destruct (dltdoa_measure_run this e mode m s Hok)
      as (e_mac & v_mac & e_tx & v_tx & e_rx & v_rx & e_al & v_al & e_rr & v_rr
          & obj & _ & _ & _ & _ & Err & Erun & _ & _ & _ & _ & Arr).
    apply dltdoa_buffers_ok_inv in Hok. destruct Hok as (_ & _ & _ & _ & Hrr).
    destruct (dltdoa_active_ranging_round_run e m s Hrr)
      as (evs' & v' & Err' & H0 & H1).
    rewrite Err in Err'. injection Err' as <- <-.
    pose proof (active_rr_bits_bound (Unused.dl_message_control m)) as Hb.
    eexists; exists obj, v_rr.
    split; [exact Erun | ]. split; [exact Arr | ].
    destruct (Z.eq_dec
                (Z.shiftr (Z.land (Unused.dl_message_control m) 0x0780) 7) 0)
      as [Hz | Hnz].
    + left. apply H0. exact Hz.
    + right. destruct (H1 Hnz) as (bs & -> & Hlen).
      exists bs. split; [reflexivity | lia].
Qed.

Lemma dltdoa_mac_address_length {defs : UciDefs} e mode m s :
  8 <= Z.of_nat (length (Unused.dl_mac_addr m)) ->
  exists evs bs,
    Unused.dltdoa_mac_address (Some e) mode m s = Done evs (JByteArray bs) s /\
    ((mode = SHORT_MAC_ADDRESS /\ length bs = 2%nat) \/
     (mode <> SHORT_MAC_ADDRESS /\ length bs = 8%nat)).
Proof.
  intros H. unfold Unused.dltdoa_mac_address.
  destruct (Z.eqb_spec mode SHORT_MAC_ADDRESS) as [Hs | Hs].
  - rewrite new_byte_array_filled by (unfold Unused.MAC_SHORT_ADD_LEN; lia).
    do 2 eexists. split; [reflexivity | ]. left. split; [assumption | ].
    rewrite filled_length; unfold Unused.MAC_SHORT_ADD_LEN; lia.
  - rewrite new_byte_array_filled by (unfold Unused.MAC_EXT_ADD_LEN; lia).
    do 2 eexists. split; [reflexivity | ]. right. split; [assumption | ].
    rewrite filled_length; unfold Unused.MAC_EXT_ADD_LEN; lia.
Qed.

(** X24.  The address of a marshalled downlink-TDoA record is a byte
    array of 2 bytes in the short address mode and of 8 bytes in every
    other mode; the record, unlike a two-way one, carries no padding:
    its constructor receives exactly twenty arguments. *)
Theorem dltdoa_address_by_mode
    {defs : UciDefs} (this : Unused.UwbEventManager) (e : JNIEnv) (mode : Z)
    (m : Unused.tUWA_DLTDOA_RANGING_MEASR) (s : jstate) :
  Unused.dltdoa_buffers_ok m = true ->
  exists evs cls ctor args bs,
    Unused.dltdoa_measure this (Some e) mode m s
    = Done evs (JObject cls ctor args) s /\
    length args = 20%nat /\
    nth_error args Unused.DL_ARG_MAC = Some (JByteArray bs) /\
    ((mode = SHORT_MAC_ADDRESS /\ length bs = 2%nat) \/
     (mode <> SHORT_MAC_ADDRESS /\ length bs = 8%nat)).
Proof.
  intros Hok.
  destruct (dltdoa_measure_run this e mode m s Hok)
    as (e_mac & v_mac & e_tx & v_tx & e_rx & v_rx & e_al & v_al & e_rr & v_rr
        & obj & Emac & Etx & Erx & Eal & Err & Erun & _).
  apply dltdoa_buffers_ok_inv in Hok. destruct Hok as (Hmac & _).
  destruct (dltdoa_mac_address_length e mode m s Hmac)
    as (evs' & bs & Emac' & Hlen).
  rewrite Emac in Emac'. injection Emac' as _ ->.
  unfold Unused.dltdoa_measure in Erun.
  rewrite (bind_Done _ _ _ _ _ _ Emac), (bind_Done _ _ _ _ _ _ Etx),
    (bind_Done _ _ _ _ _ _ Erx), (bind_Done _ _ _ _ _ _ Eal),
    (bind_Done _ _ _ _ _ _ Err) in Erun.
  cbn in Erun. injection Erun as _ <-.
  do 4 eexists. exists bs.
  split; [ | split; [ | split; [ | exact Hlen] ] ].
  - unfold Unused.dltdoa_measure.
    rewrite (bind_Done _ _ _ _ _ _ Emac), (bind_Done _ _ _ _ _ _ Etx),
      (bind_Done _ _ _ _ _ _ Erx), (bind_Done _ _ _ _ _ _ Eal),
      (bind_Done _ _ _ _ _ _ Err).
    cbn. reflexivity.
  - reflexivity.
  - reflexivity.
Qed.

(** X25.  The vendor payload of a ranging notification of the superseded
    copy is a byte array of exactly [len] bytes when [len] is positive and
    null, not an empty array, when it is zero, with the informational
    line "No Vendor specific ntf data!". *)
Theorem ranging_vendor_payload
    (e : JNIEnv) (ntf : Unused.tUWA_RANGE_DATA_NTF)
    (s : jstate) :
  Unused.vendor_ok ntf = true ->
  let len := Unused.vs_len (Unused.vendor_specific_ntf ntf) in
  exists evs v,
    Unused.vendor_specific_data (Some e) ntf s = Done evs v s /\
    (0 < len ->
     exists bs, v = JByteArray bs /\ Z.of_nat (length bs) = len /\
                evs = [EvNew (JByteArray (repeat 0 (Z.to_nat len)))]) /\
    (len <= 0 ->
     v = JNull /\
     evs = [EvLog LvlI Unused.fn_range "No Vendor specific ntf data!"]).
Proof.
  intros Hv len. unfold Unused.vendor_ok in Hv. apply Z.leb_le in Hv.
  fold len in Hv. unfold Unused.vendor_specific_data. fold len.
  destruct (Z.gtb_spec len 0).
  - rewrite new_byte_array_filled by lia.
    do 2 eexists. split; [reflexivity | ]. split; [ | lia].
    intros _. eexists. split; [reflexivity | ]. split; [ | reflexivity].
    rewrite filled_length; lia.
  - do 2 eexists. split; [reflexivity | ]. split; [lia | ].
    intros _. split; reflexivity.
Qed.

(* ===================================================================== *)
(** * The marshalling theorems at concrete notifications *)

Lemma unused_multicast_update_marshalled_witness :
  let this := unused_loaded (MkVm (Some quiet_env)) in
  ScopedJniEnv (Unused.mVm this) = Some quiet_env /\
  0 <= Unused.mc_no_of_controlees sample_multicast_pair_unused
    <= @MAX_NUM_CONTROLLEES sample_defs /\
  Unused.multicast_lists_ok sample_multicast_pair_unused = true /\
  exists evs,
    @Unused.onMulticastListUpdateNotificationReceived sample_defs this
      (Some sample_multicast_pair_unused) (JState false)
    = Done evs tt (JState false) /\
    In (EvNew
          (JObject (Unused.mMulticastUpdateListDataClass this)
             (MethodID "<init>" "(JII[I[J[I)V")
             [ JLong 0x1234; JInt 1; JInt 2;
               JIntArray [0x1122; -1]; JLongArray [7; 9]; JIntArray [0; 1] ]))
       evs.
Proof.
  cbv zeta.
  assert (Hn : 0 <= Unused.mc_no_of_controlees sample_multicast_pair_unused
               <= @MAX_NUM_CONTROLLEES sample_defs) by (simpl; lia).
  split; [reflexivity | ]. split; [exact Hn | ]. split; [reflexivity | ].
  destruct (@unused_multicast_update_marshalled sample_defs quiet_env
              (unused_loaded (MkVm (Some quiet_env)))
              (MethodID "onMulticastListUpdateNotificationReceived"
                 "(Lcom/android/server/uwb/data/UwbMulticastListUpdateStatus;)V")
              sample_multicast_pair_unused (JState false)
              eq_refl eq_refl Hn eq_refl) as [_ E].
  eexists. split; [exact E | ].
  vm_compute. do 4 right. left. reflexivity.
Defined.

Lemma active_multicast_update_marshalled_witness :
  let this := active_loaded (MkVm (Some quiet_env)) in
  ScopedJniEnv (Active.mVm this) = Some quiet_env /\
  0 <= Active.mc_no_of_controlees sample_multicast_pair_active /\
  Active.multicast_lists_ok sample_multicast_pair_active = true /\
  exists evs,
    Active.onMulticastListUpdateNotificationReceived this
      (Some sample_multicast_pair_active) (JState false)
    = Done evs tt (JState false) /\
    In (EvNew
          (JObject (Active.mMulticastUpdateListDataClass this)
             (MethodID "<init>" "(JII[J[I)V")
             [ JLong 0x1234; JInt 1; JInt 2;
               JLongArray [7; 9]; JIntArray [0; 1] ]))
       evs.
Proof.
  cbv zeta.
  assert (Hn : 0 <= Active.mc_no_of_controlees sample_multicast_pair_active)
    by (simpl; lia).
  split; [reflexivity | ]. split; [exact Hn | ]. split; [reflexivity | ].
  destruct (@active_multicast_update_marshalled quiet_env
              (active_loaded (MkVm (Some quiet_env)))
              (MethodID "onMulticastListUpdateNotificationReceived"
                 "(Lcom/android/uwb/data/UwbMulticastListUpdateStatus;)V")
              sample_multicast_pair_active (JState false)
              eq_refl eq_refl Hn eq_refl) as [_ E].
  eexists. split; [exact E | ].
  vm_compute. do 3 right. left. reflexivity.
Defined.

Lemma unused_twoway_notification_delivered_witness :
  let this := unused_loaded (MkVm (Some quiet_env)) in
  ScopedJniEnv (Unused.mVm this) = Some quiet_env /\
  Unused.ranging_measure_type sample_twoway_ntf_unused
  = @MEASUREMENT_TYPE_TWOWAY sample_defs /\
  Unused.twr_view_ok sample_twoway_ntf_unused = true /\
  Unused.vendor_ok sample_twoway_ntf_unused = true /\
  exists evs,
    @Unused.onRangeDataNotificationReceived sample_defs this
      sample_twoway_ntf_unused (JState false)
    = Done evs tt (JState false).
Proof.
  cbv zeta. repeat (split; [reflexivity | ]).
  destruct (@unused_twoway_notification_delivered sample_defs quiet_env
              (unused_loaded (MkVm (Some quiet_env)))
              (MethodID "onRangeDataNotificationReceived"
                 "(Lcom/android/server/uwb/data/UwbRangingData;)V")
              sample_twoway_ntf_unused (JState false)
              eq_refl eq_refl eq_refl eq_refl eq_refl)
    as (pre & elems & v & E & _).
  eexists. exact E.
Defined.

Lemma active_twoway_notification_delivered_witness :
  let this := active_loaded (MkVm (Some quiet_env)) in
  ScopedJniEnv (Active.mVm this) = Some quiet_env /\
  Active.ranging_measure_type sample_twoway_ntf_active
  = @MEASUREMENT_TYPE_TWOWAY sample_defs /\
  Active.twr_view_ok sample_twoway_ntf_active = true /\
  exists evs,
    @Active.onRangeDataNotificationReceived sample_defs this
      sample_twoway_ntf_active (JState false)
    = Done evs tt (JState false).
Proof.
  cbv zeta. repeat (split; [reflexivity | ]).
  destruct (@active_twoway_notification_delivered sample_defs quiet_env
              (active_loaded (MkVm (Some quiet_env)))
              (MethodID "onRangeDataNotificationReceived"
                 "(Lcom/android/uwb/data/UwbRangingData;)V")
              sample_twoway_ntf_active (JState false)
              eq_refl eq_refl eq_refl eq_refl)
    as (pre & elems & E & _).
  eexists. exact E.
Defined.

Lemma dltdoa_notification_delivered_witness :
  let this := unused_loaded (MkVm (Some quiet_env)) in
  ScopedJniEnv (Unused.mVm this) = Some quiet_env /\
  Unused.ranging_measure_type sample_dltdoa_ntf
  <> @MEASUREMENT_TYPE_TWOWAY sample_defs /\
  Unused.ranging_measure_type sample_dltdoa_ntf
  = @MEASUREMENT_TYPE_DLTDOA sample_defs /\
  Unused.dltdoa_view_ok sample_dltdoa_ntf = true /\
  Unused.vendor_ok sample_dltdoa_ntf = true /\
  exists evs,
    @Unused.onRangeDataNotificationReceived sample_defs this
      sample_dltdoa_ntf (JState false)
    = Done evs tt (JState false).
Proof.
  cbv zeta.
  assert (Hne : Unused.ranging_measure_type sample_dltdoa_ntf
                <> @MEASUREMENT_TYPE_TWOWAY sample_defs) by (simpl; lia).
  split; [reflexivity | ]. split; [exact Hne | ].
  repeat (split; [reflexivity | ]).
  destruct (@dltdoa_notification_delivered sample_defs quiet_env
              (unused_loaded (MkVm (Some quiet_env)))
              (MethodID "onRangeDataNotificationReceived"
                 "(Lcom/android/server/uwb/data/UwbRangingData;)V")
              sample_dltdoa_ntf (JState false)
              eq_refl eq_refl Hne eq_refl eq_refl eq_refl)
    as (pre & elems & v & E & _).
  eexists. exact E.
Defined.

Lemma owr_aoa_notification_delivered_witness :
  let this := unused_loaded (MkVm (Some quiet_env)) in
  ScopedJniEnv (Unused.mVm this) = Some quiet_env /\
  Unused.ranging_measure_type sample_owr_ntf
  <> @MEASUREMENT_TYPE_TWOWAY sample_defs /\
  Unused.ranging_measure_type sample_owr_ntf
  <> @MEASUREMENT_TYPE_DLTDOA sample_defs /\
  Unused.ranging_measure_type sample_owr_ntf
  = @MEASUREMENT_TYPE_OWR_WITH_AOA sample_defs /\
  Unused.owr_buffers_ok
    (Unused.owr_with_aoa_range_measr (Unused.ranging_measures sample_owr_ntf))
  = true /\
  Unused.vendor_ok sample_owr_ntf = true /\
  exists evs,
    @Unused.onRangeDataNotificationReceived sample_defs this
      sample_owr_ntf (JState false)
    = Done evs tt (JState false).
Proof.
  cbv zeta.
  assert (H1 : Unused.ranging_measure_type sample_owr_ntf
               <> @MEASUREMENT_TYPE_TWOWAY sample_defs) by (simpl; lia).
  assert (H2 : Unused.ranging_measure_type sample_owr_ntf
               <> @MEASUREMENT_TYPE_DLTDOA sample_defs) by (simpl; lia).
  split; [reflexivity | ]. split; [exact H1 | ]. split; [exact H2 | ].
  repeat (split; [reflexivity | ]).
  destruct (@owr_aoa_notification_delivered sample_defs quiet_env
              (unused_loaded (MkVm (Some quiet_env)))
              (MethodID "onRangeDataNotificationReceived"
                 "(Lcom/android/server/uwb/data/UwbRangingData;)V")
              sample_owr_ntf (JState false)
              eq_refl eq_refl H1 H2 eq_refl eq_refl eq_refl)
    as (pre & bs & v & E & _).
  eexists. exact E.
Defined.

Lemma active_ranging_round_bounded_witness :
  Unused.dltdoa_buffers_ok sample_dltdoa = true /\
  exists evs obj rr,
    @Unused.dltdoa_measure sample_defs
      (unused_loaded (MkVm (Some quiet_env))) (Some quiet_env) 0
      sample_dltdoa (JState false) = Done evs obj (JState false) /\
    ctor_arg obj Unused.DL_ARG_ACTIVE_RANGING_ROUND = Some rr /\
    (rr = JNull \/
     exists bs, rr = JByteArray bs /\ (0 < length bs <= 15)%nat).
Proof.
  split; [reflexivity | ].
  exact (proj2 (@active_ranging_round_bounded sample_defs
                  (unused_loaded (MkVm (Some quiet_env))) quiet_env 0
                  sample_dltdoa (JState false) eq_refl)).
Defined.

Lemma dltdoa_address_by_mode_witness :
  Unused.dltdoa_buffers_ok sample_dltdoa = true /\
  exists evs cls ctor args bs,
    @Unused.dltdoa_measure sample_defs
      (unused_loaded (MkVm (Some quiet_env))) (Some quiet_env) 1
      sample_dltdoa (JState false)
    = Done evs (JObject cls ctor args) (JState false) /\
    length args = 20%nat /\
    nth_error args Unused.DL_ARG_MAC = Some (JByteArray bs) /\
    ((1 = @SHORT_MAC_ADDRESS sample_defs /\ length bs = 2%nat) \/
     (1 <> @SHORT_MAC_ADDRESS sample_defs /\ length bs = 8%nat)).
Proof.
  split; [reflexivity | ].
  exact (@dltdoa_address_by_mode sample_defs
           (unused_loaded (MkVm (Some quiet_env))) quiet_env 1
           sample_dltdoa (JState false) eq_refl).
Defined.

Lemma ranging_vendor_payload_witness :
  Unused.vendor_ok sample_twoway_ntf_unused = true /\
  exists evs v,
    Unused.vendor_specific_data (Some quiet_env)
      sample_twoway_ntf_unused (JState false) = Done evs v (JState false) /\
    exists bs, v = JByteArray bs /\ Z.of_nat (length bs) = 2.
Proof.
  split; [reflexivity | ].
  destruct (@ranging_vendor_payload quiet_env
              sample_twoway_ntf_unused (JState false) eq_refl)
    as (evs & v & E & Hpos & _).
  exists evs, v. split; [exact E | ].
  destruct (Hpos ltac:(simpl; lia)) as (bs & Hv & Hl & _).
  exists bs. split; [exact Hv | exact Hl].
Defined.
